(** * Inicio.py: a verification model of the Meteostat dashboard script

    The script is a Streamlit page: it reads the sidebar parameters,
    geocodes (city, country) through an HTTP endpoint, asks the Meteostat
    library for nearby stations, downloads a daily or hourly series,
    renders it and offers it as a CSV download.  Four of its helpers are
    wrapped in [st.cache_data] with a time to live.

    The model is a shallow embedding: Python values become Rocq data,
    the script becomes a computation in a small state-and-exception monad
    over a [world] (clock, the four memo tables, the log of external
    invocations and the widgets written to the page), and the external
    services (HTTP endpoint, Meteostat) are an oracle record. *)

From Stdlib Require Import ZArith Floats Ascii String Sorted.
From stdpp Require Import gmap strings list.

Local Open Scope Z_scope.
Set Warnings "-register-all,-abstract-large-number".

(** ** Python strings

    A Python [str] is a sequence of Unicode code points. *)

Definition pystr : Type := list Z.

(** A sequence of bytes ([bytes]), each in [0, 256). *)
Definition pybytes : Type := list Z.

Module Utf8.

(** [str.encode("utf-8")] on one code point; [None] is UnicodeEncodeError
    (a lone surrogate). *)
Definition encode_cp (c : Z) : option pybytes :=
  if c <? 0 then None
  else if c <? 128 then Some [c]
  else if c <? 2048 then Some [192 + c / 64; 128 + c mod 64]
  else if c <? 65536 then
    if (55296 <=? c) && (c <? 57344) then None
    else Some [224 + c / 4096; 128 + (c / 64) mod 64; 128 + c mod 64]
  else if c <? 1114112 then
    Some [240 + c / 262144; 128 + (c / 4096) mod 64; 128 + (c / 64) mod 64; 128 + c mod 64]
  else None.

Fixpoint encode (s : pystr) : option pybytes :=
  match s with
  | [] => Some []
  | c :: s' =>
      match encode_cp c, encode s' with
      | Some b, Some bs => Some (b ++ bs)
      | _, _ => None
      end
  end.

Definition is_cont (b : Z) : bool := (128 <=? b) && (b <? 192).

(** Strict decoding ([bytes.decode("utf-8")]); [None] is UnicodeDecodeError:
    overlong forms, surrogates, truncated sequences and values past
    U+10FFFF are refused. *)
Fixpoint decode (bs : pybytes) : option pystr :=
  match bs with
  | [] => Some []
  | b0 :: r0 =>
      if b0 <? 0 then None
      else if b0 <? 128 then cons b0 <$> decode r0
      else if b0 <? 192 then None
      else if b0 <? 224 then
        match r0 with
        | b1 :: r1 =>
            let c := (b0 - 192) * 64 + (b1 - 128) in
            if is_cont b1 && (128 <=? c) then cons c <$> decode r1 else None
        | _ => None
        end
      else if b0 <? 240 then
        match r0 with
        | b1 :: b2 :: r2 =>
            let c := (b0 - 224) * 4096 + (b1 - 128) * 64 + (b2 - 128) in
            if is_cont b1 && is_cont b2 && (2048 <=? c)
               && negb ((55296 <=? c) && (c <? 57344))
            then cons c <$> decode r2 else None
        | _ => None
        end
      else if b0 <? 248 then
        match r0 with
        | b1 :: b2 :: b3 :: r3 =>
            let c := (b0 - 240) * 262144 + (b1 - 128) * 4096
                     + (b2 - 128) * 64 + (b3 - 128) in
            if is_cont b1 && is_cont b2 && is_cont b3
               && (65536 <=? c) && (c <? 1114112)
            then cons c <$> decode r3 else None
        | _ => None
        end
      else None
  end.

End Utf8.

(** The bytes of a Rocq string literal, read as UTF-8: how the Python
    literals of the source are written down below. *)
Definition py (s : string) : pystr :=
  default [] (Utf8.decode (map (fun a => Z.of_N (N_of_ascii a)) (list_ascii_of_string s))).
Arguments py : simpl never.

Definition cp_space : Z := 32.
Definition cp_comma : Z := 44.
Definition cp_underscore : Z := 95.
Definition cp_quote : Z := 34.
Definition cp_lf : Z := 10.
Definition cp_cr : Z := 13.
(** U+2014, the em dash the labels are built with. *)
Definition cp_emdash : Z := 8212.

(** [str.isspace] on one code point (the set [str.strip()] removes). *)
Definition is_space (c : Z) : bool :=
  ((9 <=? c) && (c <=? 13)) || ((28 <=? c) && (c <=? 32))
  || (c =? 133) || (c =? 160) || (c =? 5760)
  || ((8192 <=? c) && (c <=? 8202))
  || (c =? 8232) || (c =? 8233) || (c =? 8239) || (c =? 8287) || (c =? 12288).

Fixpoint lstrip_by (p : Z -> bool) (s : pystr) : pystr :=
  match s with
  | c :: s' => if p c then lstrip_by p s' else s
  | [] => []
  end.

Definition rstrip_by (p : Z -> bool) (s : pystr) : pystr :=
  reverse (lstrip_by p (reverse s)).

Definition strip_by (p : Z -> bool) (s : pystr) : pystr :=
  rstrip_by p (lstrip_by p s).

(** [s.strip()] *)
Definition strip (s : pystr) : pystr := strip_by is_space s.

(** [s.strip(",")] *)
Definition strip_chars (chars : pystr) (s : pystr) : pystr :=
  strip_by (fun c => bool_decide (c ∈ chars)) s.

(** [s.replace(old, new)] for one-character [old] and [new]. *)
Definition replace_char (old new : Z) (s : pystr) : pystr :=
  map (fun c => if c =? old then new else c) s.

(** [s.split(sep)[0]] for a one-character [sep]: the text before the first
    occurrence of [sep], the whole of [s] when there is none. *)
Fixpoint split_head (sep : Z) (s : pystr) : pystr :=
  match s with
  | [] => []
  | c :: s' => if c =? sep then [] else c :: split_head sep s'
  end.

(** [s.startswith(prefix)] *)
Fixpoint startswith (s prefix : pystr) : bool :=
  match prefix, s with
  | [], _ => true
  | p :: prefix', c :: s' => (c =? p) && startswith s' prefix'
  | _ :: _, [] => false
  end.

(** Decimal digits of a natural number below [10 ^ n], zero padded to [n]
    places (the ["%0nd"] of the date formats). *)
Fixpoint digits (n : nat) (z : Z) : pystr :=
  match n with
  | O => []
  | S n' => digits n' (z / 10) ++ [48 + z mod 10]
  end.

(** [str(z)] for an [int]: the decimal digits without leading zeros. *)
Definition str_nat (z : Z) : pystr :=
  match lstrip_by (fun c => c =? 48) (digits (S (Z.to_nat (Z.log2 z))) z) with
  | [] => [48]
  | ds => ds
  end.

Definition str_int (z : Z) : pystr :=
  if z <? 0 then 45 :: str_nat (- z) else str_nat z.

(** [sep.join(parts)] *)
Fixpoint join (sep : pystr) (parts : list pystr) : pystr :=
  match parts with
  | [] => []
  | [p] => p
  | p :: rest => p ++ sep ++ join sep rest
  end.

(** ** Dates and times ([datetime.date], [datetime.time], [datetime.datetime]) *)

Record date : Type := Date { year : Z; month : Z; day : Z }.

Record time : Type := Time { hour : Z; minute : Z; second : Z; microsecond : Z }.

Record datetime : Type := DateTime { dt_date : date; dt_time : time }.

(** [time(h, m)]: seconds and microseconds default to 0. *)
Definition time_hm (h m : Z) : time := Time h m 0 0.

(** [a > b] on dates: the order of (year, month, day). *)
Definition date_gt (a b : date) : bool :=
  (year b <? year a)
  || ((year a =? year b)
      && ((month b <? month a)
          || ((month a =? month b) && (day b <? day a)))).

Definition date_eqb (a b : date) : bool :=
  (year a =? year b) && (month a =? month b) && (day a =? day b).

(** [str(d)], the ISO form YYYY-MM-DD. *)
Definition str_date (d : date) : pystr :=
  digits 4 (year d) ++ py "-" ++ digits 2 (month d) ++ py "-" ++ digits 2 (day d).

(** [repr(d)] *)
Definition repr_date (d : date) : pystr :=
  py "datetime.date(" ++ str_int (year d) ++ py ", " ++ str_int (month d)
    ++ py ", " ++ str_int (day d) ++ py ")".

(** What [st.date_input] may hand back, and so what [start_d] and [end_d]
    may hold: a date, or a tuple of dates. *)
Inductive dval : Type :=
  | DDate (d : date)
  | DTuple (ds : list date).

(** [a > b] on tuples of dates: the first differing position decides,
    then the lengths. *)
Fixpoint tuple_gt (a b : list date) : bool :=
  match a, b with
  | [], _ => false
  | _ :: _, [] => true
  | x :: a', y :: b' => if date_eqb x y then tuple_gt a' b' else date_gt x y
  end.

(** [a > b]; [None] is the TypeError of comparing a date with a tuple. *)
Definition dval_gt (a b : dval) : option bool :=
  match a, b with
  | DDate x, DDate y => Some (date_gt x y)
  | DTuple x, DTuple y => Some (tuple_gt x y)
  | _, _ => None
  end.

(** [str(v)]: the ISO date, or the tuple's repr. *)
Definition str_dval (v : dval) : pystr :=
  match v with
  | DDate d => str_date d
  | DTuple [] => py "()"
  | DTuple [d] => py "(" ++ repr_date d ++ py ",)"
  | DTuple ds => py "(" ++ join (py ", ") (map repr_date ds) ++ py ")"
  end.

#[global] Instance date_eq_dec : EqDecision date.
Proof. solve_decision. Defined.

#[global] Instance date_countable : Countable date.
Proof.
  apply (inj_countable' (fun d => (year d, month d, day d))
                        (fun t => Date t.1.1 t.1.2 t.2)).
  by intros [].
Defined.

#[global] Instance dval_eq_dec : EqDecision dval.
Proof. solve_decision. Defined.

#[global] Instance dval_countable : Countable dval.
Proof.
  apply (inj_countable' (fun v => match v with DDate d => inl d | DTuple l => inr l end)
                        (fun s => match s with inl d => DDate d | inr l => DTuple l end)).
  by intros [].
Defined.

(** ** Floats

    Python's [float] is an IEEE 754 binary64, as Rocq's primitive floats. *)

#[global] Instance spec_float_eq_dec : EqDecision spec_float.
Proof. solve_decision. Defined.

#[global] Instance float_eq_dec : EqDecision float.
Proof.
  intros x y. destruct (decide (Prim2SF x = Prim2SF y)) as [e|n].
  - left. rewrite <- (SF2Prim_Prim2SF x), <- (SF2Prim_Prim2SF y). by f_equal.
  - right. congruence.
Defined.

Definition sf_enc (s : spec_float) : (bool + bool) + (unit + bool * positive * Z) :=
  match s with
  | S754_zero b => inl (inl b)
  | S754_infinity b => inl (inr b)
  | S754_nan => inr (inl tt)
  | S754_finite b m e => inr (inr (b, m, e))
  end.

Definition sf_dec (x : (bool + bool) + (unit + bool * positive * Z)) : spec_float :=
  match x with
  | inl (inl b) => S754_zero b
  | inl (inr b) => S754_infinity b
  | inr (inl _) => S754_nan
  | inr (inr (b, m, e)) => S754_finite b m e
  end.

#[global] Instance spec_float_countable : Countable spec_float.
Proof. apply (inj_countable' sf_enc sf_dec). by intros []. Defined.

#[global] Instance float_countable : Countable float.
Proof. apply (inj_countable' Prim2SF SF2Prim). apply SF2Prim_Prim2SF. Defined.

(** [bool(f)]: every float but the two zeros is true. *)
Definition float_truthy (f : float) : bool := negb (PrimFloat.eqb f 0%float).

(** ** Exceptions *)

Inductive exn : Type :=
  | RequestException (detail : pystr)  (* requests.get: connection, timeout *)
  | HTTPError (status : Z)             (* Response.raise_for_status *)
  | JSONDecodeError                    (* Response.json *)
  | AttributeError
  | TypeError
  | ValueError
  | KeyError (key : pystr)
  | IndexError
  | OverflowError
  | UnicodeEncodeError
  | LibraryError (detail : pystr).     (* raised inside Meteostat *)

(** [float(z)] for an [int]: rounded to the nearest double, OverflowError
    past the largest one. *)
Definition float_of_int (z : Z) : exn + float :=
  match binary_normalize prec emax z 0 false with
  | S754_infinity _ => inl OverflowError
  | sf => inr (SF2Prim sf)
  end.

(** [int(f)] for a [float]: truncation towards zero. *)
Definition int_of_float (f : float) : exn + Z :=
  match Prim2SF f with
  | S754_zero _ => inr 0
  | S754_infinity _ => inl OverflowError
  | S754_nan => inl ValueError
  | S754_finite s m e =>
      let a := if 0 <=? e then Z.pos m * 2 ^ e else Z.pos m / 2 ^ (- e) in
      inr (if s then - a else a)
  end.

(** ** Decoded JSON ([Response.json()]) *)

Inductive json : Type :=
  | JNull
  | JBool (b : bool)
  | JInt (z : Z)
  | JFloat (f : float)
  | JStr (s : pystr)
  | JArr (items : list json)
  | JObj (fields : list (pystr * json)).

(** [bool(v)] *)
Definition truthy (v : json) : bool :=
  match v with
  | JNull => false
  | JBool b => b
  | JInt z => negb (z =? 0)
  | JFloat f => float_truthy f
  | JStr s => negb (bool_decide (s = []))
  | JArr l => match l with [] => false | _ => true end
  | JObj l => match l with [] => false | _ => true end
  end.

(** [a or b] *)
Definition py_or (a b : json) : json := if truthy a then a else b.

(** The value bound to [k] in a decoded object (which holds each key once). *)
Fixpoint assoc (k : pystr) (fields : list (pystr * json)) : option json :=
  match fields with
  | [] => None
  | (k', v) :: rest => if bool_decide (k' = k) then Some v else assoc k rest
  end.

(** [v.get(k, dflt)]: only a dict has the method. *)
Definition dict_get (v : json) (k : pystr) (dflt : json) : exn + json :=
  match v with
  | JObj fields => inr (default dflt (assoc k fields))
  | _ => inl AttributeError
  end.

(** [v[k]] on a dict (the other subscriptions the script could meet, on a
    [str] or a number with a [str] key, are TypeErrors). *)
Definition dict_item (v : json) (k : pystr) : exn + json :=
  match v with
  | JObj fields =>
      match assoc k fields with
      | Some x => inr x
      | None => inl (KeyError k)
      end
  | _ => inl TypeError
  end.

(** [for p in v]: the items [v] yields. *)
Definition py_iter (v : json) : exn + list json :=
  match v with
  | JArr l => inr l
  | JStr s => inr (map (fun c => JStr [c]) s)
  | JObj fields => inr (map (fun kv => JStr kv.1) fields)
  | _ => inl TypeError
  end.

(** ** Delimited text *)

Module Csv.

(** The writer pandas hands the rows to ([csv.writer], minimal quoting,
    separator [,], line terminator LF): a field holding the separator, the
    quote character or a line break is enclosed in quotes, its quotes
    doubled. *)
Definition special (c : Z) : bool :=
  (c =? cp_comma) || (c =? cp_quote) || (c =? cp_lf) || (c =? cp_cr).

Definition needs_quote (s : pystr) : bool := existsb special s.

Fixpoint escape (s : pystr) : pystr :=
  match s with
  | [] => []
  | c :: s' => if c =? cp_quote then cp_quote :: cp_quote :: escape s' else c :: escape s'
  end.

Definition write_field (s : pystr) : pystr :=
  if needs_quote s then cp_quote :: escape s ++ [cp_quote] else s.

(** A row that would come out as an empty line (one empty field) is
    written as a pair of quotes. *)
Definition write_row (fields : list pystr) : pystr :=
  match fields with
  | [[]] => [cp_quote; cp_quote; cp_lf]
  | _ => join [cp_comma] (map write_field fields) ++ [cp_lf]
  end.

Definition write (rows : list (list pystr)) : pystr :=
  concat (map write_row rows).

(** Modelled from the spec: the repository has no reader; the spec speaks of
    re-parsing the delimited file.  The reader below is the usual one for
    such text: fields separated by [,], rows ended by LF, a field that
    starts with a quote runs to its closing quote (a doubled quote standing
    for one), and empty lines are skipped.  [None] is a parse error. *)
Inductive pstate : Type := AtStart | InPlain | InQuoted | AfterQuote.

Definition end_row (field : pystr) (row : list pystr) : list pystr :=
  reverse (reverse field :: row).

Fixpoint parse_from (st : pstate) (field : pystr) (row : list pystr) (s : pystr)
    : option (list (list pystr)) :=
  match s with
  | [] =>
      match st, row with
      | AtStart, [] => Some []
      | InQuoted, _ => None
      | _, _ => Some [end_row field row]
      end
  | c :: s' =>
      match st with
      | InQuoted =>
          if c =? cp_quote then parse_from AfterQuote field row s'
          else parse_from InQuoted (c :: field) row s'
      | AfterQuote =>
          if c =? cp_quote then parse_from InQuoted (c :: field) row s'
          else if c =? cp_comma then parse_from AtStart [] (reverse field :: row) s'
          else if c =? cp_lf then cons (end_row field row) <$> parse_from AtStart [] [] s'
          else None
      | AtStart =>
          if c =? cp_quote then parse_from InQuoted [] row s'
          else if c =? cp_comma then parse_from AtStart [] (reverse field :: row) s'
          else if c =? cp_lf then
            match row with
            | [] => parse_from AtStart [] [] s'
            | _ => cons (end_row field row) <$> parse_from AtStart [] [] s'
            end
          else parse_from InPlain (c :: field) row s'
      | InPlain =>
          if c =? cp_quote then None
          else if c =? cp_comma then parse_from AtStart [] (reverse field :: row) s'
          else if c =? cp_lf then cons (end_row field row) <$> parse_from AtStart [] [] s'
          else parse_from InPlain (c :: field) row s'
      end
  end.

Definition parse (s : pystr) : option (list (list pystr)) := parse_from AtStart [] [] s.

End Csv.

(** ** Tables

    The observation table Meteostat returns ([TimeSeries.fetch()]) is a
    pandas DataFrame indexed by time.  Index entries are whole seconds, as
    Meteostat's daily and hourly series are. *)

Record timestamp : Type :=
  Timestamp { ts_date : date; ts_hour : Z; ts_minute : Z; ts_second : Z }.

Inductive dtype : Type := DFloat64 | DInt64 | DBool | DObject | DDatetime64.

#[global] Instance dtype_eq_dec : EqDecision dtype.
Proof. solve_decision. Defined.

(** [pd.api.types.is_numeric_dtype]: integers, floats and booleans. *)
Definition is_numeric_dtype (d : dtype) : bool :=
  match d with
  | DFloat64 | DInt64 | DBool => true
  | DObject | DDatetime64 => false
  end.

Inductive cell : Type :=
  | CFloat (f : float)
  | CInt (z : Z)
  | CBool (b : bool)
  | CStr (s : pystr)
  | CNone.

Record DataFrame : Type := {
  df_index_name : option pystr;
  df_columns : list (pystr * dtype);
  df_rows : list (timestamp * list cell)
}.

(** [df.empty]: one of the two axes has length 0. *)
Definition df_is_empty (df : DataFrame) : bool :=
  match df_rows df, df_columns df with
  | [], _ | _, [] => true
  | _, _ => false
  end.

(** [df.head(n)] *)
Definition df_head (n : nat) (df : DataFrame) : DataFrame :=
  {| df_index_name := df_index_name df;
     df_columns := df_columns df;
     df_rows := take n (df_rows df) |}.

(** A table with the default integer index whose first column holds the
    former time index: what [df.reset_index()] returns. *)
Record Frame : Type := {
  fr_time : pystr;
  fr_columns : list (pystr * dtype);
  fr_rows : list (timestamp * list cell)
}.

(** [fr.columns] with their dtypes. *)
Definition frame_columns (fr : Frame) : list (pystr * dtype) :=
  (fr_time fr, DDatetime64) :: fr_columns fr.

Definition column_names (cols : list (pystr * dtype)) : list pystr := map fst cols.

(** [df.reset_index()]: the index becomes the first column, named after the
    index, or ["index"] (["level_0"] when that is taken) for an unnamed one;
    ValueError when a column of that name exists already. *)
Definition reset_index (df : DataFrame) : exn + Frame :=
  let names := column_names (df_columns df) in
  let name :=
    match df_index_name df with
    | Some n => n
    | None => if bool_decide (py "index" ∈ names) then py "level_0" else py "index"
    end in
  if bool_decide (name ∈ names) then inl ValueError
  else inr {| fr_time := name; fr_columns := df_columns df; fr_rows := df_rows df |}.

(** The station table [ms.stations.nearby(...).reset_index()] returns: an
    [id] column, and [name] and [distance] columns when the table has them. *)
Record station : Type := { st_id : pystr; st_name : json; st_distance : float }.

Record StationFrame : Type := {
  sf_has_name : bool;
  sf_has_distance : bool;
  sf_rows : list station
}.

(** What [ms.stations.inventory(id)] returns, as far as the page shows it. *)
Record Inventory : Type := { inv_start : pystr; inv_end : pystr; inv_df : option (list (list pystr)) }.

(** ** The world outside the script *)

Record Response : Type := { status_code : Z; body : option json }.

(** An invocation of an external service. *)
Inductive ext_call : Type :=
  | HttpGet (url name : pystr) (count : Z) (format language : pystr) (timeout : Z)
  | MsNearby (lat lon elev : float) (limit : Z)
  | MsDaily (station_id : pystr) (start_d end_d : dval)
  | MsHourly (station_id : pystr) (start_dt end_dt : datetime)
  | MsInventory (station_id : pystr).

(** A chart handed to [st.plotly_chart]. *)
Inductive chart : Type :=
  | LineChart (x : pystr) (y : list pystr) (title : pystr)
  | BarChart (x : pystr) (y : pystr) (title : pystr).

(** The services and the parts of the libraries and of the Python runtime
    the model leaves open: what the services answer at a given time; beyond
    the checks written out below, which points Meteostat's [Point] accepts,
    which tables [st.dataframe] accepts and which figures Plotly builds
    ([inl] is the exception raised); how Python prints a float or a
    container, and how it reads a float from text. *)
Class External : Type := {
  http_get : pystr -> pystr -> Z -> pystr -> pystr -> Z -> Z -> exn + Response;
  ms_point_ok : float -> float -> float -> exn + unit;
  ms_nearby : float -> float -> float -> Z -> Z -> exn + StationFrame;
  ms_daily : pystr -> dval -> dval -> Z -> exn + DataFrame;
  ms_hourly : pystr -> datetime -> datetime -> Z -> exn + DataFrame;
  ms_inventory : pystr -> Z -> exn + Inventory;
  st_dataframe_ok : DataFrame -> exn + unit;
  px_ok : Frame -> chart -> exn + unit;
  repr_float : float -> pystr;
  repr_container : json -> pystr;
  float_of_str : pystr -> option float
}.

(** What the script writes to the page, in order. *)
Inductive widget : Type :=
  | StPageConfig (page_title layout : pystr)
  | StTitle (text : pystr)
  | StCaption (text : pystr)
  | StHeader (text : pystr)
  | StSubheader (text : pystr)
  | StTextInput (label value : pystr)
  | StDateInput (label : pystr) (value : dval)
  | StRadio (label : pystr) (options : list pystr) (value : pystr)
  | StSelectbox (label : pystr) (options : list pystr) (value : pystr)
  | StMultiselect (label : pystr) (options default value : list pystr)
  | StExpander (label : pystr)
  | StError (text : pystr) (detail : option exn)
  | StWarning (text : pystr)
  | StInfo (text : pystr)
  | StWrite (text : pystr)
  | StJson (value : json)
  | StInventoryTable (rows : list (list pystr))
  | StDataframe (df : DataFrame)
  | StPlotlyChart (fig : chart)
  | StDownloadButton (label : pystr) (data : pybytes) (file_name mime : pystr).

Record world : Type := World {
  now : Z;
  geocode_cache : gmap (pystr * pystr * Z * pystr) (Z * json);
  stations_cache : gmap (float * float * float) (Z * StationFrame);
  daily_cache : gmap (pystr * dval * dval) (Z * DataFrame);
  hourly_cache : gmap (pystr * dval * dval) (Z * DataFrame);
  ext_log : list ext_call;
  page : list widget
}.

(** The clock moves between (and during) runs; nothing else changes. *)
Definition at_time (t : Z) (w : world) : world :=
  World t (geocode_cache w) (stations_cache w) (daily_cache w) (hourly_cache w)
        (ext_log w) (page w).

(** ** Computations

    A statement either returns, raises, or ends the run ([st.stop()], which
    no [except Exception] catches). *)

Inductive result (A : Type) : Type :=
  | Ret (a : A)
  | Raise (e : exn)
  | Stopped.
Arguments Ret {A} a.
Arguments Raise {A} e.
Arguments Stopped {A}.

Definition M (A : Type) : Type := world -> result A * world.

Definition ret {A : Type} (a : A) : M A := fun w => (Ret a, w).

Definition bind {A B : Type} (m : M A) (k : A -> M B) : M B :=
  fun w =>
    match m w with
    | (Ret a, w') => k a w'
    | (Raise e, w') => (Raise e, w')
    | (Stopped, w') => (Stopped, w')
    end.

#[global] Instance M_ret : MRet M := @ret.
#[global] Instance M_bind : MBind M := fun A B k m => bind m k.

Definition raise {A : Type} (e : exn) : M A := fun w => (Raise e, w).

(** [st.stop()] *)
Definition st_stop {A : Type} : M A := fun w => (Stopped, w).

(** A Python expression that may raise. *)
Definition lift {A : Type} (r : exn + A) : M A :=
  match r with
  | inl e => raise e
  | inr a => ret a
  end.

(** Expressions that may raise compose in the same way. *)
#[global] Instance exn_ret : MRet (sum exn) := fun A a => inr a.
#[global] Instance exn_bind : MBind (sum exn) :=
  fun A B f m =>
    match m with
    | inl e => inl e
    | inr a => f a
    end.

(** [try: m  except Exception as e: h e] *)
Definition try_except {A : Type} (m : M A) (h : exn -> M A) : M A :=
  fun w =>
    match m w with
    | (Raise e, w') => h e w'
    | r => r
    end.

(** Any [st.*] call that writes to the page. *)
Definition st (x : widget) : M unit :=
  fun w => (Ret tt, World (now w) (geocode_cache w) (stations_cache w) (daily_cache w)
                          (hourly_cache w) (ext_log w) (page w ++ [x])).

(** An external invocation: logged, and answered by the service. *)
Definition invoke {A : Type} (c : ext_call) (answer : Z -> exn + A) : M A :=
  fun w =>
    let w' := World (now w) (geocode_cache w) (stations_cache w) (daily_cache w)
                    (hourly_cache w) (ext_log w ++ [c]) (page w) in
    match answer (now w) with
    | inl e => (Raise e, w')
    | inr a => (Ret a, w')
    end.

(** ** The memo tables ([st.cache_data])

    Each decorated function owns one table of the world. *)

Record slot (K V : Type) `{Countable K} : Type := Slot {
  slot_get : world -> gmap K (Z * V);
  slot_set : gmap K (Z * V) -> world -> world
}.
Arguments Slot {K V _ _} _ _.
Arguments slot_get {K V _ _} _ _.
Arguments slot_set {K V _ _} _ _ _.

Definition geocode_slot : slot (pystr * pystr * Z * pystr) json :=
  Slot geocode_cache
       (fun s w => World (now w) s (stations_cache w) (daily_cache w) (hourly_cache w)
                         (ext_log w) (page w)).

Definition stations_slot : slot (float * float * float) StationFrame :=
  Slot stations_cache
       (fun s w => World (now w) (geocode_cache w) s (daily_cache w) (hourly_cache w)
                         (ext_log w) (page w)).

Definition daily_slot : slot (pystr * dval * dval) DataFrame :=
  Slot daily_cache
       (fun s w => World (now w) (geocode_cache w) (stations_cache w) s (hourly_cache w)
                         (ext_log w) (page w)).

Definition hourly_slot : slot (pystr * dval * dval) DataFrame :=
  Slot hourly_cache
       (fun s w => World (now w) (geocode_cache w) (stations_cache w) (daily_cache w) s
                         (ext_log w) (page w)).

(** Modelled from the spec: the decorator [st.cache_data(ttl=...)] is
    Streamlit's, not this repository's; the spec describes it as a key-value
    store with per-entry expiry timestamps.  A call whose argument tuple has
    an entry younger than [ttl] seconds returns the stored result and runs
    nothing; any other call runs the function and, when it returns, stores
    the result with the current time, replacing an expired entry.  A call
    that raises stores nothing. *)
Definition cache_data {K V : Type} `{Countable K}
    (sl : slot K V) (ttl : Z) (f : K -> M V) (args : K) : M V :=
  fun w =>
    let recompute :=
      match f args w with
      | (Ret v, w') => (Ret v, slot_set sl (<[args := (now w', v)]> (slot_get sl w')) w')
      | r => r
      end in
    match slot_get sl w !! args with
    | Some (stored, v) => if now w <? stored + ttl then (Ret v, w) else recompute
    | None => recompute
    end.

Section Program.
Context `{External}.

(** ** Geocoding (lines 17-34) *)

(** [requests.get(url, params=params, timeout=30)] *)
Definition requests_get (url name : pystr) (count : Z) (format language : pystr)
    (timeout : Z) : M Response :=
  invoke (HttpGet url name count format language timeout)
         (http_get url name count format language timeout).

(** [r.raise_for_status()]: an HTTPError for a 4xx or 5xx status. *)
Definition raise_for_status (r : Response) : M unit :=
  if (400 <=? status_code r) && (status_code r <? 600)
  then raise (HTTPError (status_code r)) else ret tt.

(** [r.json()] *)
Definition response_json (r : Response) : M json :=
  match body r with
  | Some v => ret v
  | None => raise JSONDecodeError
  end.

(** The function under the decorator. *)
Definition geocode_city_country_body (args : pystr * pystr * Z * pystr) : M json :=
  let '(city, country, max_results, language) := args in
  let url := py "https://geocoding-api.open-meteo.com/v1/search" in
  let query := strip_chars (py ",") (strip (city ++ py ", " ++ country)) in
  r ← requests_get url query max_results (py "json") language 30;
  raise_for_status r;;
  data ← response_json r;
  results ← lift (dict_get data (py "results") (JArr []));
  ret (py_or results (JArr [])).

Definition geocode_city_country (city country : pystr) (max_results : Z)
    (language : pystr) : M json :=
  cache_data geocode_slot (60 * 60) geocode_city_country_body
             (city, country, max_results, language).

(** ** Meteostat helpers (lines 39-64) *)

(** [ms.Point(lat, lon, elev)]: ValueError for a latitude outside -90..90
    or a longitude outside -180..180. *)
Definition ms_point (lat lon elev : float) : exn + unit :=
  if PrimFloat.ltb lat (-90)%float || PrimFloat.ltb 90%float lat
     || PrimFloat.ltb lon (-180)%float || PrimFloat.ltb 180%float lon
  then inl ValueError
  else ms_point_ok lat lon elev.

(** The point is built first and may refuse the coordinates; only then is
    the lookup asked. *)
Definition nearby_stations_body (args : float * float * float) : M StationFrame :=
  let '(lat, lon, elev) := args in
  lift (ms_point lat lon elev);;
  invoke (MsNearby lat lon elev 10) (ms_nearby lat lon elev 10).

Definition nearby_stations (lat lon elev : float) : M StationFrame :=
  cache_data stations_slot (60 * 60) nearby_stations_body (lat, lon, elev).

Definition fetch_daily_body (args : pystr * dval * dval) : M DataFrame :=
  let '(station_id, start_d, end_d) := args in
  invoke (MsDaily station_id start_d end_d) (ms_daily station_id start_d end_d).

Definition fetch_daily (station_id : pystr) (start_d end_d : dval) : M DataFrame :=
  cache_data daily_slot (60 * 30) fetch_daily_body (station_id, start_d, end_d).

(** [datetime.combine(d, t)]: TypeError unless [d] is a date. *)
Definition datetime_combine (d : dval) (t : time) : exn + datetime :=
  match d with
  | DDate d => inr (DateTime d t)
  | DTuple _ => inl TypeError
  end.

Definition fetch_hourly_body (args : pystr * dval * dval) : M DataFrame :=
  let '(station_id, start_d, end_d) := args in
  start_dt ← lift (datetime_combine start_d (time_hm 0 0));
  end_dt ← lift (datetime_combine end_d (time_hm 23 59));
  invoke (MsHourly station_id start_dt end_dt) (ms_hourly station_id start_dt end_dt).

Definition fetch_hourly (station_id : pystr) (start_d end_d : dval) : M DataFrame :=
  cache_data hourly_slot (60 * 30) fetch_hourly_body (station_id, start_d, end_d).

(** [io.StringIO], [to_csv(buf, index=False)] and the text pandas writes
    for each value: a datetime column shows dates alone when every entry
    is at midnight, a missing value is the empty field. *)
Definition is_midnight (t : timestamp) : bool :=
  (ts_hour t =? 0) && (ts_minute t =? 0) && (ts_second t =? 0).

Definition format_timestamp (date_only : bool) (t : timestamp) : pystr :=
  if date_only then str_date (ts_date t)
  else str_date (ts_date t) ++ py " " ++ digits 2 (ts_hour t) ++ py ":"
       ++ digits 2 (ts_minute t) ++ py ":" ++ digits 2 (ts_second t).

Definition cell_text (c : cell) : pystr :=
  match c with
  | CFloat f => if PrimFloat.is_nan f then [] else repr_float f
  | CInt z => str_int z
  | CBool b => if b then py "True" else py "False"
  | CStr s => s
  | CNone => []
  end.

Definition frame_records (fr : Frame) : list (list pystr) :=
  let date_only := forallb is_midnight (map fst (fr_rows fr)) in
  map (fun r => format_timestamp date_only r.1 :: map cell_text r.2) (fr_rows fr).

Definition to_csv (fr : Frame) : pystr :=
  Csv.write (column_names (frame_columns fr) :: frame_records fr).

(** [s.encode("utf-8")] *)
Definition encode_utf8 (s : pystr) : exn + pybytes :=
  match Utf8.encode s with
  | Some b => inr b
  | None => inl UnicodeEncodeError
  end.

Definition df_to_csv_bytes (df : DataFrame) : exn + pybytes :=
  match reset_index df with
  | inl e => inl e
  | inr df_reset => encode_utf8 (to_csv df_reset)
  end.

(** ** Python conversions the script applies to decoded JSON *)

(** [str(v)], what an f-string writes for [v]. *)
Definition py_str (v : json) : pystr :=
  match v with
  | JNull => py "None"
  | JBool b => if b then py "True" else py "False"
  | JInt z => str_int z
  | JFloat f => repr_float f
  | JStr s => s
  | JArr _ | JObj _ => repr_container v
  end.

(** [float(v)] *)
Definition py_float (v : json) : exn + float :=
  match v with
  | JFloat f => inr f
  | JInt z => float_of_int z
  | JBool b => inr (if b then 1%float else 0%float)
  | JStr s =>
      match float_of_str s with
      | Some f => inr f
      | None => inl ValueError
      end
  | JNull | JArr _ | JObj _ => inl TypeError
  end.

(** [v[i]] for an integer [i] within range. *)
Definition py_getitem (v : json) (i : nat) : exn + json :=
  match v with
  | JArr l =>
      match l !! i with
      | Some x => inr x
      | None => inl IndexError
      end
  | JStr s =>
      match s !! i with
      | Some c => inr (JStr [c])
      | None => inl IndexError
      end
  | JObj _ => inl (KeyError (str_int (Z.of_nat i)))
  | _ => inl TypeError
  end.

(** [l.index(x)]: the first position of [x]. *)
Fixpoint list_index (x : pystr) (l : list pystr) : option nat :=
  match l with
  | [] => None
  | y :: l' => if bool_decide (y = x) then Some 0%nat else S <$> list_index x l'
  end.

(** ** The page and its widgets (lines 10-12, 69-80) *)

Record inputs : Type := {
  country : pystr;          (* st.text_input("País") *)
  city : pystr;             (* st.text_input("Cidade") *)
  period : dval;            (* st.date_input("Período (por dias)") *)
  granularity : nat;        (* the option chosen in st.radio *)
  place_choice : nat;       (* the option chosen in the place selectbox *)
  station_choice : nat;     (* the option chosen in the station selectbox *)
  columns_choice : option (list nat)  (* the multiselect, None when untouched *)
}.

(** The option a selectbox or radio returns: the chosen one, the one at
    [index=0] while the user has chosen none, [None] without options. *)
Definition chosen (options : list pystr) (i : nat) : option pystr :=
  match options !! i with
  | Some x => Some x
  | None => head options
  end.

Definition selectbox (label : pystr) (options : list pystr) (i : nat) : M (option pystr) :=
  let v := chosen options i in
  st (StSelectbox label options (default (py "None") v));;
  ret v.

(** [st.multiselect(label, options=..., default=...)] *)
Definition multiselect (label : pystr) (options dflt : list pystr)
    (choice : option (list nat)) : M (list pystr) :=
  let v :=
    match choice with
    | None => dflt
    | Some picks => omap (fun i => options !! i) picks
    end in
  st (StMultiselect label options dflt v);;
  ret v.

Definition granularity_options : list pystr :=
  [py "Diário (recomendado)"; py "Horário"].

Definition header_and_sidebar (i : inputs) : M pystr :=
  st (StPageConfig (py "Clima (Cidade/País) - Meteostat") (py "wide"));;
  st (StTitle (py "Consulta Climática por Cidade e País (Meteostat)"));;
  st (StCaption (py "Busca por País + Cidade, período em dias, gráficos e download em CSV."));;
  st (StHeader (py "Parâmetros de busca"));;
  st (StTextInput (py "País") (country i));;
  st (StTextInput (py "Cidade") (city i));;
  st (StDateInput (py "Período (por dias)") (period i));;
  let g := default [] (chosen granularity_options (granularity i)) in
  st (StRadio (py "Tipo de dado") granularity_options g);;
  ret g.

(** ** Date normalisation and validation (lines 83-90) *)

Definition normalize_period (period : dval) : dval * dval :=
  match period with
  | DTuple [a; b] => (DDate a, DDate b)
  | _ => (period, period)
  end.

Definition validate_period (start_d end_d : dval) : M unit :=
  gt ← lift (match dval_gt start_d end_d with
             | Some b => inr b
             | None => inl TypeError
             end);
  if gt : bool then
    st (StError (py "A data inicial não pode ser maior que a data final.") None);;
    st_stop
  else ret tt.

(** ** 1) Geocode (lines 95-131) *)

(** The label of one candidate (lines 109-112). *)
Definition place_label (p : json) : exn + pystr :=
  admin1 ← dict_get p (py "admin1") (JStr []);
  admin2 ← dict_get p (py "admin2") (JStr []);
  ctry ← dict_get p (py "country") (JStr []);
  name ← dict_get p (py "name") (JStr []);
  latitude ← dict_get p (py "latitude") JNull;
  longitude ← dict_get p (py "longitude") JNull;
  mret (py_str name ++ py " — " ++ py_str admin1 ++ py " " ++ py_str admin2
        ++ py " (" ++ py_str ctry ++ py ") [lat=" ++ py_str latitude
        ++ py ", lon=" ++ py_str longitude ++ py "]").

(** Lines 118-120: the point handed to the station lookup. *)
Definition place_coordinates (selected_place : json) : exn + (float * float * float) :=
  lat ← (v ← dict_item selected_place (py "latitude"); py_float v);
  lon ← (v ← dict_item selected_place (py "longitude"); py_float v);
  elev ← (v ← dict_get selected_place (py "elevation") JNull;
          py_float (py_or v (JFloat 0%float)));
  mret (lat, lon, elev).

(** Lines 122-131: the details shown in the expander. *)
Definition place_details (selected_place : json) (lat lon elev : float) : exn + json :=
  name ← dict_get selected_place (py "name") JNull;
  ctry ← dict_get selected_place (py "country") JNull;
  admin1 ← dict_get selected_place (py "admin1") JNull;
  timezone ← dict_get selected_place (py "timezone") JNull;
  mret (JObj [(py "name", name); (py "country", ctry); (py "admin1", admin1);
              (py "timezone", timezone); (py "latitude", JFloat lat);
              (py "longitude", JFloat lon); (py "elevation", JFloat elev)]).

Definition geocode_stage (i : inputs) : M (float * float * float) :=
  places ← try_except
    (geocode_city_country (city i) (country i) 10 (py "pt"))
    (fun e =>
       st (StError (py "Falha ao geocodificar '" ++ city i ++ py ", " ++ country i
                    ++ py "'. Detalhe: ") (Some e));;
       st_stop);
  (if truthy places then ret tt
   else
     st (StWarning (py "Nenhuma localização encontrada. Verifique a grafia de Cidade/País e tente novamente."));;
     st_stop);;
  items ← lift (py_iter places);
  place_labels ← mapM (fun p => lift (place_label p)) items;
  selected_place_label ←
    selectbox (py "Local encontrado (selecione se houver mais de um)")
              place_labels (place_choice i);
  idx ← lift (match selected_place_label ≫= (fun l => list_index l place_labels) with
              | Some n => inr n
              | None => inl ValueError
              end);
  selected_place ← lift (py_getitem places idx);
  '(lat, lon, elev) ← lift (place_coordinates selected_place);
  st (StExpander (py "Detalhes do local (opcional)"));;
  details ← lift (place_details selected_place lat lon elev);
  st (StJson details);;
  ret (lat, lon, elev).

(** ** 2) The station, chosen automatically (lines 136-169) *)

(** [st_df.empty] *)
Definition sf_is_empty (sf : StationFrame) : bool :=
  match sf_rows sf with
  | [] => true
  | _ => false
  end.

(** The label of one row of [st_df] (the lambda of line 154). *)
Definition station_label (sf : StationFrame) (r : station) : exn + pystr :=
  let name := if sf_has_name sf then st_name r else JStr (py "(sem nome)") in
  match (if sf_has_distance sf then int_of_float (st_distance r) else inr 0) with
  | inl e => inl e
  | inr distance =>
      inr (st_id r ++ py " — " ++ py_str name ++ py " (distância: " ++ str_int distance
           ++ py " m)")
  end.

(** [station_label.split("—")[0].strip()] *)
Definition station_id_of_label (label : pystr) : pystr :=
  strip (split_head cp_emdash label).

(** Lines 136-158: the station table, the default and the override. *)
Definition select_station (i : inputs) (lat lon elev : float) : M (pystr * pystr) :=
  st_df ← try_except
    (nearby_stations lat lon elev)
    (fun e =>
       st (StError (py "Falha ao buscar estações próximas no Meteostat. Detalhe: ") (Some e));;
       st_stop);
  (if sf_is_empty st_df then
     st (StWarning (py "Nenhuma estação próxima foi encontrada para este local."));;
     st_stop
   else ret tt);;
  first ← lift (match head (sf_rows st_df) with
                | Some r => inr r
                | None => inl (KeyError (py "0"))
                end);
  let default_station_id := st_id first in
  let default_station_name :=
    if sf_has_name st_df then py_str (st_name first) else default_station_id in
  st (StExpander (py "Trocar estação (opcional)"));;
  labels ← mapM (fun r => lift (station_label st_df r)) (sf_rows st_df);
  station_label ← selectbox (py "Estação") labels (station_choice i);
  station_id ← lift (match station_label with
                     | Some l => inr (station_id_of_label l)
                     | None => inl AttributeError
                     end);
  ret (station_id, default_station_name).

(** Lines 161-169: the station shown, and its inventory. *)
Definition show_station (station_id default_station_name : pystr) : M unit :=
  st (StSubheader (py "Estação selecionada"));;
  st (StWrite (py "**" ++ station_id ++ py "** — " ++ default_station_name));;
  st (StExpander (py "Disponibilidade de dados da estação (inventory)"));;
  inv ← invoke (MsInventory station_id) (ms_inventory station_id);
  st (StWrite (py "Dados disponíveis de **" ++ inv_start inv ++ py "** até **"
               ++ inv_end inv ++ py "**."));;
  match inv_df inv with
  | Some t => st (StInventoryTable t)
  | None => ret tt
  end.

Definition station_stage (i : inputs) (lat lon elev : float) : M pystr :=
  '(station_id, default_station_name) ← select_station i lat lon elev;
  show_station station_id default_station_name;;
  ret station_id.

(** ** 3) The series (lines 174-186) *)

Definition fetch_stage (g station_id : pystr) (start_d end_d : dval) : M DataFrame :=
  df ← try_except
    (if startswith g (py "Diário")
     then fetch_daily station_id start_d end_d
     else fetch_hourly station_id start_d end_d)
    (fun e =>
       st (StError (py "Falha ao buscar série temporal. Detalhe: ") (Some e));;
       st_stop);
  (if df_is_empty df then
     st (StWarning (py "A consulta retornou vazio para o período selecionado. Tente outro intervalo de datas."));;
     st_stop
   else ret tt);;
  ret df.

(** ** 4) Preview, charts and download (lines 188-219) *)

(** [pd.api.types.is_numeric_dtype(df_plot[c])]: [df_plot[c]] is a column
    only when one column bears the name. *)
Definition is_numeric_column (cols : list (pystr * dtype)) (c : pystr) : bool :=
  match filter (fun nd => nd.1 = c) cols with
  | [(_, d)] => is_numeric_dtype d
  | _ => false
  end.

Definition time_col : pystr := py "time".

Definition numeric_cols (df_plot : Frame) : list pystr :=
  filter (fun c => c ≠ time_col ∧ is_numeric_column (frame_columns df_plot) c = true)
         (column_names (frame_columns df_plot)).

Definition preferred_cols : list pystr :=
  [py "temp"; py "tmin"; py "tmax"; py "prcp"; py "wspd"; py "pres"; py "rhum"].

Definition default_cols (df_plot : Frame) : list pystr :=
  filter (fun c => c ∈ numeric_cols df_plot) preferred_cols.

(** [default_cols or numeric_cols[:2]] *)
Definition multiselect_default (df_plot : Frame) : list pystr :=
  match default_cols df_plot with
  | [] => take 2 (numeric_cols df_plot)
  | d => d
  end.

(** The dtype of the column a name selects, when one column bears it. *)
Definition column_dtype (cols : list (pystr * dtype)) (c : pystr) : option dtype :=
  match filter (fun nd => nd.1 = c) cols with
  | [(_, d)] => Some d
  | _ => None
  end.

(** The kind Plotly compares the columns of a wide-form figure by: integers
    and floats are one kind. *)
Definition dtype_kind (d : dtype) : pystr :=
  match d with
  | DFloat64 | DInt64 => py "number"
  | DBool => py "b"
  | DObject => py "O"
  | DDatetime64 => py "M"
  end.

Definition same_kind (cols : list (pystr * dtype)) (ys : list pystr) : bool :=
  match omap (column_dtype cols) ys with
  | [] => true
  | d :: ds => forallb (fun d' => bool_decide (dtype_kind d' = dtype_kind d)) ds
  end.

(** [px.line] with a list of columns raises ValueError when the columns are
    of different kinds (booleans beside numbers). *)
Definition px_check (df_plot : Frame) (fig : chart) : exn + unit :=
  match fig with
  | LineChart _ ys _ =>
      if same_kind (frame_columns df_plot) ys then px_ok df_plot fig else inl ValueError
  | BarChart _ _ _ => px_ok df_plot fig
  end.

(** [st.dataframe] hands the table to Arrow, which raises ValueError for a
    column name borne twice. *)
Definition st_dataframe_check (df : DataFrame) : exn + unit :=
  if bool_decide (NoDup (column_names (df_columns df))) then st_dataframe_ok df
  else inl ValueError.

(** [px.line] and [px.bar] need the column they plot against (ValueError
    without it). *)
Definition px_figure (df_plot : Frame) (fig : chart) : exn + chart :=
  let x := match fig with LineChart x _ _ | BarChart x _ _ => x end in
  if bool_decide (x ∈ column_names (frame_columns df_plot)) then
    match px_check df_plot fig with
    | inl e => inl e
    | inr _ => inr fig
    end
  else inl ValueError.

Definition file_name (country city station_id : pystr) (start_d end_d : dval) : pystr :=
  replace_char cp_space cp_underscore
    (py "meteostat_" ++ country ++ py "_" ++ city ++ py "_" ++ station_id ++ py "_"
     ++ str_dval start_d ++ py "_" ++ str_dval end_d ++ py ".csv").

(** Lines 202-211: the line chart, and the precipitation bars. *)
Definition draw_charts (df_plot : Frame) (selected_cols : list pystr) : M unit :=
  match selected_cols with
  | _ :: _ =>
      fig ← lift (px_figure df_plot
                    (LineChart time_col selected_cols (py "Série temporal (interativa)")));
      st (StPlotlyChart fig);;
      if bool_decide (py "prcp" ∈ selected_cols) then
        fig2 ← lift (px_figure df_plot
                       (BarChart time_col (py "prcp") (py "Precipitação (prcp)")));
        st (StPlotlyChart fig2)
      else ret tt
  | [] => st (StInfo (py "Selecione ao menos uma variável para plotar."))
  end.

(** [st.dataframe(df, use_container_width=True)]: the table is drawn when
    it is accepted. *)
Definition st_dataframe (df : DataFrame) : M unit :=
  lift (st_dataframe_check df);;
  st (StDataframe df).

Definition render_stage (i : inputs) (station_id : pystr) (start_d end_d : dval)
    (df : DataFrame) : M unit :=
  st (StSubheader (py "Pré-visualização dos dados"));;
  st_dataframe (df_head 50 df);;
  df_plot ← lift (reset_index df);
  st (StSubheader (py "Gráficos"));;
  selected_cols ← multiselect (py "Selecione variáveis") (numeric_cols df_plot)
                    (multiselect_default df_plot) (columns_choice i);
  draw_charts df_plot selected_cols;;
  st (StSubheader (py "Download"));;
  data ← lift (df_to_csv_bytes df);
  st (StDownloadButton (py "Baixar CSV") data
        (file_name (country i) (city i) station_id start_d end_d) (py "text/csv")).

(** ** The script, top to bottom *)

Definition script (i : inputs) : M unit :=
  g ← header_and_sidebar i;
  let '(start_d, end_d) := normalize_period (period i) in
  validate_period start_d end_d;;
  '(lat, lon, elev) ← geocode_stage i;
  station_id ← station_stage i lat lon elev;
  df ← fetch_stage g station_id start_d end_d;
  render_stage i station_id start_d end_d df.

End Program.

(** ** Reading the export back *)

Definition digit (c : Z) : option Z :=
  if (48 <=? c) && (c <=? 57) then Some (c - 48) else None.

Fixpoint number (s : pystr) (acc : Z) : option Z :=
  match s with
  | [] => Some acc
  | c :: s' => d ← digit c; number s' (acc * 10 + d)
  end.

(** Modelled from the spec: the reader's side of the time column, the
    inverse of the two forms the export writes (YYYY-MM-DD and
    YYYY-MM-DD HH:MM:SS). *)
Definition parse_date (s : pystr) : option date :=
  match s with
  | [y1; y2; y3; y4; a; m1; m2; b; d1; d2] =>
      if (a =? 45) && (b =? 45) then
        y ← number [y1; y2; y3; y4] 0;
        m ← number [m1; m2] 0;
        d ← number [d1; d2] 0;
        Some (Date y m d)
      else None
  | _ => None
  end.

Definition parse_timestamp (s : pystr) : option timestamp :=
  d ← parse_date (take 10 s);
  match drop 10 s with
  | [] => Some (Timestamp d 0 0 0)
  | [sp; h1; h2; a; m1; m2; b; s1; s2] =>
      if (sp =? 32) && (a =? 58) && (b =? 58) then
        h ← number [h1; h2] 0;
        m ← number [m1; m2] 0;
        s ← number [s1; s2] 0;
        Some (Timestamp d h m s)
      else None
  | _ => None
  end.

(** Modelled from the spec: re-parsing the exported file: decode the bytes,
    split the text into records, take the first as the header. *)
Definition read_csv (data : pybytes) : option (list pystr * list (list pystr)) :=
  text ← Utf8.decode data;
  records ← Csv.parse text;
  match records with
  | header :: rows => Some (header, rows)
  | [] => None
  end.

(** The time column of the re-parsed file. *)
Definition read_time_index (data : pybytes) : option (list timestamp) :=
  '(_, rows) ← read_csv data;
  mapM (fun r => head r ≫= parse_timestamp) rows.

(** Index entries a pandas Timestamp can hold and the export writes in the
    fixed-width forms above. *)
Definition valid_timestamp (t : timestamp) : Prop :=
  0 <= year (ts_date t) <= 9999 /\ 0 <= month (ts_date t) <= 99
  /\ 0 <= day (ts_date t) <= 99 /\ 0 <= ts_hour t <= 99
  /\ 0 <= ts_minute t <= 99 /\ 0 <= ts_second t <= 99.

(** ** Worlds that differ in the page or the log *)

Definition with_page (w : world) (xs : list widget) : world :=
  World (now w) (geocode_cache w) (stations_cache w) (daily_cache w) (hourly_cache w)
        (ext_log w) (page w ++ xs).

Definition with_log (w : world) (cs : list ext_call) : world :=
  World (now w) (geocode_cache w) (stations_cache w) (daily_cache w) (hourly_cache w)
        (ext_log w ++ cs) (page w).

(** The widgets every run draws first. *)
Definition header_widgets (i : inputs) : list widget :=
  [ StPageConfig (py "Clima (Cidade/País) - Meteostat") (py "wide");
    StTitle (py "Consulta Climática por Cidade e País (Meteostat)");
    StCaption (py "Busca por País + Cidade, período em dias, gráficos e download em CSV.");
    StHeader (py "Parâmetros de busca");
    StTextInput (py "País") (country i);
    StTextInput (py "Cidade") (city i);
    StDateInput (py "Período (por dias)") (period i);
    StRadio (py "Tipo de dado") granularity_options
            (default [] (chosen granularity_options (granularity i))) ].

(** * Properties *)

Lemma with_page_app w xs ys : with_page (with_page w xs) ys = with_page w (xs ++ ys).
Proof. unfold with_page; simpl. by rewrite app_assoc. Qed.

Lemma with_log_nil (w : world) : with_log w [] = w.
Proof. destruct w. unfold with_log. cbn. by rewrite app_nil_r. Qed.

Lemma st_spec x w : st x w = (Ret tt, with_page w [x]).
Proof. reflexivity. Qed.

Lemma bind_st {B : Type} (x : widget) (k : unit -> M B) (w : world) :
  (st x ≫= k) w = k tt (with_page w [x]).
Proof. reflexivity. Qed.

Lemma bind_ret {A B : Type} (a : A) (k : A -> M B) (w : world) :
  (ret a ≫= k) w = k a w.
Proof. reflexivity. Qed.

Lemma bind_lift_inr {A B : Type} (a : A) (k : A -> M B) (w : world) :
  (lift (inr a) ≫= k) w = k a w.
Proof. reflexivity. Qed.

Lemma bind_lift_inl {A B : Type} (e : exn) (k : A -> M B) (w : world) :
  (lift (inl e) ≫= k) w = (Raise e, w).
Proof. reflexivity. Qed.

Lemma selectbox_spec (label : pystr) (options : list pystr) (i : nat) (w : world) :
  selectbox label options i w
  = (Ret (chosen options i),
     with_page w [StSelectbox label options (default (py "None") (chosen options i))]).
Proof. reflexivity. Qed.

Lemma multiselect_spec (label : pystr) (options dflt : list pystr)
    (choice : option (list nat)) (w : world) :
  multiselect label options dflt choice w
  = (let v := match choice with
              | None => dflt
              | Some picks => omap (fun i => options !! i) picks
              end in
     (Ret v, with_page w [StMultiselect label options dflt v])).
Proof. reflexivity. Qed.

Lemma try_except_ret {A : Type} (m : M A) (h : exn -> M A) (a : A) (w w' : world) :
  m w = (Ret a, w') -> try_except m h w = (Ret a, w').
Proof. intros E. unfold try_except. by rewrite E. Qed.

Lemma try_except_raise {A : Type} (m : M A) (h : exn -> M A) (e : exn) (w w' : world) :
  m w = (Raise e, w') -> try_except m h w = h e w'.
Proof. intros E. unfold try_except. by rewrite E. Qed.

Lemma header_and_sidebar_spec (i : inputs) (w : world) :
  header_and_sidebar i w
  = (Ret (default [] (chosen granularity_options (granularity i))),
     with_page w (header_widgets i)).
Proof.
  unfold header_and_sidebar. rewrite !bind_st, !with_page_app. reflexivity.
Qed.

Section Validation.
Context `{External}.

Lemma bind_ret_l {A B : Type} (m : M A) (k : A -> M B) (a : A) (w w' : world) :
  m w = (Ret a, w') -> (m ≫= k) w = k a w'.
Proof. intros E. unfold mbind, M_bind, bind. by rewrite E. Qed.

Lemma bind_stopped {A B : Type} (m : M A) (k : A -> M B) (w w' : world) :
  m w = (Stopped, w') -> (m ≫= k) w = (Stopped, w').
Proof. intros E. unfold mbind, M_bind, bind. by rewrite E. Qed.

Lemma bind_raise {A B : Type} (m : M A) (k : A -> M B) (e : exn) (w w' : world) :
  m w = (Raise e, w') -> (m ≫= k) w = (Raise e, w').
Proof. intros E. unfold mbind, M_bind, bind. by rewrite E. Qed.

Lemma validate_period_rejects (start_d end_d : dval) (w : world) :
  dval_gt start_d end_d = Some true ->
  validate_period start_d end_d w
  = (Stopped,
     with_page w [StError (py "A data inicial não pode ser maior que a data final.") None]).
Proof. intros E. unfold validate_period. rewrite E. reflexivity. Qed.

Lemma validate_period_accepts (start_d end_d : dval) (w : world) :
  dval_gt start_d end_d = Some false ->
  validate_period start_d end_d w = (Ret tt, w).
Proof. intros E. unfold validate_period. rewrite E. reflexivity. Qed.

(** C2.  When the start date is strictly after the end date the run stops
    right after the sidebar with the validation error as the last thing on
    the page; the log of external invocations and the four memo tables
    are untouched: no geocoding call, no station lookup, no series fetch. *)
Theorem start_after_end_halts (i : inputs) (w : world) (start_d end_d : dval) :
  normalize_period (period i) = (start_d, end_d) ->
  dval_gt start_d end_d = Some true ->
  script i w
  = (Stopped,
     with_page w (header_widgets i
                  ++ [StError (py "A data inicial não pode ser maior que a data final.") None]))
  /\ ext_log (script i w).2 = ext_log w
  /\ geocode_cache (script i w).2 = geocode_cache w
  /\ stations_cache (script i w).2 = stations_cache w
  /\ daily_cache (script i w).2 = daily_cache w
  /\ hourly_cache (script i w).2 = hourly_cache w.
Proof.
  intros Hn Hgt.
  assert (script i w
          = (Stopped,
             with_page w (header_widgets i
               ++ [StError (py "A data inicial não pode ser maior que a data final.") None])))
    as E.
  { unfold script.
    rewrite (bind_ret_l _ _ _ _ _ (header_and_sidebar_spec i w)).
    rewrite Hn.
    rewrite (bind_stopped _ _ _ _ (validate_period_rejects _ _ _ Hgt)).
    by rewrite with_page_app. }
  rewrite E. by repeat split.
Qed.

End Validation.

(** ** The memo tables *)

(** What memoization asks of one decorated function [f] at the arguments
    [a]: its table is [sl], the arguments are stored under [key a] and the
    body asks the outside world [request a]. *)
Definition memoized_at {A K V : Type} `{Countable K} (sl : slot K V) (ttl : Z)
    (key : A -> K) (f : A -> M V) (request : A -> ext_call) (a : A) : Prop :=
  forall (w : world),
    (* an entry younger than ttl is returned, and nothing else happens *)
    (forall stored v,
        slot_get sl w !! key a = Some (stored, v) -> now w < stored + ttl ->
        f a w = (Ret v, w))
    (* otherwise the service is invoked once; a result is stored with the
       current time, over whatever was there *)
    /\ ((forall stored v, slot_get sl w !! key a = Some (stored, v) -> stored + ttl <= now w) ->
        exists r w',
          f a w = (r, w') /\ ext_log w' = ext_log w ++ [request a] /\ now w' = now w
          /\ slot_get sl w'
             = match r with
               | Ret v => <[key a := (now w, v)]> (slot_get sl w)
               | _ => slot_get sl w
               end)
    (* two identical calls: once a call has invoked the service and stored
       its result, a second call within the window returns it without an
       invocation; after the window a second call invokes the service again
       and its result replaces the entry *)
    /\ (forall v w1,
          (forall stored v0, slot_get sl w !! key a = Some (stored, v0) -> stored + ttl <= now w) ->
          f a w = (Ret v, w1) ->
          (forall t, t < now w + ttl -> f a (at_time t w1) = (Ret v, at_time t w1))
          /\ (forall t, now w + ttl <= t ->
                exists r w2,
                  f a (at_time t w1) = (r, w2)
                  /\ ext_log w2 = ext_log w1 ++ [request a]
                  /\ forall v', r = Ret v' -> slot_get sl w2 !! key a = Some (t, v'))).

(** The same of every argument tuple. *)
Definition memoized {A K V : Type} `{Countable K} (sl : slot K V) (ttl : Z)
    (key : A -> K) (f : A -> M V) (request : A -> ext_call) : Prop :=
  forall (a : A), memoized_at sl ttl key f request a.

Section Memo.
Context {A K V : Type} `{Countable K}.
Variables (sl : slot K V) (ttl : Z) (key : A -> K) (body : K -> M V)
          (request : A -> ext_call) (a : A).

Hypothesis get_set : forall s w, slot_get sl (slot_set sl s w) = s.
Hypothesis now_set : forall s w, now (slot_set sl s w) = now w.
Hypothesis log_set : forall s w, ext_log (slot_set sl s w) = ext_log w.
Hypothesis get_log : forall w cs, slot_get sl (with_log w cs) = slot_get sl w.
Hypothesis get_time : forall t w, slot_get sl (at_time t w) = slot_get sl w.
Hypothesis body_invokes :
  forall w, exists r, body (key a) w = (r, with_log w [request a]).

Lemma cache_hit (k : K) (w : world) (stored : Z) (v : V) :
  slot_get sl w !! k = Some (stored, v) -> now w < stored + ttl ->
  cache_data sl ttl body k w = (Ret v, w).
Proof.
  intros E Hlt. unfold cache_data. rewrite E.
  destruct (Z.ltb_spec (now w) (stored + ttl)); [done | lia].
Qed.

Lemma cache_miss (k : K) (w : world) :
  (forall stored v, slot_get sl w !! k = Some (stored, v) -> stored + ttl <= now w) ->
  cache_data sl ttl body k w
  = match body k w with
    | (Ret v, w') => (Ret v, slot_set sl (<[k := (now w', v)]> (slot_get sl w')) w')
    | r => r
    end.
Proof.
  intros Hold. unfold cache_data.
  destruct (slot_get sl w !! k) as [[stored v]|] eqn:E; [|done].
  specialize (Hold _ _ eq_refl).
  destruct (Z.ltb_spec (now w) (stored + ttl)); [lia | done].
Qed.

Lemma memoized_at_intro :
  memoized_at sl ttl key (fun a => cache_data sl ttl body (key a)) request a.
Proof.
  assert (forall (w : world),
             (forall stored v, slot_get sl w !! key a = Some (stored, v) -> stored + ttl <= now w) ->
             exists r w',
               cache_data sl ttl body (key a) w = (r, w')
               /\ ext_log w' = ext_log w ++ [request a] /\ now w' = now w
               /\ slot_get sl w'
                  = match r with
                    | Ret v => <[key a := (now w, v)]> (slot_get sl w)
                    | _ => slot_get sl w
                    end) as Hmiss.
  { intros w Hold. rewrite (cache_miss _ _ Hold).
    destruct (body_invokes w) as [r E]. rewrite E.
    destruct r as [v|e|]; eexists _, _; (split; [reflexivity|]).
    - by rewrite log_set, now_set, get_set, get_log.
    - by rewrite get_log.
    - by rewrite get_log. }
  intros w. split; [|split].
  - intros stored v E Hlt. by apply (cache_hit _ _ stored).
  - exact (Hmiss w).
  - intros v w1 Hold E.
    destruct (Hmiss w Hold) as (r & w' & E' & Hlog & Hnow & Hget).
    rewrite E in E'. injection E' as <- <-.
    assert (slot_get sl w1 !! key a = Some (now w, v)) as Hentry
      by (rewrite Hget; apply lookup_insert_eq).
    split.
    + intros t Ht. apply (cache_hit _ _ (now w)).
      * by rewrite get_time.
      * simpl. lia.
    + intros t Ht.
      destruct (Hmiss (at_time t w1)) as (r & w2 & E2 & Hlog2 & Hnow2 & Hget2).
      { intros stored v0. rewrite get_time, Hentry. intros [= <- <-]. simpl. lia. }
      exists r, w2. split; [done|]. split; [done|].
      intros v' ->. rewrite Hget2. simpl. apply lookup_insert_eq.
Qed.

End Memo.

Section Caching.
Context `{External}.

(** The request each decorated function sends when it runs. *)
Definition geocode_request (a : pystr * pystr * Z * pystr) : ext_call :=
  let '(city, country, max_results, language) := a in
  HttpGet (py "https://geocoding-api.open-meteo.com/v1/search")
          (strip_chars (py ",") (strip (city ++ py ", " ++ country)))
          max_results (py "json") language 30.

Definition nearby_request (a : float * float * float) : ext_call :=
  let '(lat, lon, elev) := a in MsNearby lat lon elev 10.

Definition daily_request (a : pystr * dval * dval) : ext_call :=
  let '(station_id, start_d, end_d) := a in MsDaily station_id start_d end_d.

Definition hourly_request (a : pystr * date * date) : ext_call :=
  let '(station_id, d1, d2) := a in
  MsHourly station_id (DateTime d1 (Time 0 0 0 0)) (DateTime d2 (Time 23 59 0 0)).

Definition hourly_key (a : pystr * date * date) : pystr * dval * dval :=
  let '(station_id, d1, d2) := a in (station_id, DDate d1, DDate d2).

Lemma geocode_body_invokes (a : pystr * pystr * Z * pystr) (w : world) :
  exists r, geocode_city_country_body a w = (r, with_log w [geocode_request a]).
Proof.
  destruct a as [[[c k] n] l].
  unfold geocode_city_country_body, geocode_request, requests_get, invoke,
    mbind, M_bind, bind.
  fold (with_log w [HttpGet (py "https://geocoding-api.open-meteo.com/v1/search")
                      (strip_chars (py ",") (strip (c ++ py ", " ++ k)))
                      n (py "json") l 30]).
  destruct (http_get _ _ _ _ _ _ _) as [e|r]; [by eexists|].
  unfold raise_for_status.
  destruct ((400 <=? status_code r) && (status_code r <? 600)); [by eexists|].
  unfold ret, response_json.
  destruct (body r) as [v|]; [|by eexists].
  unfold ret. destruct (dict_get v (py "results") (JArr [])); by eexists.
Qed.

(** The station lookup is asked when [ms.Point] accepts the coordinates,
    and not otherwise. *)
Lemma nearby_body_invokes (a : float * float * float) (w : world) :
  ms_point a.1.1 a.1.2 a.2 = inr tt ->
  exists r, nearby_stations_body a w = (r, with_log w [nearby_request a]).
Proof.
  destruct a as [[lat lon] elev]. cbn [fst snd]. intros Hp.
  unfold nearby_stations_body, nearby_request. rewrite Hp, bind_lift_inr.
  unfold invoke. fold (with_log w [MsNearby lat lon elev 10]).
  destruct (ms_nearby _ _ _ _ _); by eexists.
Qed.

Lemma nearby_body_refused (a : float * float * float) (w : world) (e : exn) :
  ms_point a.1.1 a.1.2 a.2 = inl e ->
  nearby_stations_body a w = (Raise e, w).
Proof.
  destruct a as [[lat lon] elev]. cbn [fst snd]. intros Hp.
  unfold nearby_stations_body. by rewrite Hp, bind_lift_inl.
Qed.

Lemma nearby_body_logs (a : float * float * float) (w : world) :
  exists r cs, nearby_stations_body a w = (r, with_log w cs).
Proof.
  destruct (ms_point a.1.1 a.1.2 a.2) as [e|[]] eqn:Hp.
  - exists (Raise e), []. by rewrite with_log_nil, (nearby_body_refused a w e Hp).
  - destruct (nearby_body_invokes a w Hp) as [r E]. by exists r, [nearby_request a].
Qed.

Lemma daily_body_invokes (a : pystr * dval * dval) (w : world) :
  exists r, fetch_daily_body a w = (r, with_log w [daily_request a]).
Proof.
  destruct a as [[sid s] e]. unfold fetch_daily_body, daily_request, invoke.
  fold (with_log w [MsDaily sid s e]).
  destruct (ms_daily _ _ _ _); by eexists.
Qed.

Lemma hourly_body_invokes (a : pystr * date * date) (w : world) :
  exists r, fetch_hourly_body (hourly_key a) w = (r, with_log w [hourly_request a]).
Proof.
  destruct a as [[sid d1] d2].
  unfold fetch_hourly_body, hourly_key, hourly_request, invoke, mbind, M_bind, bind.
  simpl.
  fold (with_log w [MsHourly sid (DateTime d1 (time_hm 0 0)) (DateTime d2 (time_hm 23 59))]).
  destruct (ms_hourly _ _ _ _); by eexists.
Qed.

Ltac frame_of invokes :=
  intros a w; unfold cache_data; simpl;
  destruct (_ !! _) as [[stored v]|];
  [destruct (now w <? stored + _); [done|]|];
  (destruct (invokes a w) as [r E]; simpl in E; rewrite E; by destruct r).

(** A call of one decorated function leaves the tables of the others as
    they were. *)
Lemma geocode_frame :
  forall a w, let w' := (cache_data geocode_slot (60 * 60) geocode_city_country_body a w).2 in
    stations_cache w' = stations_cache w /\ daily_cache w' = daily_cache w
    /\ hourly_cache w' = hourly_cache w.
Proof. frame_of geocode_body_invokes. Qed.

Lemma nearby_frame :
  forall a w, let w' := (cache_data stations_slot (60 * 60) nearby_stations_body a w).2 in
    geocode_cache w' = geocode_cache w /\ daily_cache w' = daily_cache w
    /\ hourly_cache w' = hourly_cache w.
Proof.
  intros a w. unfold cache_data; simpl.
  destruct (_ !! _) as [[stored v]|];
    [destruct (now w <? stored + _); [done|]|];
    (destruct (nearby_body_logs a w) as (r & cs & E); simpl in E; rewrite E; by destruct r).
Qed.

Lemma daily_frame :
  forall a w, let w' := (cache_data daily_slot (60 * 30) fetch_daily_body a w).2 in
    geocode_cache w' = geocode_cache w /\ stations_cache w' = stations_cache w
    /\ hourly_cache w' = hourly_cache w.
Proof. frame_of daily_body_invokes. Qed.

Lemma hourly_frame :
  forall a w,
    let w' := (cache_data hourly_slot (60 * 30) fetch_hourly_body (hourly_key a) w).2 in
    geocode_cache w' = geocode_cache w /\ stations_cache w' = stations_cache w
    /\ daily_cache w' = daily_cache w.
Proof. frame_of hourly_body_invokes. Qed.

(** C1.  Each fetch operation is memoized by its argument tuple in a table
    of its own: geocoding and the station lookup for 3600 seconds, the
    daily and the hourly series for 1800 seconds.  Within that time of the
    invocation that stored a result, an identical call returns the stored
    result and invokes nothing; from then on an identical call invokes the
    service again and its result replaces the entry.  No call touches the
    table of another function.  (The station lookup is asked for the points
    [ms.Point] accepts; for a point it refuses, a call without a live entry
    raises what [ms.Point] raises, asks nothing and stores nothing.) *)
Theorem fetches_are_memoized :
  (memoized geocode_slot 3600 id
     (fun a => geocode_city_country a.1.1.1 a.1.1.2 a.1.2 a.2) geocode_request
   /\ forall a w, let w' := (geocode_city_country a.1.1.1 a.1.1.2 a.1.2 a.2 w).2 in
        stations_cache w' = stations_cache w /\ daily_cache w' = daily_cache w
        /\ hourly_cache w' = hourly_cache w)
  /\ ((forall a, ms_point a.1.1 a.1.2 a.2 = inr tt ->
         memoized_at stations_slot 3600 id
           (fun a => nearby_stations a.1.1 a.1.2 a.2) nearby_request a)
      /\ (forall a e w, ms_point a.1.1 a.1.2 a.2 = inl e ->
            (forall stored v, stations_cache w !! a = Some (stored, v) ->
                              stored + 3600 <= now w) ->
            nearby_stations a.1.1 a.1.2 a.2 w = (Raise e, w))
      /\ forall a w, let w' := (nearby_stations a.1.1 a.1.2 a.2 w).2 in
           geocode_cache w' = geocode_cache w /\ daily_cache w' = daily_cache w
           /\ hourly_cache w' = hourly_cache w)
  /\ (memoized daily_slot 1800 id
        (fun a => fetch_daily a.1.1 a.1.2 a.2) daily_request
      /\ forall a w, let w' := (fetch_daily a.1.1 a.1.2 a.2 w).2 in
           geocode_cache w' = geocode_cache w /\ stations_cache w' = stations_cache w
           /\ hourly_cache w' = hourly_cache w)
  /\ (memoized hourly_slot 1800 hourly_key
        (fun a => fetch_hourly a.1.1 (DDate a.1.2) (DDate a.2)) hourly_request
      /\ forall a w, let w' := (fetch_hourly a.1.1 (DDate a.1.2) (DDate a.2) w).2 in
           geocode_cache w' = geocode_cache w /\ stations_cache w' = stations_cache w
           /\ daily_cache w' = daily_cache w).
Proof.
  split; [split|split; [split; [|split]|split; split]].
  - intros [[[c k] n] l] w.
    apply (memoized_at_intro geocode_slot (60 * 60) id geocode_city_country_body
             geocode_request (c, k, n, l) ltac:(done) ltac:(done) ltac:(done) ltac:(done)
             ltac:(done) (geocode_body_invokes (c, k, n, l)) w).
  - intros [[[c k] n] l] w. apply (geocode_frame (c, k, n, l) w).
  - intros [[lat lon] elev] Hp w.
    apply (memoized_at_intro stations_slot (60 * 60) id nearby_stations_body
             nearby_request (lat, lon, elev) ltac:(done) ltac:(done) ltac:(done)
             ltac:(done) ltac:(done)
             (fun w0 => nearby_body_invokes (lat, lon, elev) w0 Hp) w).
  - intros [[lat lon] elev] e w Hp Hold. unfold nearby_stations.
    rewrite (cache_miss stations_slot (60 * 60) nearby_stations_body (lat, lon, elev) w Hold).
    by rewrite (nearby_body_refused (lat, lon, elev) w e Hp).
  - intros [[lat lon] elev] w. apply (nearby_frame (lat, lon, elev) w).
  - intros [[sid s] e] w.
    apply (memoized_at_intro daily_slot (60 * 30) id fetch_daily_body
             daily_request (sid, s, e) ltac:(done) ltac:(done) ltac:(done) ltac:(done)
             ltac:(done) (daily_body_invokes (sid, s, e)) w).
  - intros [[sid s] e] w. apply (daily_frame (sid, s, e) w).
  - intros [[sid d1] d2] w.
    apply (memoized_at_intro hourly_slot (60 * 30) hourly_key fetch_hourly_body
             hourly_request (sid, d1, d2) ltac:(done) ltac:(done) ltac:(done) ltac:(done)
             ltac:(done) (hourly_body_invokes (sid, d1, d2)) w).
  - intros [[sid d1] d2] w. apply (hourly_frame (sid, d1, d2) w).
Qed.

End Caching.

(** Whether the table holds, for these arguments, an entry younger than
    [ttl]. *)
Definition live {K V : Type} `{Countable K} (sl : slot K V) (ttl : Z) (k : K)
    (w : world) : bool :=
  match slot_get sl w !! k with
  | Some (stored, _) => now w <? stored + ttl
  | None => false
  end.

Section Series.
Context `{External}.

Lemma fetch_hourly_body_dates (station_id : pystr) (d1 d2 : date) (w : world) :
  fetch_hourly_body (station_id, DDate d1, DDate d2) w
  = invoke (MsHourly station_id (DateTime d1 (Time 0 0 0 0)) (DateTime d2 (Time 23 59 0 0)))
           (ms_hourly station_id (DateTime d1 (Time 0 0 0 0)) (DateTime d2 (Time 23 59 0 0)))
           w.
Proof. reflexivity. Qed.

Lemma invoke_log {A : Type} (c : ext_call) (answer : Z -> exn + A) (w : world) :
  (invoke c answer w).2 = with_log w [c].
Proof. unfold invoke. by destruct (answer (now w)). Qed.

(** C3.  An hourly fetch for the dates D1 and D2 asks the series service
    for the range from D1 at 00:00:00 to D2 at 23:59:00, and for nothing
    else (whatever the order of the two dates): the function under the
    decorator sends exactly that request, and the decorated function sends
    it when its table has no live entry for the arguments and sends nothing
    when it has one. *)
Theorem hourly_fetch_requests_full_days (station_id : pystr) (d1 d2 : date) (w : world) :
  let request :=
    MsHourly station_id (DateTime d1 (Time 0 0 0 0)) (DateTime d2 (Time 23 59 0 0)) in
  (fetch_hourly_body (station_id, DDate d1, DDate d2) w).2 = with_log w [request]
  /\ ext_log (fetch_hourly station_id (DDate d1) (DDate d2) w).2
     = ext_log w
       ++ (if live hourly_slot (60 * 30) (station_id, DDate d1, DDate d2) w
           then [] else [request]).
Proof.
  intros request. split.
  - rewrite fetch_hourly_body_dates. apply invoke_log.
  - unfold fetch_hourly, cache_data, live.
    assert (forall w0,
               ext_log (match fetch_hourly_body (station_id, DDate d1, DDate d2) w0 with
                        | (Ret v, w') =>
                            (Ret v, slot_set hourly_slot
                                      (<[(station_id, DDate d1, DDate d2) := (now w', v)]>
                                         (slot_get hourly_slot w')) w')
                        | r => r
                        end).2 = ext_log w0 ++ [request]) as Hmiss.
    { intros w0. rewrite fetch_hourly_body_dates. unfold invoke.
      by destruct (ms_hourly _ _ _ _). }
    destruct (slot_get hourly_slot w !! (station_id, DDate d1, DDate d2))
      as [[stored v]|]; [|apply Hmiss].
    destruct (now w <? stored + 60 * 30); [|apply Hmiss].
    simpl. by rewrite app_nil_r.
Qed.

End Series.

Section SingleDate.
Context `{External}.

Lemma date_gt_irrefl (d : date) : date_gt d d = false.
Proof.
  unfold date_gt. rewrite !Z.ltb_irrefl, !Z.eqb_refl. reflexivity.
Qed.

End SingleDate.

Section Geocoding.
Context `{External}.

Lemma live_false_old {K V : Type} `{Countable K} (sl : slot K V) (ttl : Z) (k : K)
    (w : world) :
  live sl ttl k w = false ->
  forall stored v, slot_get sl w !! k = Some (stored, v) -> stored + ttl <= now w.
Proof.
  unfold live. intros Hl stored v E. rewrite E in Hl.
  destruct (Z.ltb_spec (now w) (stored + ttl)); [done | lia].
Qed.

Definition geocode_url : pystr := py "https://geocoding-api.open-meteo.com/v1/search".

(** What the endpoint answers to the request of [a] at the time of [w]. *)
Definition geocode_answer (a : pystr * pystr * Z * pystr) (w : world) : exn + Response :=
  let '(city, country, max_results, language) := a in
  http_get geocode_url (strip_chars (py ",") (strip (city ++ py ", " ++ country)))
           max_results (py "json") language 30 (now w).

Lemma geocode_body_failed (a : pystr * pystr * Z * pystr) (w : world) (e : exn) :
  geocode_answer a w = inl e ->
  geocode_city_country_body a w = (Raise e, with_log w [geocode_request a]).
Proof.
  destruct a as [[[c k] n] l]. unfold geocode_answer, geocode_url. intros E.
  unfold geocode_city_country_body, requests_get, invoke, mbind, M_bind, bind.
  by rewrite E.
Qed.

Lemma geocode_body_http_error (a : pystr * pystr * Z * pystr) (w : world) (r : Response) :
  geocode_answer a w = inr r ->
  400 <= status_code r < 600 ->
  geocode_city_country_body a w
  = (Raise (HTTPError (status_code r)), with_log w [geocode_request a]).
Proof.
  destruct a as [[[c k] n] l]. unfold geocode_answer, geocode_url. intros E Hs.
  unfold geocode_city_country_body, requests_get, invoke, mbind, M_bind, bind.
  rewrite E. unfold raise_for_status.
  destruct (Z.leb_spec 400 (status_code r)); [|lia].
  destruct (Z.ltb_spec (status_code r) 600); [|lia].
  reflexivity.
Qed.

Lemma geocode_body_ok (a : pystr * pystr * Z * pystr) (w : world) (r : Response)
    (fields : list (pystr * json)) :
  geocode_answer a w = inr r ->
  ~ (400 <= status_code r < 600) ->
  body r = Some (JObj fields) ->
  geocode_city_country_body a w
  = (Ret (py_or (default (JArr []) (assoc (py "results") fields)) (JArr [])),
     with_log w [geocode_request a]).
Proof.
  destruct a as [[[c k] n] l]. unfold geocode_answer, geocode_url. intros E Hs Hb.
  unfold geocode_city_country_body, requests_get, invoke, mbind, M_bind, bind.
  rewrite E. unfold raise_for_status.
  assert ((400 <=? status_code r) && (status_code r <? 600) = false) as ->.
  { destruct (Z.leb_spec 400 (status_code r)); [|done].
    destruct (Z.ltb_spec (status_code r) 600); [lia|done]. }
  unfold ret, response_json. rewrite Hb. reflexivity.
Qed.

(** The three shapes of an empty result list. *)
Lemma empty_results_falsy (fields : list (pystr * json)) :
  assoc (py "results") fields = None
  \/ assoc (py "results") fields = Some JNull
  \/ assoc (py "results") fields = Some (JArr []) ->
  py_or (default (JArr []) (assoc (py "results") fields)) (JArr []) = JArr [].
Proof. by intros [-> | [-> | ->]]. Qed.

Lemma geocode_call_miss (a : pystr * pystr * Z * pystr) (w : world) :
  live geocode_slot (60 * 60) a w = false ->
  cache_data geocode_slot (60 * 60) geocode_city_country_body a w
  = match geocode_city_country_body a w with
    | (Ret v, w') =>
        (Ret v, slot_set geocode_slot (<[a := (now w', v)]> (slot_get geocode_slot w')) w')
    | r => r
    end.
Proof. intros Hl. apply cache_miss. by apply live_false_old. Qed.

(** The geocode stage, given what the decorated call returns. *)
Lemma geocode_stage_none (i : inputs) (w w1 : world) (places : json) :
  geocode_city_country (city i) (country i) 10 (py "pt") w = (Ret places, w1) ->
  truthy places = false ->
  geocode_stage i w
  = (Stopped,
     with_page w1 [StWarning (py "Nenhuma localização encontrada. Verifique a grafia de Cidade/País e tente novamente.")]).
Proof.
  intros E Ht. unfold geocode_stage.
  unfold mbind at 1. unfold M_bind, bind at 1. unfold try_except. rewrite E.
  unfold mbind at 1. unfold M_bind, bind at 1. rewrite Ht. reflexivity.
Qed.

Lemma geocode_stage_failed (i : inputs) (w w1 : world) (e : exn) :
  geocode_city_country (city i) (country i) 10 (py "pt") w = (Raise e, w1) ->
  geocode_stage i w
  = (Stopped,
     with_page w1 [StError (py "Falha ao geocodificar '" ++ city i ++ py ", " ++ country i
                            ++ py "'. Detalhe: ") (Some e)]).
Proof.
  intros E. unfold geocode_stage.
  unfold mbind at 1. unfold M_bind, bind at 1. unfold try_except. rewrite E.
  reflexivity.
Qed.

(** The run up to the geocode stage, for dates in order. *)
Lemma script_to_geocode (i : inputs) (w : world) (start_d end_d : dval) :
  normalize_period (period i) = (start_d, end_d) ->
  dval_gt start_d end_d = Some false ->
  script i w
  = ('(lat, lon, elev) ← geocode_stage i;
     station_id ← station_stage i lat lon elev;
     df ← fetch_stage (default [] (chosen granularity_options (granularity i)))
            station_id start_d end_d;
     render_stage i station_id start_d end_d df) (with_page w (header_widgets i)).
Proof.
  intros Hn Hv. unfold script.
  rewrite (bind_ret_l _ _ _ _ _ (header_and_sidebar_spec i w)).
  rewrite Hn.
  by rewrite (bind_ret_l _ _ _ _ _ (validate_period_accepts _ _ _ Hv)).
Qed.

End Geocoding.

Section NoLocation.
Context `{External}.

Definition no_location_warning : widget :=
  StWarning (py "Nenhuma localização encontrada. Verifique a grafia de Cidade/País e tente novamente.").

Definition geocode_error (i : inputs) (e : exn) : widget :=
  StError (py "Falha ao geocodificar '" ++ city i ++ py ", " ++ country i
           ++ py "'. Detalhe: ") (Some e).

(** C6.  With the dates in order, the run ends at the geocode stage
    - with the warning that no location was found (a warning, not the
      error widget) when the geocoder's result list is empty: a response
      whose JSON object has no [results] field, a null one or an empty
      list, or an empty list still live in the memo table;
    - with the error widget carrying the exception when the request fails
      (requests raises) or the response has a 4xx or 5xx status.
    In each case the log of external invocations holds at most the one
    geocoding request more: no station lookup, inventory or series call is
    made. *)
Theorem no_location_or_failure_halts (i : inputs) (w : world) (start_d end_d : dval) :
  normalize_period (period i) = (start_d, end_d) ->
  dval_gt start_d end_d = Some false ->
  let a := (city i, country i, 10, py "pt") in
  (forall stored,
      geocode_cache w !! a = Some (stored, JArr []) -> now w < stored + 3600 ->
      script i w = (Stopped, with_page w (header_widgets i ++ [no_location_warning])))
  /\ (live geocode_slot (60 * 60) a w = false ->
      (forall r fields,
          geocode_answer a w = inr r ->
          ~ (400 <= status_code r < 600) ->
          body r = Some (JObj fields) ->
          assoc (py "results") fields = None
          \/ assoc (py "results") fields = Some JNull
          \/ assoc (py "results") fields = Some (JArr []) ->
          script i w
          = (Stopped,
             World (now w) (<[a := (now w, JArr [])]> (geocode_cache w))
                   (stations_cache w) (daily_cache w) (hourly_cache w)
                   (ext_log w ++ [geocode_request a])
                   (page w ++ header_widgets i ++ [no_location_warning])))
      /\ (forall e,
             geocode_answer a w = inl e ->
             script i w
             = (Stopped,
                World (now w) (geocode_cache w) (stations_cache w) (daily_cache w)
                      (hourly_cache w) (ext_log w ++ [geocode_request a])
                      (page w ++ header_widgets i ++ [geocode_error i e])))
      /\ (forall r,
             geocode_answer a w = inr r ->
             400 <= status_code r < 600 ->
             script i w
             = (Stopped,
                World (now w) (geocode_cache w) (stations_cache w) (daily_cache w)
                      (hourly_cache w) (ext_log w ++ [geocode_request a])
                      (page w ++ header_widgets i
                       ++ [geocode_error i (HTTPError (status_code r))])))).
Proof.
  intros Hn Hv a.
  pose proof (script_to_geocode i w start_d end_d Hn Hv) as Hs.
  set (w0 := with_page w (header_widgets i)) in *.
  split; [|intros Hlive; split; [|split]].
  - intros stored Hc Hlt. rewrite Hs.
    assert (geocode_city_country (city i) (country i) 10 (py "pt") w0
            = (Ret (JArr []), w0)) as E.
    { apply (cache_hit geocode_slot (60 * 60) geocode_city_country_body a w0 stored).
      - exact Hc.
      - simpl. lia. }
    rewrite (bind_stopped _ _ _ _ (geocode_stage_none i w0 w0 _ E eq_refl)).
    unfold w0. by rewrite with_page_app.
  - intros r fields Ha Hst Hb He. rewrite Hs.
    assert (geocode_city_country (city i) (country i) 10 (py "pt") w0
            = (Ret (JArr []),
               slot_set geocode_slot (<[a := (now w, JArr [])]> (geocode_cache w))
                        (with_log w0 [geocode_request a]))) as E.
    { unfold geocode_city_country. rewrite (geocode_call_miss a w0 Hlive).
      rewrite (geocode_body_ok a w0 r fields Ha Hst Hb).
      by rewrite (empty_results_falsy fields He). }
    rewrite (bind_stopped _ _ _ _ (geocode_stage_none i w0 _ _ E eq_refl)).
    unfold w0, with_page, with_log. simpl. by rewrite <- app_assoc.
  - intros e Ha. rewrite Hs.
    assert (geocode_city_country (city i) (country i) 10 (py "pt") w0
            = (Raise e, with_log w0 [geocode_request a])) as E.
    { unfold geocode_city_country. rewrite (geocode_call_miss a w0 Hlive).
      by rewrite (geocode_body_failed a w0 e Ha). }
    rewrite (bind_stopped _ _ _ _ (geocode_stage_failed i w0 _ _ E)).
    unfold w0, with_page, with_log. simpl. by rewrite <- app_assoc.
  - intros r Ha Hst. rewrite Hs.
    assert (geocode_city_country (city i) (country i) 10 (py "pt") w0
            = (Raise (HTTPError (status_code r)), with_log w0 [geocode_request a])) as E.
    { unfold geocode_city_country. rewrite (geocode_call_miss a w0 Hlive).
      by rewrite (geocode_body_http_error a w0 r Ha Hst). }
    rewrite (bind_stopped _ _ _ _ (geocode_stage_failed i w0 _ _ E)).
    unfold w0, with_page, with_log. simpl. by rewrite <- app_assoc.
Qed.

End NoLocation.

(** ** Strings: splitting and stripping *)

Lemma split_head_app (sep : Z) (s rest : pystr) :
  sep ∉ s -> split_head sep (s ++ sep :: rest) = s.
Proof.
  induction s as [|c s IH]; simpl; intros Hs.
  - by rewrite Z.eqb_refl.
  - apply not_elem_of_cons in Hs as [Hc Hs].
    destruct (Z.eqb_spec c sep); [congruence|]. by rewrite IH.
Qed.

Lemma lstrip_by_all (p : Z -> bool) (s t : pystr) :
  forallb p s = true -> lstrip_by p (s ++ t) = lstrip_by p t.
Proof.
  induction s as [|c s IH]; simpl; [done|].
  intros [Hc Hs]%andb_prop. rewrite Hc. by apply IH.
Qed.

Lemma lstrip_by_app (p : Z -> bool) (s t : pystr) :
  forallb p s = false -> lstrip_by p (s ++ t) = lstrip_by p s ++ t.
Proof.
  induction s as [|c s IH]; simpl; [done|].
  destruct (p c) eqn:Hc; simpl; [apply IH | done].
Qed.

Lemma lstrip_by_forallb (p : Z -> bool) (s : pystr) :
  forallb p s = true -> lstrip_by p s = [].
Proof.
  intros Hs. rewrite <- (app_nil_r s). by rewrite lstrip_by_all.
Qed.

(** A trailing character that [strip] removes makes no difference. *)
Lemma strip_by_snoc (p : Z -> bool) (s : pystr) (c : Z) :
  p c = true -> strip_by p (s ++ [c]) = strip_by p s.
Proof.
  intros Hc. unfold strip_by, rstrip_by.
  destruct (forallb p s) eqn:Hs.
  - rewrite lstrip_by_all by done. simpl. rewrite Hc. simpl.
    by rewrite (lstrip_by_forallb p s Hs).
  - rewrite lstrip_by_app by done. rewrite reverse_app. simpl.
    by rewrite Hc.
Qed.

(** An identifier the label gives back unchanged: no em dash in it and no
    white space around it. *)
Definition clean_id (id : pystr) : Prop := (cp_emdash ∉ id) /\ strip id = id.

Lemma station_id_of_label_clean (id rest : pystr) :
  clean_id id -> station_id_of_label (id ++ py " — " ++ rest) = id.
Proof.
  intros [Hd Hs]. unfold station_id_of_label.
  change (py " — ") with [32; cp_emdash; 32].
  change (id ++ [32; cp_emdash; 32] ++ rest) with (id ++ [32] ++ cp_emdash :: 32 :: rest).
  rewrite app_assoc, split_head_app.
  - unfold strip. rewrite strip_by_snoc by done. exact Hs.
  - intros [Hin|Hin]%elem_of_app; [done|].
    apply list_elem_of_singleton in Hin. done.
Qed.

Section Stations.
Context `{External}.

Lemma mapM_lift {A B : Type} (f : A -> exn + B) (xs : list A) (ys : list B) (w : world) :
  Forall2 (fun x y => f x = inr y) xs ys ->
  mapM (fun x => lift (f x)) xs w = (Ret ys, w).
Proof.
  intros HF. induction HF as [|x y xs ys Hx HF IH]; [done|].
  simpl. unfold mbind, M_bind, bind. rewrite Hx. simpl.
  unfold mbind, M_bind, bind in IH. by rewrite IH.
Qed.

Lemma station_label_prefix (sf : StationFrame) (r : station) (l : pystr) :
  station_label sf r = inr l -> exists rest, l = st_id r ++ py " — " ++ rest.
Proof.
  unfold station_label.
  destruct (if sf_has_distance sf then int_of_float (st_distance r) else inr 0);
    [done|].
  intros [= <-]. by eexists.
Qed.

Definition no_station_warning : widget :=
  StWarning (py "Nenhuma estação próxima foi encontrada para este local.").

(** The name written next to the station: that of the first row. *)
Definition default_station_name (st_df : StationFrame) (first : station) : pystr :=
  if sf_has_name st_df then py_str (st_name first) else st_id first.

(** C8.  Given the table the station locator returned:
    - an empty table ends the run with the warning that no station was
      found, and nothing further is invoked;
    - otherwise the table's labels are offered in a selectbox whose
      untouched value is the first label, so the station used is the first
      entry; choosing the k-th label instead makes the k-th entry the
      station used.  (The identifier is read back from the label; it is
      the entry's own whenever that holds no em dash and no white space at
      its ends.) *)
Theorem first_station_is_default (i : inputs) (lat lon elev : float) (w w1 : world)
    (st_df : StationFrame) :
  nearby_stations lat lon elev w = (Ret st_df, w1) ->
  (sf_rows st_df = [] ->
   select_station i lat lon elev w = (Stopped, with_page w1 [no_station_warning])
   /\ station_stage i lat lon elev w = (Stopped, with_page w1 [no_station_warning]))
  /\ (forall first rest labels,
         sf_rows st_df = first :: rest ->
         Forall2 (fun r l => station_label st_df r = inr l) (sf_rows st_df) labels ->
         exists selected,
           chosen labels (station_choice i) = Some selected
           /\ select_station i lat lon elev w
              = (Ret (station_id_of_label selected, default_station_name st_df first),
                 with_page w1 [StExpander (py "Trocar estação (opcional)");
                               StSelectbox (py "Estação") labels selected])
           /\ (station_choice i = 0%nat ->
               station_label st_df first = inr selected
               /\ (clean_id (st_id first) -> station_id_of_label selected = st_id first))
           /\ (forall r, sf_rows st_df !! station_choice i = Some r ->
                  station_label st_df r = inr selected
                  /\ (clean_id (st_id r) -> station_id_of_label selected = st_id r))).
Proof.
  intros E. split.
  - intros Hrows.
    assert (select_station i lat lon elev w = (Stopped, with_page w1 [no_station_warning]))
      as Es.
    { unfold select_station.
      rewrite (bind_ret_l _ _ _ _ _ (try_except_ret _ _ _ _ _ E)).
      unfold sf_is_empty. rewrite Hrows. reflexivity. }
    split; [exact Es|].
    unfold station_stage. by rewrite (bind_stopped _ _ _ _ Es).
  - intros first rest labels Hrows HF.
    assert (forall k r, sf_rows st_df !! k = Some r ->
              exists l, labels !! k = Some l /\ station_label st_df r = inr l) as Hk.
    { intros k r Hr. destruct (Forall2_lookup_l _ _ _ _ _ HF Hr) as (l & Hl & Hrl).
      by exists l. }
    destruct (Hk 0%nat first) as (l0 & Hl0 & Hfirst); [by rewrite Hrows|].
    assert (exists selected, chosen labels (station_choice i) = Some selected) as [selected Hsel].
    { unfold chosen. destruct (labels !! station_choice i); [by eexists|].
      destruct labels; [done|]. by eexists. }
    exists selected. split; [exact Hsel|]. split; [|split].
    + unfold select_station.
      rewrite (bind_ret_l _ _ _ _ _ (try_except_ret _ _ _ _ _ E)).
      unfold sf_is_empty. rewrite Hrows. cbv beta iota.
      rewrite bind_ret. change (head (first :: rest)) with (Some first). cbv beta iota.
      rewrite bind_lift_inr, bind_st.
      rewrite <- Hrows.
      rewrite (bind_ret_l _ _ _ _ _ (mapM_lift _ _ labels _ HF)).
      rewrite (bind_ret_l _ _ _ _ _ (selectbox_spec _ _ _ _)), Hsel.
      change (default (py "None") (Some selected)) with selected.
      rewrite bind_lift_inr. unfold ret, default_station_name.
      rewrite with_page_app. reflexivity.
    + intros Hz. unfold chosen in Hsel. rewrite Hz, Hl0 in Hsel.
      injection Hsel as <-. split; [exact Hfirst|].
      intros Hc. destruct (station_label_prefix _ _ _ Hfirst) as [tl ->].
      by apply station_id_of_label_clean.
    + intros r Hr. destruct (Hk _ _ Hr) as (l & Hl & Hrl).
      unfold chosen in Hsel. rewrite Hl in Hsel. injection Hsel as <-.
      split; [exact Hrl|].
      intros Hc. destruct (station_label_prefix _ _ _ Hrl) as [tl ->].
      by apply station_id_of_label_clean.
Qed.

End Stations.

Section Rendering.
Context `{External}.

Definition line_chart (selected_cols : list pystr) : widget :=
  StPlotlyChart (LineChart time_col selected_cols (py "Série temporal (interativa)")).

Definition prcp_bar_chart : widget :=
  StPlotlyChart (BarChart time_col (py "prcp") (py "Precipitação (prcp)")).

(** What lines 202-211 draw for a selection. *)
Definition charts_for (selected_cols : list pystr) : list widget :=
  match selected_cols with
  | [] => [StInfo (py "Selecione ao menos uma variável para plotar.")]
  | _ => line_chart selected_cols
         :: (if bool_decide (py "prcp" ∈ selected_cols) then [prcp_bar_chart] else [])
  end.

(** The value of the multiselect: the default while untouched. *)
Definition selection (i : inputs) (df_plot : Frame) : list pystr :=
  match columns_choice i with
  | None => multiselect_default df_plot
  | Some picks => omap (fun k => numeric_cols df_plot !! k) picks
  end.

Definition preview_and_charts (i : inputs) (df : DataFrame) (df_plot : Frame)
    : list widget :=
  [ StSubheader (py "Pré-visualização dos dados");
    StDataframe (df_head 50 df);
    StSubheader (py "Gráficos");
    StMultiselect (py "Selecione variáveis") (numeric_cols df_plot)
                  (multiselect_default df_plot) (selection i df_plot) ]
  ++ charts_for (selection i df_plot)
  ++ [StSubheader (py "Download")].

Lemma bar_chart_iff (selected_cols : list pystr) :
  prcp_bar_chart ∈ charts_for selected_cols <-> py "prcp" ∈ selected_cols.
Proof.
  unfold charts_for. destruct selected_cols as [|c cs].
  - split.
    + intros Hin. apply list_elem_of_singleton in Hin. discriminate Hin.
    + intros Hin. by apply elem_of_nil in Hin.
  - destruct (bool_decide_reflect (py "prcp" ∈ c :: cs)) as [Hp|Hp].
    + split; [done|]. intros _. apply elem_of_cons. right. by apply list_elem_of_singleton.
    + split; [|done]. intros Hin. apply elem_of_cons in Hin as [Hin|Hin].
      * discriminate Hin.
      * by apply elem_of_nil in Hin.
Qed.

(** The figures lines 202-208 ask Plotly for. *)
Definition figures (selected_cols : list pystr) : list chart :=
  match selected_cols with
  | [] => []
  | _ => LineChart time_col selected_cols (py "Série temporal (interativa)")
         :: (if bool_decide (py "prcp" ∈ selected_cols)
             then [BarChart time_col (py "prcp") (py "Precipitação (prcp)")] else [])
  end.

Lemma px_figure_ok (df_plot : Frame) (fig : chart) :
  time_col ∈ column_names (frame_columns df_plot) ->
  match fig with LineChart x _ _ | BarChart x _ _ => x end = time_col ->
  px_check df_plot fig = inr tt ->
  px_figure df_plot fig = inr fig.
Proof.
  intros Ht Hx Hp. unfold px_figure. rewrite Hx, Hp. by rewrite bool_decide_eq_true_2.
Qed.

Lemma px_figure_refused (df_plot : Frame) (fig : chart) (e : exn) :
  time_col ∈ column_names (frame_columns df_plot) ->
  match fig with LineChart x _ _ | BarChart x _ _ => x end = time_col ->
  px_check df_plot fig = inl e ->
  px_figure df_plot fig = inl e.
Proof.
  intros Ht Hx Hp. unfold px_figure. rewrite Hx, Hp. by rewrite bool_decide_eq_true_2.
Qed.

Lemma draw_charts_spec (df_plot : Frame) (selected_cols : list pystr) (w : world) :
  time_col ∈ column_names (frame_columns df_plot) ->
  Forall (fun fig => px_check df_plot fig = inr tt) (figures selected_cols) ->
  draw_charts df_plot selected_cols w = (Ret tt, with_page w (charts_for selected_cols)).
Proof.
  intros Ht Hf. unfold draw_charts, charts_for. unfold figures in Hf.
  destruct selected_cols as [|c cs]; [done|].
  apply Forall_cons in Hf as [Hline Hf].
  rewrite (px_figure_ok df_plot (LineChart time_col _ _) Ht eq_refl Hline),
    bind_lift_inr, bind_st.
  destruct (bool_decide (py "prcp" ∈ c :: cs)).
  - apply Forall_cons in Hf as [Hbar _].
    rewrite (px_figure_ok df_plot (BarChart time_col _ _) Ht eq_refl Hbar),
      bind_lift_inr, st_spec.
    by rewrite with_page_app.
  - reflexivity.
Qed.

Lemma st_dataframe_ok_spec (df : DataFrame) (w : world) :
  st_dataframe_check df = inr tt ->
  st_dataframe df w = (Ret tt, with_page w [StDataframe df]).
Proof. intros Hd. unfold st_dataframe. by rewrite Hd, bind_lift_inr, st_spec. Qed.

Lemma st_dataframe_refused (df : DataFrame) (e : exn) (w : world) :
  st_dataframe_check df = inl e -> st_dataframe df w = (Raise e, w).
Proof. intros Hd. unfold st_dataframe. by rewrite Hd, bind_lift_inl. Qed.

Lemma render_stage_spec (i : inputs) (station_id : pystr) (start_d end_d : dval)
    (df : DataFrame) (df_plot : Frame) (w : world) :
  reset_index df = inr df_plot ->
  time_col ∈ column_names (frame_columns df_plot) ->
  st_dataframe_check (df_head 50 df) = inr tt ->
  Forall (fun fig => px_check df_plot fig = inr tt) (figures (selection i df_plot)) ->
  render_stage i station_id start_d end_d df w
  = match df_to_csv_bytes df with
    | inr data =>
        (Ret tt,
         with_page w (preview_and_charts i df df_plot
                      ++ [StDownloadButton (py "Baixar CSV") data
                            (file_name (country i) (city i) station_id start_d end_d)
                            (py "text/csv")]))
    | inl e => (Raise e, with_page w (preview_and_charts i df df_plot))
    end.
Proof.
  intros Hr Ht Hd Hf. unfold render_stage.
  rewrite bind_st.
  rewrite (bind_ret_l _ _ _ _ _ (st_dataframe_ok_spec _ _ Hd)).
  rewrite Hr, bind_lift_inr, bind_st.
  rewrite (bind_ret_l _ _ _ _ _ (multiselect_spec _ _ _ _ _)).
  cbv zeta. fold (selection i df_plot).
  rewrite (bind_ret_l _ _ _ _ _ (draw_charts_spec _ _ _ Ht Hf)).
  rewrite bind_st, !with_page_app.
  unfold preview_and_charts.
  destruct (df_to_csv_bytes df) as [e|data].
  - rewrite bind_lift_inl. reflexivity.
  - rewrite bind_lift_inr, st_spec, with_page_app. by rewrite <- !app_assoc.
Qed.

(** When one column bears a name, the name selects that column. *)
Lemma filter_name_unique (cols : list (pystr * dtype)) (c : pystr) (d : dtype) :
  NoDup (column_names cols) -> (c, d) ∈ cols ->
  filter (fun nd : pystr * dtype => nd.1 = c) cols = [(c, d)].
Proof.
  unfold column_names. induction cols as [|[c' d'] cols IH]; intros Hnd Hin.
  - by apply elem_of_nil in Hin.
  - change (map fst ((c', d') :: cols)) with (c' :: map fst cols) in Hnd.
    apply NoDup_cons in Hnd as [Hc' Hnd].
    assert (forall x, (c', x) ∈ cols -> False) as Hout.
    { intros x Hx. apply Hc'. apply (list_elem_of_fmap_2 fst) in Hx. exact Hx. }
    rewrite filter_cons. cbn [fst].
    apply elem_of_cons in Hin as [Heq|Hin].
    + injection Heq as <- <-. rewrite decide_True by done. f_equal.
      destruct (filter _ cols) as [|[x dx] l] eqn:E; [done|].
      assert ((x, dx) ∈ filter (fun nd : pystr * dtype => nd.1 = c) cols) as Hx
        by (rewrite E; by left).
      apply list_elem_of_filter in Hx as [Hx1 Hx2]. cbn in Hx1. subst x.
      destruct (Hout _ Hx2).
    + destruct (decide (c' = c)) as [->|Hne]; [destruct (Hout _ Hin)|].
      by apply IH.
Qed.

Definition is_number_column (nd : pystr * dtype) : Prop :=
  nd.1 <> time_col /\ (nd.2 = DFloat64 \/ nd.2 = DInt64 \/ nd.2 = DBool).

#[global] Instance is_number_column_dec (nd : pystr * dtype) : Decision (is_number_column nd).
Proof. unfold is_number_column. apply _. Defined.

Lemma numeric_cols_sub (cols sub : list (pystr * dtype)) :
  NoDup (column_names cols) -> sub ⊆ cols ->
  filter (fun c => c ≠ time_col ∧ is_numeric_column cols c = true) (column_names sub)
  = column_names (filter is_number_column sub).
Proof.
  intros Hnd. unfold column_names. induction sub as [|[c d] sub IH]; intros Hsub; [done|].
  assert ((c, d) ∈ cols) as Hin by (apply Hsub; by left).
  assert (sub ⊆ cols) as Hsub' by (intros x Hx; apply Hsub; by right).
  cbn [map fst]. rewrite !filter_cons. cbn [fst]. rewrite (IH Hsub').
  assert (is_numeric_column cols c = is_numeric_dtype d) as Hnum.
  { unfold is_numeric_column. by rewrite (filter_name_unique cols c d Hnd Hin). }
  rewrite Hnum.
  destruct (decide (c ≠ time_col ∧ is_numeric_dtype d = true)) as [[Hc Hd]|Hno];
    destruct (decide (is_number_column (c, d))) as [[Hc' Hd']|Hno']; try done.
  - destruct Hno'. split; [done|]. cbn [snd]. destruct d; auto; discriminate Hd.
  - destruct Hno. split; [done|]. cbn [snd] in Hd'. by destruct Hd' as [->|[->| ->]].
Qed.

(** With every column name borne once, the numeric columns are the
    columns, in the table's order, that are not named [time] and hold
    floats, integers or booleans. *)
Lemma numeric_cols_spec (fr : Frame) :
  NoDup (column_names (frame_columns fr)) ->
  numeric_cols fr = column_names (filter is_number_column (fr_columns fr)).
Proof.
  intros Hnd. unfold numeric_cols.
  rewrite (numeric_cols_sub (frame_columns fr) (frame_columns fr) Hnd) by done.
  unfold frame_columns. rewrite filter_cons.
  destruct (decide (is_number_column (fr_time fr, DDatetime64))) as [[_ Hd]|_]; [|done].
  cbn [snd] in Hd. by destruct Hd as [Hd|[Hd|Hd]].
Qed.

Lemma st_dataframe_check_nodup (df : DataFrame) :
  st_dataframe_check df = inr tt -> NoDup (column_names (df_columns df)).
Proof.
  unfold st_dataframe_check.
  destruct (bool_decide_reflect (NoDup (column_names (df_columns df)))); done.
Qed.

Lemma reset_index_nodup (df : DataFrame) (fr : Frame) :
  reset_index df = inr fr -> NoDup (column_names (df_columns df)) ->
  fr_columns fr = df_columns df /\ NoDup (column_names (frame_columns fr)).
Proof.
  unfold reset_index. intros Hr Hnd.
  destruct (bool_decide_reflect
              (match df_index_name df with
               | Some n => n
               | None => if bool_decide (py "index" ∈ column_names (df_columns df))
                         then py "level_0" else py "index"
               end ∈ column_names (df_columns df))) as [|Hout]; [done|].
  injection Hr as <-. split; [done|].
  unfold frame_columns, column_names. cbn [map fst fr_time fr_columns].
  apply NoDup_cons. by split.
Qed.

(** C9.  For a fetched table whose index becomes the column [time], and
    that [st.dataframe] and Plotly accept:
    - the preview is the table cut to its first 50 rows;
    - the multiselect offers the numeric columns: the columns, in the
      table's order, that hold floats, integers or booleans; its default is
      the list temp, tmin, tmax, prcp, wspd, pres, rhum restricted to the
      numeric columns, or the first two numeric columns when none of the
      seven is one;
    - the line chart is followed by the precipitation bar chart exactly
      when prcp is among the selected columns. *)
Theorem preview_default_columns_and_bar_chart (i : inputs) (station_id : pystr)
    (start_d end_d : dval) (df : DataFrame) (df_plot : Frame) (w : world) :
  reset_index df = inr df_plot ->
  time_col ∈ column_names (frame_columns df_plot) ->
  st_dataframe_check (df_head 50 df) = inr tt ->
  Forall (fun fig => px_check df_plot fig = inr tt) (figures (selection i df_plot)) ->
  (exists rest,
      page (render_stage i station_id start_d end_d df w).2
      = page w ++ preview_and_charts i df df_plot ++ rest)
  /\ StDataframe (df_head 50 df) ∈ preview_and_charts i df df_plot
  /\ df_rows (df_head 50 df) = take 50 (df_rows df)
  /\ length (df_rows (df_head 50 df)) = Nat.min 50 (length (df_rows df))
  /\ numeric_cols df_plot
     = map fst (filter (fun nd : pystr * dtype =>
                          nd.1 ≠ py "time"
                          ∧ (nd.2 = DFloat64 ∨ nd.2 = DInt64 ∨ nd.2 = DBool))
                       (df_columns df))
  /\ default_cols df_plot
     = filter (fun c => c ∈ numeric_cols df_plot)
         [py "temp"; py "tmin"; py "tmax"; py "prcp"; py "wspd"; py "pres"; py "rhum"]
  /\ multiselect_default df_plot
     = (if decide (default_cols df_plot = []) then take 2 (numeric_cols df_plot)
        else default_cols df_plot)
  /\ StMultiselect (py "Selecione variáveis") (numeric_cols df_plot)
       (multiselect_default df_plot) (selection i df_plot)
     ∈ preview_and_charts i df df_plot
  /\ (columns_choice i = None -> selection i df_plot = multiselect_default df_plot)
  /\ (prcp_bar_chart ∈ page (render_stage i station_id start_d end_d df w).2
      <-> prcp_bar_chart ∈ page w \/ py "prcp" ∈ selection i df_plot).
Proof.
  intros Hr Ht Hd Hf.
  pose proof (render_stage_spec i station_id start_d end_d df df_plot w Hr Ht Hd Hf) as E.
  assert (exists rest,
             page (render_stage i station_id start_d end_d df w).2
             = page w ++ preview_and_charts i df df_plot ++ rest
             /\ prcp_bar_chart ∉ rest) as (rest & Hpage & Hrest).
  { rewrite E. destruct (df_to_csv_bytes df) as [e|data].
    - exists []. split; [by rewrite app_nil_r|]. apply not_elem_of_nil.
    - eexists. split; [reflexivity|].
      intros Hin. apply list_elem_of_singleton in Hin. discriminate Hin. }
  split; [by exists rest|].
  split.
  { unfold preview_and_charts. apply elem_of_app. left.
    apply elem_of_cons. right. apply elem_of_cons. by left. }
  split; [done|].
  split. { change (df_rows (df_head 50 df)) with (take 50 (df_rows df)). apply length_take. }
  split.
  { destruct (reset_index_nodup df df_plot Hr (st_dataframe_check_nodup _ Hd)) as [Hc Hnd].
    rewrite (numeric_cols_spec df_plot Hnd), Hc. reflexivity. }
  split; [reflexivity|].
  split. { unfold multiselect_default. by destruct (default_cols df_plot). }
  split.
  { unfold preview_and_charts. apply elem_of_app. left.
    do 3 (apply elem_of_cons; right). apply elem_of_cons. by left. }
  split. { intros Hc. unfold selection. by rewrite Hc. }
  rewrite Hpage, !elem_of_app.
  unfold preview_and_charts. rewrite !elem_of_app, bar_chart_iff.
  split.
  - intros [Hp|[[Hin|[Hc|Hin]]|Hr']]; auto.
    + repeat (apply elem_of_cons in Hin as [Hin|Hin]; [discriminate Hin|]).
      by apply elem_of_nil in Hin.
    + apply list_elem_of_singleton in Hin. discriminate Hin.
    + done.
  - intros [Hp|Hc]; auto.
Qed.

End Rendering.

(** ** UTF-8: decoding undoes encoding *)

Ltac decide_tests :=
  repeat (match goal with
          | |- context [?a <? ?b] =>
              first [ rewrite (proj2 (Z.ltb_lt a b)) by lia
                    | rewrite (proj2 (Z.ltb_ge a b)) by lia ]
          | |- context [?a <=? ?b] =>
              first [ rewrite (proj2 (Z.leb_le a b)) by lia
                    | rewrite (proj2 (Z.leb_gt a b)) by lia ]
          end; cbn [andb orb negb]).

Lemma decode_one (b : Z) (r : pybytes) :
  0 <= b < 128 -> Utf8.decode (b :: r) = cons b <$> Utf8.decode r.
Proof. intros Hb. cbn [Utf8.decode]. by decide_tests. Qed.

Lemma decode_two (b0 b1 c : Z) (r : pybytes) :
  192 <= b0 < 224 -> 128 <= b1 < 192 ->
  c = (b0 - 192) * 64 + (b1 - 128) -> 128 <= c ->
  Utf8.decode (b0 :: b1 :: r) = cons c <$> Utf8.decode r.
Proof.
  intros H0 H1 Hc Hlo. cbn [Utf8.decode]. unfold Utf8.is_cont. rewrite <- Hc.
  by decide_tests.
Qed.

Lemma decode_three (b0 b1 b2 c : Z) (r : pybytes) :
  224 <= b0 < 240 -> 128 <= b1 < 192 -> 128 <= b2 < 192 ->
  c = (b0 - 224) * 4096 + (b1 - 128) * 64 + (b2 - 128) ->
  2048 <= c -> ~ (55296 <= c < 57344) ->
  Utf8.decode (b0 :: b1 :: b2 :: r) = cons c <$> Utf8.decode r.
Proof.
  intros H0 H1 H2 Hc Hlo Hs. cbn [Utf8.decode]. unfold Utf8.is_cont. rewrite <- Hc.
  decide_tests.
  destruct (Z.leb_spec 55296 c); cbn [andb negb]; [|done].
  by decide_tests.
Qed.

Lemma decode_four (b0 b1 b2 b3 c : Z) (r : pybytes) :
  240 <= b0 < 248 -> 128 <= b1 < 192 -> 128 <= b2 < 192 -> 128 <= b3 < 192 ->
  c = (b0 - 240) * 262144 + (b1 - 128) * 4096 + (b2 - 128) * 64 + (b3 - 128) ->
  65536 <= c < 1114112 ->
  Utf8.decode (b0 :: b1 :: b2 :: b3 :: r) = cons c <$> Utf8.decode r.
Proof.
  intros H0 H1 H2 H3 Hc Hr. cbn [Utf8.decode]. unfold Utf8.is_cont. rewrite <- Hc.
  by decide_tests.
Qed.

Lemma decode_encode_cp (c : Z) (bc : pybytes) (r : pybytes) :
  Utf8.encode_cp c = Some bc -> Utf8.decode (bc ++ r) = cons c <$> Utf8.decode r.
Proof.
  unfold Utf8.encode_cp.
  destruct (Z.ltb_spec c 0); [done|].
  destruct (Z.ltb_spec c 128).
  { intros [= <-]. apply decode_one. lia. }
  destruct (Z.ltb_spec c 2048).
  { intros [= <-]. cbn [app].
    pose proof (Z.div_mod c 64 ltac:(lia)).
    pose proof (Z.mod_pos_bound c 64 ltac:(lia)).
    apply decode_two; lia. }
  destruct (Z.ltb_spec c 65536).
  { destruct (Z.leb_spec 55296 c); cbn [andb].
    - destruct (Z.ltb_spec c 57344); [done|].
      intros [= <-]. cbn [app].
      pose proof (Z.div_mod c 64 ltac:(lia)).
      pose proof (Z.mod_pos_bound c 64 ltac:(lia)).
      pose proof (Z.div_mod (c / 64) 64 ltac:(lia)).
      pose proof (Z.mod_pos_bound (c / 64) 64 ltac:(lia)).
      assert (c / 4096 = c / 64 / 64) by (rewrite Z.div_div by lia; reflexivity).
      apply decode_three; lia.
    - intros [= <-]. cbn [app].
      pose proof (Z.div_mod c 64 ltac:(lia)).
      pose proof (Z.mod_pos_bound c 64 ltac:(lia)).
      pose proof (Z.div_mod (c / 64) 64 ltac:(lia)).
      pose proof (Z.mod_pos_bound (c / 64) 64 ltac:(lia)).
      assert (c / 4096 = c / 64 / 64) by (rewrite Z.div_div by lia; reflexivity).
      apply decode_three; lia. }
  destruct (Z.ltb_spec c 1114112); [|done].
  intros [= <-]. cbn [app].
  pose proof (Z.div_mod c 64 ltac:(lia)).
  pose proof (Z.mod_pos_bound c 64 ltac:(lia)).
  pose proof (Z.div_mod (c / 64) 64 ltac:(lia)).
  pose proof (Z.mod_pos_bound (c / 64) 64 ltac:(lia)).
  pose proof (Z.div_mod (c / 64 / 64) 64 ltac:(lia)).
  pose proof (Z.mod_pos_bound (c / 64 / 64) 64 ltac:(lia)).
  assert (c / 4096 = c / 64 / 64) as -> by (rewrite Z.div_div by lia; reflexivity).
  assert (c / 262144 = c / 64 / 64 / 64) as -> by (rewrite !Z.div_div by lia; reflexivity).
  apply decode_four; lia.
Qed.

Lemma decode_encode (s : pystr) (b : pybytes) :
  Utf8.encode s = Some b -> Utf8.decode b = Some s.
Proof.
  revert b. induction s as [|c s IH]; intros b; cbn [Utf8.encode].
  - by intros [= <-].
  - destruct (Utf8.encode_cp c) as [bc|] eqn:Ec; [|done].
    destruct (Utf8.encode s) as [bs|]; [|done].
    intros [= <-]. rewrite (decode_encode_cp c bc bs Ec), (IH bs eq_refl). reflexivity.
Qed.

(** Code points [str.encode] accepts: everything but the surrogates. *)
Definition encodable (s : pystr) : Prop :=
  Forall (fun c => 0 <= c < 1114112 /\ ~ (55296 <= c < 57344)) s.

Lemma encode_total (s : pystr) : encodable s -> exists b, Utf8.encode s = Some b.
Proof.
  induction 1 as [|c s [Hc Hs] _ [bs IH]]; [by eexists|].
  cbn [Utf8.encode]. rewrite IH.
  assert (exists bc, Utf8.encode_cp c = Some bc) as [bc ->]; [|by eexists].
  unfold Utf8.encode_cp.
  destruct (Z.ltb_spec c 0); [lia|].
  destruct (Z.ltb_spec c 128); [by eexists|].
  destruct (Z.ltb_spec c 2048); [by eexists|].
  destruct (Z.ltb_spec c 65536).
  - destruct (Z.leb_spec 55296 c); cbn [andb]; [|by eexists].
    destruct (Z.ltb_spec c 57344); [lia|by eexists].
  - destruct (Z.ltb_spec c 1114112); [by eexists|lia].
Qed.

#[global] Instance encodable_dec (s : pystr) : Decision (encodable s).
Proof. unfold encodable. apply _. Defined.

Lemma encodable_app (s t : pystr) : encodable s -> encodable t -> encodable (s ++ t).
Proof. unfold encodable. intros Hs Ht. by apply Forall_app. Qed.

Lemma encodable_ascii (c : Z) : 0 <= c < 128 -> encodable [c].
Proof. intros Hc. apply Forall_cons. split; [lia | constructor]. Qed.

Lemma encodable_escape (s : pystr) : encodable s -> encodable (Csv.escape s).
Proof.
  induction 1 as [|c s Hc _ IH]; [constructor|].
  cbn [Csv.escape]. destruct (c =? cp_quote).
  - apply (encodable_app [cp_quote; cp_quote]); [|exact IH].
    apply Forall_cons. split; [unfold cp_quote; lia|]. by apply encodable_ascii.
  - by apply Forall_cons.
Qed.

Lemma encodable_write_field (s : pystr) : encodable s -> encodable (Csv.write_field s).
Proof.
  intros Hs. unfold Csv.write_field. destruct (Csv.needs_quote s); [|exact Hs].
  apply (encodable_app [cp_quote]); [by apply encodable_ascii|].
  apply encodable_app; [by apply encodable_escape | by apply encodable_ascii].
Qed.

Lemma encodable_join (sep : pystr) (parts : list pystr) :
  encodable sep -> Forall encodable parts -> encodable (join sep parts).
Proof.
  intros Hsep. induction 1 as [|x parts Hx Hparts IH]; [constructor|].
  destruct parts as [|y parts]; [exact Hx|].
  change (join sep (x :: y :: parts)) with (x ++ sep ++ join sep (y :: parts)).
  by repeat apply encodable_app.
Qed.

Lemma encodable_write_row (fields : list pystr) :
  Forall encodable fields -> encodable (Csv.write_row fields).
Proof.
  intros Hf.
  assert (encodable (join [cp_comma] (map Csv.write_field fields) ++ [cp_lf])) as Hj.
  { apply encodable_app; [|by apply encodable_ascii].
    apply encodable_join; [by apply encodable_ascii|].
    induction Hf; [constructor|]. apply Forall_cons. split; [|done].
    by apply encodable_write_field. }
  unfold Csv.write_row. destruct fields as [|[|] [|]]; try exact Hj.
  apply Forall_cons. split; [unfold cp_quote; lia|].
  apply Forall_cons. split; [unfold cp_quote; lia|]. by apply encodable_ascii.
Qed.

Lemma encodable_write (rows : list (list pystr)) :
  Forall (Forall encodable) rows -> encodable (Csv.write rows).
Proof.
  unfold Csv.write. induction 1 as [|r rows Hr _ IH]; [constructor|].
  cbn [map concat]. apply encodable_app; [by apply encodable_write_row | exact IH].
Qed.

(** ** Delimited text: reading undoes writing *)

Section CsvRoundTrip.
Import Csv.

(** What the reader does once a field is complete and the separator [c]
    (a comma or a line feed) has been read. *)
Definition finish (c : Z) (field : pystr) (row : list pystr) (rest : pystr)
    : option (list (list pystr)) :=
  if c =? cp_comma then parse_from AtStart [] (reverse field :: row) rest
  else cons (end_row field row) <$> parse_from AtStart [] [] rest.

Definition separator (c : Z) : Prop := c = cp_comma \/ c = cp_lf.

Lemma special_false (c : Z) :
  special c = false -> c <> cp_comma /\ c <> cp_quote /\ c <> cp_lf /\ c <> cp_cr.
Proof.
  unfold special. intros Hs.
  repeat (apply orb_false_elim in Hs as [Hs ?]).
  repeat split; intros ->; done.
Qed.

Lemma parse_plain (f acc : pystr) (row : list pystr) (c : Z) (rest : pystr) :
  needs_quote f = false -> separator c ->
  parse_from InPlain acc row (f ++ c :: rest) = finish c (reverse f ++ acc) row rest.
Proof.
  unfold needs_quote. revert acc. induction f as [|x f IH]; intros acc Hf Hc.
  - cbn [app parse_from]. unfold finish.
    destruct Hc as [-> | ->]; reflexivity.
  - cbn [existsb] in Hf. apply orb_false_elim in Hf as [Hx Hf].
    apply special_false in Hx as (Hx1 & Hx2 & Hx3 & _).
    cbn [app parse_from].
    rewrite (proj2 (Z.eqb_neq x cp_quote) Hx2), (proj2 (Z.eqb_neq x cp_comma) Hx1),
      (proj2 (Z.eqb_neq x cp_lf) Hx3).
    rewrite (IH (x :: acc) Hf Hc). rewrite reverse_cons, <- app_assoc. reflexivity.
Qed.

Lemma parse_plain_start (f : pystr) (row : list pystr) (c : Z) (rest : pystr) :
  needs_quote f = false -> separator c ->
  f <> [] \/ c = cp_comma \/ row <> [] ->
  parse_from AtStart [] row (f ++ c :: rest) = finish c (reverse f) row rest.
Proof.
  intros Hf Hc Hne. destruct f as [|x f].
  - cbn [app parse_from]. unfold finish.
    destruct Hc as [-> | ->]; [reflexivity|].
    destruct row; [|reflexivity].
    destruct Hne as [?|[?|?]]; done.
  - pose proof Hf as Hf'. unfold needs_quote in Hf'. cbn [existsb] in Hf'.
    apply orb_false_elim in Hf' as [Hx Hf'].
    apply special_false in Hx as (Hx1 & Hx2 & Hx3 & _).
    cbn [app parse_from].
    rewrite (proj2 (Z.eqb_neq x cp_quote) Hx2), (proj2 (Z.eqb_neq x cp_comma) Hx1),
      (proj2 (Z.eqb_neq x cp_lf) Hx3).
    rewrite (parse_plain f [x] row c rest Hf' Hc).
    rewrite reverse_cons. reflexivity.
Qed.

Lemma parse_quoted (f acc : pystr) (row : list pystr) (c : Z) (rest : pystr) :
  separator c ->
  parse_from InQuoted acc row (escape f ++ cp_quote :: c :: rest)
  = finish c (reverse f ++ acc) row rest.
Proof.
  intros Hc. revert acc. induction f as [|x f IH]; intros acc.
  - cbn [escape app parse_from]. rewrite Z.eqb_refl. unfold finish.
    destruct Hc as [-> | ->]; reflexivity.
  - cbn [escape]. destruct (Z.eqb_spec x cp_quote) as [-> | Hx].
    + cbn [app parse_from]. rewrite !Z.eqb_refl.
      rewrite (IH (cp_quote :: acc)). rewrite reverse_cons, <- app_assoc. reflexivity.
    + cbn [app parse_from]. rewrite (proj2 (Z.eqb_neq x cp_quote) Hx).
      rewrite (IH (x :: acc)). rewrite reverse_cons, <- app_assoc. reflexivity.
Qed.

Lemma parse_field (f : pystr) (row : list pystr) (c : Z) (rest : pystr) :
  separator c ->
  f <> [] \/ c = cp_comma \/ row <> [] ->
  parse_from AtStart [] row (write_field f ++ c :: rest) = finish c (reverse f) row rest.
Proof.
  intros Hc Hne. unfold write_field. destruct (needs_quote f) eqn:Hq.
  - cbn [app parse_from]. rewrite Z.eqb_refl. rewrite <- app_assoc. cbn [app].
    rewrite (parse_quoted f [] row c rest Hc). by rewrite app_nil_r.
  - by apply parse_plain_start.
Qed.

Lemma finish_lf (f : pystr) (row : list pystr) (rest : pystr) :
  finish cp_lf (reverse f) row rest
  = cons (reverse row ++ [f]) <$> parse_from AtStart [] [] rest.
Proof.
  unfold finish, end_row. cbn [Z.eqb]. by rewrite reverse_involutive, reverse_cons.
Qed.

Lemma finish_comma (f : pystr) (row : list pystr) (rest : pystr) :
  finish cp_comma (reverse f) row rest = parse_from AtStart [] (f :: row) rest.
Proof. unfold finish. by rewrite Z.eqb_refl, reverse_involutive. Qed.

Lemma parse_fields (fs : list pystr) (row : list pystr) (rest : pystr) :
  fs <> [] -> row <> [] \/ fs <> [[]] ->
  parse_from AtStart [] row (join [cp_comma] (map write_field fs) ++ cp_lf :: rest)
  = cons (reverse row ++ fs) <$> parse_from AtStart [] [] rest.
Proof.
  revert row. induction fs as [|f fs IH]; intros row Hfs Hne; [done|].
  destruct fs as [|f2 fs].
  - cbn [map join].
    rewrite parse_field; [apply finish_lf | by right | ].
    destruct Hne as [?|Hne]; [by right; right|].
    left. intros ->. done.
  - change (join [cp_comma] (map write_field (f :: f2 :: fs)))
      with (write_field f ++ [cp_comma] ++ join [cp_comma] (map write_field (f2 :: fs))).
    rewrite <- !app_assoc. cbn [app].
    rewrite parse_field; [| by left | by right; left].
    rewrite finish_comma.
    rewrite (IH (f :: row)); [| done | by left].
    rewrite reverse_cons, <- app_assoc. reflexivity.
Qed.

Lemma parse_row (fs : list pystr) (rest : pystr) :
  fs <> [] ->
  parse_from AtStart [] [] (write_row fs ++ rest)
  = cons fs <$> parse_from AtStart [] [] rest.
Proof.
  intros Hfs. destruct (decide (fs = [[]])) as [-> | Hne].
  - reflexivity.
  - assert (write_row fs = join [cp_comma] (map write_field fs) ++ [cp_lf]) as ->.
    { unfold write_row. destruct fs as [|[|] [|]]; done. }
    rewrite <- app_assoc. cbn [app].
    rewrite parse_fields; [done | done | by right].
Qed.

(** Records that have at least one field come back as they were written. *)
Lemma parse_write (rows : list (list pystr)) :
  Forall (fun fs => fs <> []) rows -> parse (write rows) = Some rows.
Proof.
  unfold parse, write. induction 1 as [|fs rows Hfs _ IH]; [done|].
  cbn [map concat]. rewrite (parse_row fs _ Hfs), IH. reflexivity.
Qed.

End CsvRoundTrip.

(** ** The time column: reading undoes writing *)

Lemma digit_ok (r : Z) : 0 <= r <= 9 -> digit (48 + r) = Some r.
Proof.
  intros Hr. unfold digit. decide_tests. f_equal. lia.
Qed.

Lemma number_two (z : Z) :
  0 <= z <= 99 -> number [48 + (z / 10) mod 10; 48 + z mod 10] 0 = Some z.
Proof.
  intros Hz.
  pose proof (Z.div_mod z 10 ltac:(lia)).
  pose proof (Z.mod_pos_bound z 10 ltac:(lia)).
  pose proof (Z.mod_pos_bound (z / 10) 10 ltac:(lia)).
  assert ((z / 10) mod 10 = z / 10) as Hq by (apply Z.mod_small; lia).
  cbn [number]. rewrite !digit_ok by lia. cbn [mbind option_bind]. f_equal. lia.
Qed.

Lemma number_four (z : Z) :
  0 <= z <= 9999 ->
  number [48 + (z / 10 / 10 / 10) mod 10; 48 + (z / 10 / 10) mod 10;
          48 + (z / 10) mod 10; 48 + z mod 10] 0 = Some z.
Proof.
  intros Hz.
  pose proof (Z.div_mod z 10 ltac:(lia)).
  pose proof (Z.mod_pos_bound z 10 ltac:(lia)).
  pose proof (Z.div_mod (z / 10) 10 ltac:(lia)).
  pose proof (Z.mod_pos_bound (z / 10) 10 ltac:(lia)).
  pose proof (Z.div_mod (z / 10 / 10) 10 ltac:(lia)).
  pose proof (Z.mod_pos_bound (z / 10 / 10) 10 ltac:(lia)).
  pose proof (Z.mod_pos_bound (z / 10 / 10 / 10) 10 ltac:(lia)).
  assert ((z / 10 / 10 / 10) mod 10 = z / 10 / 10 / 10) as Hq
    by (apply Z.mod_small; lia).
  cbn [number]. rewrite !digit_ok by lia. cbn [mbind option_bind]. f_equal. lia.
Qed.

Lemma str_date_chars (d : date) :
  str_date d
  = [48 + (year d / 10 / 10 / 10) mod 10; 48 + (year d / 10 / 10) mod 10;
     48 + (year d / 10) mod 10; 48 + year d mod 10; 45;
     48 + (month d / 10) mod 10; 48 + month d mod 10; 45;
     48 + (day d / 10) mod 10; 48 + day d mod 10].
Proof. reflexivity. Qed.

Lemma parse_str_date (d : date) :
  0 <= year d <= 9999 -> 0 <= month d <= 99 -> 0 <= day d <= 99 ->
  parse_date (str_date d) = Some d.
Proof.
  intros Hy Hm Hd. rewrite str_date_chars. unfold parse_date.
  rewrite Z.eqb_refl. cbn [andb].
  rewrite (number_four _ Hy). cbn [mbind option_bind].
  rewrite (number_two _ Hm). cbn [mbind option_bind].
  rewrite (number_two _ Hd). cbn [mbind option_bind].
  by destruct d.
Qed.

Lemma parse_format_timestamp (date_only : bool) (t : timestamp) :
  valid_timestamp t ->
  (date_only = true -> is_midnight t = true) ->
  parse_timestamp (format_timestamp date_only t) = Some t.
Proof.
  intros (Hy & Hm & Hd & Hh & Hmi & Hs) Hmid.
  unfold parse_timestamp, format_timestamp. destruct date_only.
  - specialize (Hmid eq_refl). unfold is_midnight in Hmid.
    apply andb_prop in Hmid as [[Hh0 Hm0]%andb_prop Hs0].
    apply Z.eqb_eq in Hh0, Hm0, Hs0.
    rewrite str_date_chars. cbn [take drop]. rewrite <- str_date_chars.
    rewrite (parse_str_date _ Hy Hm Hd). cbn [mbind option_bind].
    destruct t as [d h m s]. cbn in Hh0, Hm0, Hs0. by subst.
  - rewrite str_date_chars.
    change (py " ") with [32]. change (py ":") with [58].
    cbn [app digits take drop]. rewrite <- str_date_chars.
    rewrite (parse_str_date _ Hy Hm Hd). cbn [mbind option_bind].
    rewrite !Z.eqb_refl. cbn [andb].
    rewrite (number_two _ Hh). cbn [mbind option_bind].
    rewrite (number_two _ Hmi). cbn [mbind option_bind].
    rewrite (number_two _ Hs). cbn [mbind option_bind].
    by destruct t.
Qed.

Section FileExport.
Context `{External}.

(** The records of the exported text: the column names, then one record
    per row, the time first. *)
Definition export_records (fr : Frame) : list (list pystr) :=
  column_names (frame_columns fr) :: frame_records fr.

Lemma export_records_nonempty (fr : Frame) :
  Forall (fun fs => fs <> []) (export_records fr).
Proof.
  unfold export_records, frame_records. apply Forall_cons. split; [done|].
  apply Forall_forall. intros fs Hin. apply list_elem_of_fmap in Hin as (r & -> & _). done.
Qed.

Lemma df_to_csv_bytes_inv (df : DataFrame) (data : pybytes) :
  df_to_csv_bytes df = inr data ->
  exists fr, reset_index df = inr fr
             /\ fr_columns fr = df_columns df /\ fr_rows fr = df_rows df
             /\ Utf8.encode (to_csv fr) = Some data.
Proof.
  unfold df_to_csv_bytes. destruct (reset_index df) as [e|fr] eqn:Er; [done|].
  unfold encode_utf8. destruct (Utf8.encode (to_csv fr)) as [b|] eqn:Ee; [|done].
  intros [= <-]. exists fr. split; [done|].
  unfold reset_index in Er.
  destruct (bool_decide _) in Er; [done|]. injection Er as <-. done.
Qed.

Lemma read_csv_export (fr : Frame) (data : pybytes) :
  Utf8.encode (to_csv fr) = Some data ->
  read_csv data = Some (column_names (frame_columns fr), frame_records fr).
Proof.
  intros Ee. unfold read_csv. rewrite (decode_encode _ _ Ee). cbn [mbind option_bind].
  unfold to_csv. fold (export_records fr).
  rewrite (parse_write _ (export_records_nonempty fr)). reflexivity.
Qed.

Lemma forallb_midnight (ts : list timestamp) (t : timestamp) :
  t ∈ ts -> forallb is_midnight ts = true -> is_midnight t = true.
Proof.
  intros Hin Hall. rewrite forallb_forall in Hall. apply Hall.
  by apply list_elem_of_In.
Qed.

Lemma time_column_read_back (fr : Frame) :
  Forall (fun r => valid_timestamp r.1) (fr_rows fr) ->
  mapM (fun r => head r ≫= parse_timestamp) (frame_records fr)
  = Some (map fst (fr_rows fr)).
Proof.
  intros Hv. apply mapM_Some. unfold frame_records.
  apply Forall2_fmap. apply Forall2_same_length_lookup. split; [done|].
  intros k r r' Hr Hr'. rewrite Hr in Hr'. injection Hr' as <-.
  cbn [head mbind option_bind].
  apply parse_format_timestamp.
  - rewrite Forall_forall in Hv. apply Hv. by eapply list_elem_of_lookup_2.
  - apply forallb_midnight. apply list_elem_of_fmap. exists r. split; [done|].
    by eapply list_elem_of_lookup_2.
Qed.

(** The export succeeds when the index can be made a column and the text
    to write holds no lone surrogate. *)
Lemma df_to_csv_bytes_total (df : DataFrame) (fr : Frame) :
  reset_index df = inr fr ->
  Forall (Forall encodable) (export_records fr) ->
  exists data, df_to_csv_bytes df = inr data /\ Utf8.encode (to_csv fr) = Some data.
Proof.
  intros Hr He. unfold df_to_csv_bytes, encode_utf8. rewrite Hr.
  destruct (encode_total (to_csv fr)) as [data Hd].
  { unfold to_csv. fold (export_records fr). by apply encodable_write. }
  exists data. by rewrite Hd.
Qed.

(** C4.  For a fetched table whose index can be made a column and whose
    text holds no lone surrogate, the export returns bytes; reading them
    back (decoding them as UTF-8, splitting the text into records, the
    first being the header) gives as many records as the table has rows,
    and a first column that reads as the table's time index, entry for
    entry. *)
Theorem export_round_trip (df : DataFrame) (fr : Frame) :
  reset_index df = inr fr ->
  Forall (Forall encodable) (export_records fr) ->
  Forall (fun r => valid_timestamp r.1) (df_rows df) ->
  exists data header rows,
    df_to_csv_bytes df = inr data
    /\ read_csv data = Some (header, rows)
    /\ length rows = length (df_rows df)
    /\ read_time_index data = Some (map fst (df_rows df)).
Proof.
  intros Hr He Hv.
  destruct (df_to_csv_bytes_total df fr Hr He) as (data & Hd & _).
  destruct (df_to_csv_bytes_inv df data Hd) as (fr' & Hr' & Hc & Hrows & Henc).
  rewrite Hr in Hr'. injection Hr' as <-.
  pose proof (read_csv_export fr data Henc) as Hread.
  exists data, (column_names (frame_columns fr)), (frame_records fr).
  split; [exact Hd|]. split; [exact Hread|]. split.
  - unfold frame_records. by rewrite length_map, Hrows.
  - unfold read_time_index. rewrite Hread. cbn [mbind option_bind].
    rewrite <- Hrows in Hv. rewrite (time_column_read_back fr Hv). by rewrite Hrows.
Qed.

Lemma replace_char_spec (old new : Z) (s : pystr) :
  old <> new ->
  (old ∉ replace_char old new s)
  /\ length (replace_char old new s) = length s
  /\ forall k c, s !! k = Some c ->
       replace_char old new s !! k = Some (if decide (c = old) then new else c).
Proof.
  intros Hne. unfold replace_char. split; [|split].
  - induction s as [|c s IH]; cbn [map]; [apply not_elem_of_nil|].
    apply not_elem_of_cons. split; [|exact IH].
    destruct (Z.eqb_spec c old); congruence.
  - apply length_map.
  - induction s as [|c0 s IH]; intros k c Hk; [done|].
    destruct k as [|k]; cbn [map].
    + injection Hk as ->. cbn [lookup list_lookup]. f_equal.
      destruct (Z.eqb_spec c old); by destruct (decide (c = old)).
    + apply (IH k c Hk).
Qed.

(** C7.  For a fetched table whose index can be made a column and whose
    text holds no lone surrogate, the export returns the UTF-8 encoding of
    delimited text whose header is the name of the time index followed by
    the names of all columns, and whose records are, row by row, the time
    followed by one field for every observation: a float as Python prints
    it, an integer in decimal, a boolean as True or False, text as it is,
    and the empty field for a missing value (NaN or None).  These bytes are
    what the download button gets when the preview and the charts before
    it are drawn.  The file name is
    meteostat_COUNTRY_CITY_STATION_START_END.csv with every space replaced
    by an underscore: it holds no space, and agrees with that text at
    every other position. *)
Theorem export_is_utf8_delimited_text (i : inputs) (station_id : pystr)
    (start_d end_d : dval) (df : DataFrame) (fr : Frame) :
  reset_index df = inr fr ->
  Forall (Forall encodable) (export_records fr) ->
  let field (c : cell) : pystr :=
    match c with
    | CFloat f => if PrimFloat.is_nan f then [] else repr_float f
    | CInt z => str_int z
    | CBool true => py "True"
    | CBool false => py "False"
    | CStr s => s
    | CNone => []
    end in
  let records :=
    (fr_time fr :: map fst (df_columns df))
    :: map (fun r =>
              format_timestamp (forallb is_midnight (map fst (df_rows df))) r.1
              :: map field r.2) (df_rows df) in
  let raw := py "meteostat_" ++ country i ++ py "_" ++ city i ++ py "_" ++ station_id
             ++ py "_" ++ str_dval start_d ++ py "_" ++ str_dval end_d ++ py ".csv" in
  let name := file_name (country i) (city i) station_id start_d end_d in
  (exists data,
      df_to_csv_bytes df = inr data
      /\ Utf8.encode (Csv.write records) = Some data
      /\ Utf8.decode data = Some (Csv.write records)
      /\ Csv.parse (Csv.write records) = Some records
      /\ forall w, time_col ∈ column_names (frame_columns fr) ->
           st_dataframe_check (df_head 50 df) = inr tt ->
           Forall (fun fig => px_check fr fig = inr tt) (figures (selection i fr)) ->
           render_stage i station_id start_d end_d df w
           = (Ret tt,
              with_page w (preview_and_charts i df fr
                           ++ [StDownloadButton (py "Baixar CSV") data name
                                                (py "text/csv")])))
  /\ (cp_space ∉ name)
  /\ length name = length raw
  /\ forall k c, raw !! k = Some c ->
       name !! k = Some (if decide (c = cp_space) then cp_underscore else c).
Proof.
  intros Hr He field records raw name. split.
  - destruct (df_to_csv_bytes_total df fr Hr He) as (data & Hd & Henc).
    destruct (df_to_csv_bytes_inv df data Hd) as (fr' & Hr' & Hc & Hrows & _).
    rewrite Hr in Hr'. injection Hr' as <-.
    assert (to_csv fr = Csv.write records) as Htext.
    { unfold to_csv, records, frame_records, frame_columns, column_names.
      cbn [map fst]. by rewrite Hc, Hrows. }
    rewrite Htext in Henc.
    exists data. split; [exact Hd|]. split; [exact Henc|].
    split; [by apply decode_encode|]. split.
    + rewrite <- Htext. unfold to_csv. fold (export_records fr).
      rewrite (parse_write _ (export_records_nonempty fr)). f_equal.
      unfold export_records, records, frame_records, frame_columns, column_names.
      cbn [map fst]. by rewrite Hc, Hrows.
    + intros w Ht Hs Hf. rewrite (render_stage_spec _ _ _ _ _ _ _ Hr Ht Hs Hf).
      by rewrite Hd.
  - apply replace_char_spec. done.
Qed.

End FileExport.

(** ** The selected place *)

Lemma list_index_first (x : pystr) (l : list pystr) (k : nat) :
  l !! k = Some x -> x ∉ take k l -> list_index x l = Some k.
Proof.
  revert k. induction l as [|y l IH]; intros k Hk Hn; [done|].
  destruct k as [|k].
  - injection Hk as ->. cbn [list_index]. by rewrite bool_decide_eq_true_2.
  - cbn [take] in Hn. apply not_elem_of_cons in Hn as [Hxy Hn].
    cbn [list_index]. rewrite bool_decide_eq_false_2 by done.
    by rewrite (IH k Hk Hn).
Qed.

Section Places.
Context `{External}.



Definition place_selectbox (labels : list pystr) (l : pystr) : widget :=
  StSelectbox (py "Local encontrado (selecione se houver mais de um)") labels l.




End Places.

Section Located.
Context `{External}.

Lemma mapM_lift_world {A B : Type} (f : A -> exn + B) (xs : list A) (w : world) :
  exists r, mapM (fun x => lift (f x)) xs w = (r, w).
Proof.
  induction xs as [|x xs [r IH]]; [by eexists|].
  change (mapM (fun x => lift (f x)) (x :: xs))
    with (y ← lift (f x); k ← mapM (fun x => lift (f x)) xs; mret (y :: k)).
  destruct (f x) as [e|y].
  - rewrite bind_lift_inl. by eexists.
  - rewrite bind_lift_inr. destruct r as [k|e|].
    + rewrite (bind_ret_l _ _ _ _ _ IH). by eexists.
    + rewrite (bind_raise _ _ _ _ _ IH). by eexists.
    + rewrite (bind_stopped _ _ _ _ IH). by eexists.
Qed.




End Located.

Section OneElementTuple.
Context `{External}.

Lemma date_eqb_refl (d : date) : date_eqb d d = true.
Proof. unfold date_eqb. by rewrite !Z.eqb_refl. Qed.

(** X2.  A tuple that holds one date is not a pair either: the same branch keeps
    it as it is, so the start and the end are the tuple, not the date.  The
    validation accepts it; the hourly fetch then raises TypeError in
    [datetime.combine] before anything is requested, and the series stage
    ends the run with its error. *)
Theorem one_element_tuple_is_kept (d : date) :
  normalize_period (DTuple [d]) = (DTuple [d], DTuple [d])
  /\ (forall w, validate_period (DTuple [d]) (DTuple [d]) w = (Ret tt, w))
  /\ (forall station_id w,
         fetch_hourly_body (station_id, DTuple [d], DTuple [d]) w = (Raise TypeError, w))
  /\ (forall g station_id w,
         startswith g (py "Diário") = false ->
         live hourly_slot (60 * 30) (station_id, DTuple [d], DTuple [d]) w = false ->
         fetch_stage g station_id (DTuple [d]) (DTuple [d]) w
         = (Stopped,
            with_page w [StError (py "Falha ao buscar série temporal. Detalhe: ")
                                 (Some TypeError)])).
Proof.
  split; [reflexivity|]. split; [|split].
  - intros w. apply validate_period_accepts. cbn [dval_gt tuple_gt].
    by rewrite date_eqb_refl.
  - reflexivity.
  - intros g station_id w Hg Hl. unfold fetch_stage. rewrite Hg.
    assert (fetch_hourly station_id (DTuple [d]) (DTuple [d]) w = (Raise TypeError, w)) as E.
    { unfold fetch_hourly. rewrite cache_miss; [reflexivity|].
      by apply live_false_old. }
    rewrite (bind_stopped _ _ _
               (with_page w [StError (py "Falha ao buscar série temporal. Detalhe: ")
                                     (Some TypeError)])); [done|].
    by rewrite (try_except_raise _ _ _ _ _ E).
Qed.

End OneElementTuple.

(** ** The period the widget hands back *)

Section PeriodValidation.
Context `{External}.

Lemma tuple_gt_irrefl (ds : list date) : tuple_gt ds ds = false.
Proof.
  induction ds as [|d ds IH]; [done|].
  cbn [tuple_gt]. by rewrite date_eqb_refl.
Qed.

(** X3.  The validation never raises, and it rejects one shape of input
    only: whatever the date widget hands back (a date, an empty tuple, a
    tuple of one, two, three or more dates), the run goes on to the geocode
    stage unless the value is a pair whose first date is after the
    second. *)
Theorem only_a_reversed_pair_is_rejected (i : inputs) (w : world) :
  (forall a b, period i = DTuple [a; b] -> date_gt a b = false) ->
  dval_gt (normalize_period (period i)).1 (normalize_period (period i)).2 = Some false
  /\ script i w
     = ('(lat, lon, elev) ← geocode_stage i;
        station_id ← station_stage i lat lon elev;
        df ← fetch_stage (default [] (chosen granularity_options (granularity i)))
               station_id (normalize_period (period i)).1 (normalize_period (period i)).2;
        render_stage i station_id (normalize_period (period i)).1
                     (normalize_period (period i)).2 df)
         (with_page w (header_widgets i)).
Proof.
  intros Hp.
  assert (dval_gt (normalize_period (period i)).1 (normalize_period (period i)).2
          = Some false) as Hv.
  { destruct (period i) as [d|ds] eqn:E.
    - cbn. by rewrite date_gt_irrefl.
    - destruct ds as [|a [|b [|c ds]]].
      + reflexivity.
      + cbn. by rewrite date_eqb_refl.
      + cbn. by rewrite (Hp a b eq_refl).
      + cbn [normalize_period fst snd dval_gt]. by rewrite tuple_gt_irrefl. }
  split; [exact Hv|].
  apply script_to_geocode; [|exact Hv].
  by destruct (normalize_period (period i)).
Qed.

End PeriodValidation.
(** ** Strings: what [strip] leaves *)

(** Neither end of [s] is a character [p] accepts. *)
Definition trimmed (p : Z -> bool) (s : pystr) : bool :=
  match head s with Some c => negb (p c) | None => true end
  && match last s with Some c => negb (p c) | None => true end.

Lemma lstrip_by_head (p : Z -> bool) (s : pystr) :
  match head (lstrip_by p s) with Some c => p c = false | None => True end.
Proof.
  induction s as [|c s IH]; [done|].
  cbn [lstrip_by]. destruct (p c) eqn:Hc; [exact IH|]. exact Hc.
Qed.

Lemma lstrip_by_id (p : Z -> bool) (s : pystr) :
  match head s with Some c => p c = false | None => True end -> lstrip_by p s = s.
Proof. destruct s as [|c s]; [done|]. cbn. by intros ->. Qed.

Lemma lstrip_by_suffix (p : Z -> bool) (s : pystr) : lstrip_by p s `suffix_of` s.
Proof.
  induction s as [|c s IH]; [done|].
  cbn [lstrip_by]. destruct (p c); [by apply suffix_cons_r|done].
Qed.

Lemma head_reverse {A : Type} (l : list A) : head (reverse l) = last l.
Proof.
  induction l as [|x l IH] using rev_ind; [done|].
  by rewrite reverse_app, last_snoc.
Qed.

Lemma last_reverse {A : Type} (l : list A) : last (reverse l) = head l.
Proof. by rewrite <- head_reverse, reverse_involutive. Qed.

Lemma last_suffix {A : Type} (l k : list A) : l `suffix_of` k -> l <> [] -> last l = last k.
Proof.
  intros [pre ->] Hl. destruct l as [|x l]; [done|]. by rewrite last_app_cons.
Qed.

Lemma rstrip_by_id (p : Z -> bool) (s : pystr) :
  match last s with Some c => p c = false | None => True end -> rstrip_by p s = s.
Proof.
  intros Hl. unfold rstrip_by. rewrite lstrip_by_id; [apply reverse_involutive|].
  by rewrite head_reverse.
Qed.

Lemma strip_by_trimmed (p : Z -> bool) (s : pystr) : trimmed p s = true -> strip_by p s = s.
Proof.
  unfold trimmed. intros [Hh Hl]%andb_prop. unfold strip_by.
  rewrite lstrip_by_id.
  - apply rstrip_by_id. destruct (last s); [by apply negb_true_iff|done].
  - destruct (head s); [by apply negb_true_iff|done].
Qed.

Lemma strip_by_is_trimmed (p : Z -> bool) (s : pystr) : trimmed p (strip_by p s) = true.
Proof.
  unfold trimmed, strip_by, rstrip_by. apply andb_true_intro. split.
  - rewrite head_reverse.
    destruct (lstrip_by p (reverse (lstrip_by p s))) as [|c t] eqn:E; [done|].
    assert (last (c :: t) = last (reverse (lstrip_by p s))) as ->.
    { apply last_suffix; [|done]. rewrite <- E. apply lstrip_by_suffix. }
    rewrite last_reverse.
    pose proof (lstrip_by_head p s) as Hh.
    destruct (head (lstrip_by p s)); [by apply negb_true_iff|done].
  - rewrite last_reverse.
    pose proof (lstrip_by_head p (reverse (lstrip_by p s))) as Hh.
    destruct (head (lstrip_by p (reverse (lstrip_by p s)))); [by apply negb_true_iff|done].
Qed.

Lemma strip_by_elem_of (p : Z -> bool) (s : pystr) (c : Z) : c ∈ strip_by p s -> c ∈ s.
Proof.
  unfold strip_by, rstrip_by. intros Hc.
  rewrite elem_of_reverse in Hc.
  destruct (lstrip_by_suffix p (reverse (lstrip_by p s))) as [pre Hpre].
  assert (c ∈ reverse (lstrip_by p s)) as Hc'.
  { rewrite Hpre. apply elem_of_app. by right. }
  rewrite elem_of_reverse in Hc'.
  destruct (lstrip_by_suffix p s) as [pre' Hpre'].
  rewrite Hpre'. apply elem_of_app. by right.
Qed.

Lemma split_head_no_sep (sep : Z) (s : pystr) : sep ∉ split_head sep s.
Proof.
  induction s as [|c s IH]; cbn [split_head]; [apply not_elem_of_nil|].
  destruct (Z.eqb_spec c sep); [apply not_elem_of_nil|].
  apply not_elem_of_cons. split; [congruence | exact IH].
Qed.

(** X4.  The station identifier is read back from the chosen label (the
    text before the first em dash, stripped).  Whatever the label, what is
    read back holds no em dash and no white space at its ends; for a label
    built from a row, it is the row's identifier exactly when that
    identifier holds no em dash and no white space at its ends. *)
Theorem station_id_read_back_iff_clean (id rest : pystr) :
  (forall label, clean_id (station_id_of_label label))
  /\ (station_id_of_label (id ++ py " — " ++ rest) = id <-> clean_id id).
Proof.
  assert (forall label, clean_id (station_id_of_label label)) as Hall.
  { intros label. unfold clean_id, station_id_of_label, strip. split.
    - intros Hin%strip_by_elem_of. by apply split_head_no_sep in Hin.
    - apply strip_by_trimmed, strip_by_is_trimmed. }
  split; [exact Hall|]. split.
  - intros <-. apply Hall.
  - apply station_id_of_label_clean.
Qed.

(** ** The text sent to the geocoder (line 24) *)

(** Neither end of [s] is white space or a comma. *)
Definition plain (s : pystr) : bool :=
  trimmed (fun c => is_space c || (c =? cp_comma)) s.

Lemma trimmed_weaken (p q : Z -> bool) (s : pystr) :
  (forall c, p c = false -> q c = false) -> trimmed p s = true -> trimmed q s = true.
Proof.
  intros Hpq. unfold trimmed. intros [Hh Hl]%andb_prop. apply andb_true_intro. split.
  - destruct (head s) as [c|]; [|done].
    apply negb_true_iff, Hpq. by apply negb_true_iff.
  - destruct (last s) as [c|]; [|done].
    apply negb_true_iff, Hpq. by apply negb_true_iff.
Qed.

Lemma trimmed_between (p : Z -> bool) (a m b : pystr) :
  a <> [] -> b <> [] -> trimmed p a = true -> trimmed p b = true ->
  trimmed p (a ++ m ++ b) = true.
Proof.
  intros Ha Hb [Hh _]%andb_prop [_ Hl]%andb_prop.
  unfold trimmed. apply andb_true_intro. split.
  - destruct a as [|c a]; [done|]. exact Hh.
  - destruct b as [|c b]; [done|]. by rewrite app_assoc, last_app_cons.
Qed.

Lemma plain_no_space (s : pystr) : plain s = true -> trimmed is_space s = true.
Proof.
  apply trimmed_weaken. intros c Hc. by apply orb_false_elim in Hc as [? _].
Qed.

Lemma plain_no_comma (s : pystr) :
  plain s = true -> trimmed (fun c => bool_decide (c ∈ [cp_comma])) s = true.
Proof.
  apply trimmed_weaken. intros c Hc. apply orb_false_elim in Hc as [_ Hc].
  apply bool_decide_eq_false_2. intros Hin%list_elem_of_singleton.
  rewrite Hin in Hc. discriminate Hc.
Qed.

(** The query of line 24. *)
Definition geocode_query (city country : pystr) : pystr :=
  strip_chars (py ",") (strip (city ++ py ", " ++ country)).

Lemma geocode_query_both (city country : pystr) :
  plain city = true -> plain country = true -> city <> [] -> country <> [] ->
  geocode_query city country = city ++ py ", " ++ country.
Proof.
  intros Hc Hk Hcn Hkn. unfold geocode_query, strip, strip_chars.
  rewrite (strip_by_trimmed is_space).
  - change (py ",") with [cp_comma]. apply strip_by_trimmed.
    apply trimmed_between; auto using plain_no_comma.
  - apply trimmed_between; auto using plain_no_space.
Qed.

Lemma geocode_query_no_country (city : pystr) :
  plain city = true -> geocode_query city [] = city.
Proof.
  intros Hc. unfold geocode_query, strip, strip_chars.
  change (py ", ") with [cp_comma; cp_space]. change (py ",") with [cp_comma].
  destruct city as [|c city]; [reflexivity|].
  rewrite app_nil_r.
  change ((c :: city) ++ [cp_comma; cp_space]) with ((c :: city) ++ [cp_comma] ++ [cp_space]).
  rewrite app_assoc, strip_by_snoc by done.
  rewrite (strip_by_trimmed is_space).
  - rewrite strip_by_snoc by done. by apply strip_by_trimmed, plain_no_comma.
  - apply plain_no_space in Hc. apply andb_prop in Hc as [Hh _].
    unfold trimmed. apply andb_true_intro. split; [exact Hh|].
    by rewrite last_snoc.
Qed.

Lemma geocode_query_no_city (country : pystr) :
  plain country = true -> country <> [] ->
  geocode_query [] country = py " " ++ country.
Proof.
  intros Hk Hkn. unfold geocode_query, strip, strip_chars.
  change (py ", ") with [cp_comma; cp_space]. change (py ",") with [cp_comma].
  change (py " ") with [cp_space].
  assert (forall p, trimmed p country = true ->
                    match last ([cp_space] ++ country) with
                    | Some c => negb (p c) | None => true end = true) as Hlast.
  { intros p [_ Hl]%andb_prop. destruct country as [|c k]; [done|].
    by rewrite last_app_cons. }
  rewrite (strip_by_trimmed is_space).
  - change ([] ++ [cp_comma; cp_space] ++ country) with (cp_comma :: [cp_space] ++ country).
    unfold strip_by. cbn [lstrip_by]. rewrite bool_decide_eq_true_2 by (by left).
    change (lstrip_by _ ([cp_space] ++ country)) with ([cp_space] ++ country).
    apply rstrip_by_id.
    specialize (Hlast _ (plain_no_comma _ Hk)).
    destruct (last ([cp_space] ++ country)); [by apply negb_true_iff|done].
  - unfold trimmed. apply andb_true_intro. split; [reflexivity|].
    change ([] ++ [cp_comma; cp_space] ++ country) with ([cp_comma] ++ [cp_space] ++ country).
    destruct country as [|c k]; [done|].
    rewrite app_assoc, last_app_cons.
    apply plain_no_space in Hk. by apply andb_prop in Hk as [_ Hl].
Qed.

Section QueryText.
Context `{External}.

Lemma geocode_body_log (a : pystr * pystr * Z * pystr) (w : world) :
  (geocode_city_country_body a w).2 = with_log w [geocode_request a].
Proof. destruct (geocode_body_invokes a w) as [r E]. by rewrite E. Qed.

(** X5.  What the geocoder is asked.  For a city and a country that have
    no white space or comma at their ends, the request carries the name
    "CITY, COUNTRY" (with count, format json, language and a timeout of 30
    seconds); with the country left empty it carries the city alone; with
    the city left empty it carries the country after one space, the space
    that followed the comma. *)
Theorem geocode_query_text (city country : pystr) (max_results : Z) (language : pystr)
    (w : world) :
  plain city = true -> plain country = true ->
  let asks (c k q : pystr) :=
    (geocode_city_country_body (c, k, max_results, language) w).2
    = with_log w [HttpGet geocode_url q max_results (py "json") language 30] in
  (city <> [] -> country <> [] -> asks city country (city ++ py ", " ++ country))
  /\ asks city [] city
  /\ (country <> [] -> asks [] country (py " " ++ country)).
Proof.
  intros Hc Hk asks. unfold asks. rewrite !geocode_body_log.
  unfold geocode_request. fold geocode_url.
  fold (geocode_query city country) (geocode_query city []) (geocode_query [] country).
  split; [|split].
  - intros Hcn Hkn. by rewrite geocode_query_both.
  - by rewrite geocode_query_no_country.
  - intros Hkn. by rewrite geocode_query_no_city.
Qed.

End QueryText.

(** ** The series stage (lines 174-186) *)

Section SeriesStage.
Context `{External}.

Definition series_error (e : exn) : widget :=
  StError (py "Falha ao buscar série temporal. Detalhe: ") (Some e).

Definition empty_series_warning : widget :=
  StWarning (py "A consulta retornou vazio para o período selecionado. Tente outro intervalo de datas.").

(** The decorated function line 176 picks. *)
Definition series_call (g station_id : pystr) (start_d end_d : dval) : M DataFrame :=
  if startswith g (py "Diário")
  then fetch_daily station_id start_d end_d
  else fetch_hourly station_id start_d end_d.

Lemma fetch_stage_spec (g station_id : pystr) (start_d end_d : dval) (w : world) :
  fetch_stage g station_id start_d end_d w
  = match series_call g station_id start_d end_d w with
    | (Ret df, w1) =>
        if df_is_empty df then (Stopped, with_page w1 [empty_series_warning])
        else (Ret df, w1)
    | (Raise e, w1) => (Stopped, with_page w1 [series_error e])
    | (Stopped, w1) => (Stopped, w1)
    end.
Proof.
  unfold fetch_stage. fold (series_call g station_id start_d end_d).
  destruct (series_call g station_id start_d end_d w) as [[df|e|] w1] eqn:E.
  - rewrite (bind_ret_l _ _ _ _ _ (try_except_ret _ _ _ _ _ E)).
    by destruct (df_is_empty df).
  - rewrite (bind_stopped _ _ _ (with_page w1 [series_error e])); [done|].
    by rewrite (try_except_raise _ _ _ _ _ E).
  - unfold mbind, M_bind, bind, try_except. by rewrite E.
Qed.

Lemma fetch_daily_log (station_id : pystr) (start_d end_d : dval) (w : world) :
  ext_log (fetch_daily station_id start_d end_d w).2
  = ext_log w ++ (if live daily_slot (60 * 30) (station_id, start_d, end_d) w
                  then [] else [MsDaily station_id start_d end_d]).
Proof.
  unfold fetch_daily, cache_data, live.
  assert (forall w0,
             ext_log (match fetch_daily_body (station_id, start_d, end_d) w0 with
                      | (Ret v, w') =>
                          (Ret v, slot_set daily_slot
                                    (<[(station_id, start_d, end_d) := (now w', v)]>
                                       (slot_get daily_slot w')) w')
                      | r => r
                      end).2 = ext_log w0 ++ [MsDaily station_id start_d end_d]) as Hmiss.
  { intros w0. destruct (daily_body_invokes (station_id, start_d, end_d) w0) as [r E].
    rewrite E. by destruct r. }
  destruct (slot_get daily_slot w !! (station_id, start_d, end_d)) as [[stored v]|];
    [|apply Hmiss].
  destruct (now w <? stored + 60 * 30); [|apply Hmiss].
  cbn [snd]. by rewrite app_nil_r.
Qed.

Lemma fetch_hourly_log (station_id : pystr) (d1 d2 : date) (w : world) :
  ext_log (fetch_hourly station_id (DDate d1) (DDate d2) w).2
  = ext_log w ++ (if live hourly_slot (60 * 30) (station_id, DDate d1, DDate d2) w
                  then []
                  else [MsHourly station_id (DateTime d1 (Time 0 0 0 0))
                                 (DateTime d2 (Time 23 59 0 0))]).
Proof.
  unfold fetch_hourly, cache_data, live.
  assert (forall w0,
             ext_log (match fetch_hourly_body (station_id, DDate d1, DDate d2) w0 with
                      | (Ret v, w') =>
                          (Ret v, slot_set hourly_slot
                                    (<[(station_id, DDate d1, DDate d2) := (now w', v)]>
                                       (slot_get hourly_slot w')) w')
                      | r => r
                      end).2
             = ext_log w0 ++ [MsHourly station_id (DateTime d1 (Time 0 0 0 0))
                                       (DateTime d2 (Time 23 59 0 0))]) as Hmiss.
  { intros w0. destruct (hourly_body_invokes (station_id, d1, d2) w0) as [r E].
    cbn [hourly_key] in E. rewrite E. by destruct r. }
  destruct (slot_get hourly_slot w !! (station_id, DDate d1, DDate d2)) as [[stored v]|];
    [|apply Hmiss].
  destruct (now w <? stored + 60 * 30); [|apply Hmiss].
  cbn [snd]. by rewrite app_nil_r.
Qed.

Lemma granularity_picks_daily (k : nat) :
  startswith (default [] (chosen granularity_options k)) (py "Diário")
  = negb (Nat.eqb k 1).
Proof. destruct k as [|[|k]]; vm_compute; reflexivity. Qed.

(** X6.  The series stage.  The daily series is fetched unless the second
    radio option (hourly) is chosen.  An exception of the fetch ends the
    run with the error widget carrying it; an empty table ends the run with
    the warning; any other table is handed on with nothing written.  For a
    pair of dates the stage asks the series service at most one request,
    the daily or the hourly one, and none when the table of that function
    holds a live entry. *)
Theorem series_stage_outcomes (i : inputs) (station_id : pystr) (start_d end_d : dval)
    (w : world) :
  let g := default [] (chosen granularity_options (granularity i)) in
  let call := if Nat.eqb (granularity i) 1
              then fetch_hourly station_id start_d end_d
              else fetch_daily station_id start_d end_d in
  (forall e w1, call w = (Raise e, w1) ->
      fetch_stage g station_id start_d end_d w = (Stopped, with_page w1 [series_error e]))
  /\ (forall df w1, call w = (Ret df, w1) ->
        fetch_stage g station_id start_d end_d w
        = if df_is_empty df then (Stopped, with_page w1 [empty_series_warning])
          else (Ret df, w1))
  /\ (forall d1 d2, start_d = DDate d1 -> end_d = DDate d2 ->
        ext_log (fetch_stage g station_id start_d end_d w).2
        = ext_log w
          ++ (if Nat.eqb (granularity i) 1
              then if live hourly_slot (60 * 30) (station_id, start_d, end_d) w then []
                   else [MsHourly station_id (DateTime d1 (Time 0 0 0 0))
                                  (DateTime d2 (Time 23 59 0 0))]
              else if live daily_slot (60 * 30) (station_id, start_d, end_d) w then []
                   else [MsDaily station_id start_d end_d])).
Proof.
  intros g call.
  assert (series_call g station_id start_d end_d = call) as Hcall.
  { unfold series_call, call, g. rewrite granularity_picks_daily.
    by destruct (Nat.eqb (granularity i) 1). }
  split; [|split].
  - intros e w1 E. by rewrite fetch_stage_spec, Hcall, E.
  - intros df w1 E. by rewrite fetch_stage_spec, Hcall, E.
  - intros d1 d2 -> ->. rewrite fetch_stage_spec, Hcall. unfold call.
    destruct (Nat.eqb (granularity i) 1).
    + rewrite <- fetch_hourly_log.
      destruct (fetch_hourly station_id (DDate d1) (DDate d2) w) as [[df|e|] w1];
        [by destruct (df_is_empty df)|done|done].
    + rewrite <- fetch_daily_log.
      destruct (fetch_daily station_id (DDate d1) (DDate d2) w) as [[df|e|] w1];
        [by destruct (df_is_empty df)|done|done].
Qed.

End SeriesStage.

(** ** The station stage (lines 136-169) *)

Section StationStage.
Context `{External}.

Definition station_error (e : exn) : widget :=
  StError (py "Falha ao buscar estações próximas no Meteostat. Detalhe: ") (Some e).

Lemma nearby_stations_failed (lat lon elev : float) (w : world) (e : exn) :
  live stations_slot (60 * 60) (lat, lon, elev) w = false ->
  ms_point lat lon elev = inr tt ->
  ms_nearby lat lon elev 10 (now w) = inl e ->
  nearby_stations lat lon elev w = (Raise e, with_log w [MsNearby lat lon elev 10]).
Proof.
  intros Hl Hp Ha. unfold nearby_stations.
  rewrite cache_miss by (by apply live_false_old).
  unfold nearby_stations_body. rewrite Hp, bind_lift_inr.
  unfold invoke. by rewrite Ha.
Qed.

Lemma nearby_stations_refused (lat lon elev : float) (w : world) (e : exn) :
  live stations_slot (60 * 60) (lat, lon, elev) w = false ->
  ms_point lat lon elev = inl e ->
  nearby_stations lat lon elev w = (Raise e, w).
Proof.
  intros Hl Hp. unfold nearby_stations.
  rewrite cache_miss by (by apply live_false_old).
  by rewrite (nearby_body_refused (lat, lon, elev) w e Hp).
Qed.

(** X7.  When the station lookup raises, the run ends at the station stage
    with the error widget carrying the exception.  Either [ms.Point]
    refuses the coordinates, and the lookup was not asked; or the lookup
    itself raises, and it was asked once.  Nothing is stored in any memo
    table (so the next run tries again), and neither the inventory nor a
    series is requested. *)
Theorem station_lookup_failure_halts (i : inputs) (lat lon elev : float) (w : world)
    (e : exn) (asked : list ext_call) :
  live stations_slot (60 * 60) (lat, lon, elev) w = false ->
  (ms_point lat lon elev = inl e /\ asked = [])
  \/ (ms_point lat lon elev = inr tt
      /\ ms_nearby lat lon elev 10 (now w) = inl e
      /\ asked = [MsNearby lat lon elev 10]) ->
  let halted :=
    World (now w) (geocode_cache w) (stations_cache w) (daily_cache w) (hourly_cache w)
          (ext_log w ++ asked) (page w ++ [station_error e]) in
  station_stage i lat lon elev w = (Stopped, halted)
  /\ forall (k : pystr -> M unit),
       (station_id ← station_stage i lat lon elev; k station_id) w = (Stopped, halted).
Proof.
  intros Hl Ha halted.
  assert (nearby_stations lat lon elev w = (Raise e, with_log w asked)) as E.
  { destruct Ha as [[Hp ->]|(Hp & Ha & ->)].
    - rewrite with_log_nil. by apply nearby_stations_refused.
    - by apply nearby_stations_failed. }
  assert (select_station i lat lon elev w
          = (Stopped, with_page (with_log w asked) [station_error e]))
    as Es.
  { unfold select_station.
    rewrite (bind_stopped _ _ _ (with_page (with_log w asked) [station_error e]));
      [done|].
    by rewrite (try_except_raise _ _ _ _ _ E). }
  assert (station_stage i lat lon elev w
          = (Stopped, with_page (with_log w asked) [station_error e]))
    as Et.
  { unfold station_stage. by rewrite (bind_stopped _ _ _ _ Es). }
  split; [exact Et|].
  intros k. by apply bind_stopped.
Qed.

Definition station_heading (station_id default_station_name : pystr) : list widget :=
  [ StSubheader (py "Estação selecionada");
    StWrite (py "**" ++ station_id ++ py "** — " ++ default_station_name);
    StExpander (py "Disponibilidade de dados da estação (inventory)") ].

Definition inventory_widgets (inv : Inventory) : list widget :=
  StWrite (py "Dados disponíveis de **" ++ inv_start inv ++ py "** até **"
           ++ inv_end inv ++ py "**.")
  :: match inv_df inv with
     | Some t => [StInventoryTable t]
     | None => []
     end.

Lemma show_station_spec (station_id default_station_name : pystr) (w : world) :
  show_station station_id default_station_name w
  = match ms_inventory station_id (now w) with
    | inl e =>
        (Raise e,
         with_log (with_page w (station_heading station_id default_station_name))
                  [MsInventory station_id])
    | inr inv =>
        (Ret tt,
         with_log (with_page w (station_heading station_id default_station_name
                                ++ inventory_widgets inv))
                  [MsInventory station_id])
    end.
Proof.
  unfold show_station. rewrite !bind_st, !with_page_app.
  change ([StSubheader (py "Estação selecionada")] ++ _ ++ _)
    with (station_heading station_id default_station_name).
  set (w0 := with_page w _).
  unfold mbind, M_bind, bind, invoke.
  change (now w0) with (now w).
  destruct (ms_inventory station_id (now w)) as [e|inv]; [reflexivity|].
  rewrite st_spec. unfold inventory_widgets.
  destruct (inv_df inv) as [t|].
  - rewrite st_spec. unfold w0, with_page, with_log. cbn [now geocode_cache stations_cache
      daily_cache hourly_cache ext_log page]. by rewrite <- !app_assoc.
  - unfold ret, w0, with_page, with_log. cbn [now geocode_cache stations_cache
      daily_cache hourly_cache ext_log page]. by rewrite <- !app_assoc.
Qed.

(** X8.  The inventory of the station is asked on every run, whatever the
    memo tables hold, and leaves them as they are.  When the inventory
    service raises, the exception leaves the stage as it is (no error
    widget, no [st.stop]): the heading stays the last thing on the page.
    When it answers, the availability line follows, and the inventory table
    only when the answer carries one. *)
Theorem inventory_is_asked_on_every_run (station_id default_station_name : pystr)
    (w : world) :
  let r := show_station station_id default_station_name w in
  ext_log r.2 = ext_log w ++ [MsInventory station_id]
  /\ (geocode_cache r.2 = geocode_cache w /\ stations_cache r.2 = stations_cache w
      /\ daily_cache r.2 = daily_cache w /\ hourly_cache r.2 = hourly_cache w)
  /\ r.1 = match ms_inventory station_id (now w) with
           | inl e => Raise e
           | inr _ => Ret tt
           end
  /\ page r.2
     = page w ++ station_heading station_id default_station_name
       ++ match ms_inventory station_id (now w) with
          | inl _ => []
          | inr inv => inventory_widgets inv
          end.
Proof.
  intros r. unfold r. rewrite show_station_spec.
  destruct (ms_inventory station_id (now w)) as [e|inv];
    cbn [fst snd with_log with_page now geocode_cache stations_cache daily_cache
         hourly_cache ext_log page].
  - by rewrite app_nil_r.
  - done.
Qed.

Lemma select_station_chosen (i : inputs) (lat lon elev : float) (w w1 : world)
    (st_df : StationFrame) (first : station) (rest : list station) (labels : list pystr)
    (r : station) :
  nearby_stations lat lon elev w = (Ret st_df, w1) ->
  sf_rows st_df = first :: rest ->
  Forall2 (fun r l => station_label st_df r = inr l) (sf_rows st_df) labels ->
  sf_rows st_df !! station_choice i = Some r ->
  exists selected,
    station_label st_df r = inr selected
    /\ select_station i lat lon elev w
       = (Ret (station_id_of_label selected, default_station_name st_df first),
          with_page w1 [StExpander (py "Trocar estação (opcional)");
                        StSelectbox (py "Estação") labels selected]).
Proof.
  intros E Hrows HF Hr.
  destruct (Forall2_lookup_l _ _ _ _ _ HF Hr) as (selected & Hl & Hrl).
  exists selected. split; [exact Hrl|].
  unfold select_station.
  rewrite (bind_ret_l _ _ _ _ _ (try_except_ret _ _ _ _ _ E)).
  unfold sf_is_empty. rewrite Hrows. cbv beta iota.
  rewrite bind_ret. change (head (first :: rest)) with (Some first). cbv beta iota.
  rewrite bind_lift_inr, bind_st.
  rewrite <- Hrows.
  rewrite (bind_ret_l _ _ _ _ _ (mapM_lift _ _ labels _ HF)).
  rewrite (bind_ret_l _ _ _ _ _ (selectbox_spec _ _ _ _)).
  unfold chosen. rewrite Hl.
  change (default (py "None") (Some selected)) with selected.
  rewrite bind_lift_inr. unfold ret, default_station_name.
  rewrite with_page_app. reflexivity.
Qed.

(** X9.  The station shown.  When the k-th row of the station table is
    chosen (and its identifier is read back intact), the inventory is asked
    for that row's identifier and the heading writes that identifier next
    to the name of the first row of the table, whichever row was chosen. *)
Theorem heading_names_the_first_station (i : inputs) (lat lon elev : float)
    (w w1 : world) (st_df : StationFrame) (first : station) (rest : list station)
    (labels : list pystr) (r : station) :
  nearby_stations lat lon elev w = (Ret st_df, w1) ->
  sf_rows st_df = first :: rest ->
  Forall2 (fun r l => station_label st_df r = inr l) (sf_rows st_df) labels ->
  sf_rows st_df !! station_choice i = Some r ->
  clean_id (st_id r) ->
  let out := station_stage i lat lon elev w in
  ext_log out.2 = ext_log w1 ++ [MsInventory (st_id r)]
  /\ (exists selected shown,
         page out.2
         = page w1
           ++ [StExpander (py "Trocar estação (opcional)");
               StSelectbox (py "Estação") labels selected;
               StSubheader (py "Estação selecionada");
               StWrite (py "**" ++ st_id r ++ py "** — "
                        ++ (if sf_has_name st_df then py_str (st_name first)
                            else st_id first));
               StExpander (py "Disponibilidade de dados da estação (inventory)")]
           ++ shown)
  /\ (forall inv, ms_inventory (st_id r) (now w1) = inr inv -> out.1 = Ret (st_id r)).
Proof.
  intros E Hrows HF Hr Hclean out.
  destruct (select_station_chosen i lat lon elev w w1 st_df first rest labels r
              E Hrows HF Hr) as (selected & Hrl & Es).
  assert (station_id_of_label selected = st_id r) as Hid.
  { destruct (station_label_prefix _ _ _ Hrl) as [tl ->].
    by apply station_id_of_label_clean. }
  rewrite Hid in Es.
  assert (out = match show_station (st_id r) (default_station_name st_df first)
                        (with_page w1 [StExpander (py "Trocar estação (opcional)");
                                       StSelectbox (py "Estação") labels selected]) with
                | (Ret _, w2) => (Ret (st_id r), w2)
                | (Raise e, w2) => (Raise e, w2)
                | (Stopped, w2) => (Stopped, w2)
                end) as Eo.
  { unfold out, station_stage. rewrite (bind_ret_l _ _ _ _ _ Es).
    unfold mbind, M_bind, bind.
    by destruct (show_station _ _ _) as [[[]|e|] w2]. }
  rewrite Eo, show_station_spec. cbn [now with_page].
  destruct (ms_inventory (st_id r) (now w1)) as [e|inv]; cbn [fst snd].
  - split; [done|]. split; [|done].
    exists selected, []. unfold default_station_name. cbn.
    by rewrite <- !app_assoc.
  - split; [done|]. split; [|done].
    exists selected, (inventory_widgets inv). unfold default_station_name. cbn.
    by rewrite <- !app_assoc.
Qed.

End StationStage.

(** ** Candidates the geocoder returns (lines 107-120) *)

Section Candidates.
Context `{External}.

Lemma place_label_error (p : json) (e : exn) :
  place_label p = inl e -> e = AttributeError /\ forall fields, p <> JObj fields.
Proof. destruct p; cbn; intros [= <-]; done. Qed.

Lemma mapM_lift_raise {A B : Type} (f : A -> exn + B) (xs : list A) (e : exn) (w : world) :
  (exists x e', x ∈ xs /\ f x = inl e') ->
  (forall x e', x ∈ xs -> f x = inl e' -> e' = e) ->
  mapM (fun x => lift (f x)) xs w = (Raise e, w).
Proof.
  induction xs as [|x xs IH]; intros (x0 & e0 & Hin & Hx0) Hall.
  { by apply elem_of_nil in Hin. }
  change (mapM (fun x => lift (f x)) (x :: xs))
    with (y ← lift (f x); k ← mapM (fun x => lift (f x)) xs; mret (y :: k)).
  destruct (f x) as [e'|y] eqn:Hx.
  - rewrite bind_lift_inl. by rewrite (Hall x e' ltac:(by left) Hx).
  - rewrite bind_lift_inr. apply bind_raise. apply IH.
    + apply elem_of_cons in Hin as [->|Hin]; [congruence|]. by exists x0, e0.
    + intros x1 e1 Hin1. apply Hall. by right.
Qed.

Lemma place_label_shows_none (fields : list (pystr * json)) (l : pystr) :
  place_label (JObj fields) = inr l ->
  assoc (py "latitude") fields = None ->
  exists before after, l = before ++ py "[lat=None, lon=" ++ after.
Proof.
  unfold place_label, dict_get. intros Hl Hlat. rewrite Hlat in Hl.
  cbn [mbind exn_bind mret exn_ret] in Hl. injection Hl as <-.
  change (py_str (default JNull None)) with (py "None").
  change (py ") [lat=") with (py ") " ++ py "[lat=").
  change (py "[lat=None, lon=") with (py "[lat=" ++ py "None" ++ py ", lon=").
  exists (py_str (default (JStr []) (assoc (py "name") fields)) ++ py " — "
          ++ py_str (default (JStr []) (assoc (py "admin1") fields)) ++ py " "
          ++ py_str (default (JStr []) (assoc (py "admin2") fields)) ++ py " ("
          ++ py_str (default (JStr []) (assoc (py "country") fields)) ++ py ") "),
         (py_str (default JNull (assoc (py "longitude") fields)) ++ py "]").
  by rewrite <- !app_assoc.
Qed.

(** X10.  Candidates the script cannot use.  Given the list the geocoder
    returned:
    - an entry that is not an object makes the labelling raise
      AttributeError before the selectbox is drawn;
    - a chosen candidate without a latitude is listed (its label reads
      lat=None) and then makes the run raise KeyError for the latitude, a
      null latitude TypeError, after the selectbox and before the details.
    None of these is inside a try: the exception leaves the script, with no
    station lookup made. *)
Theorem unusable_candidate_raises (i : inputs) (w w1 : world) (items : list json) :
  geocode_city_country (city i) (country i) 10 (py "pt") w = (Ret (JArr items), w1) ->
  ((exists q, q ∈ items /\ forall fields, q <> JObj fields) ->
   geocode_stage i w = (Raise AttributeError, w1))
  /\ (forall (labels : list pystr) (fields : list (pystr * json)) (l : pystr),
         Forall2 (fun q lq => place_label q = inr lq) items labels ->
         items !! place_choice i = Some (JObj fields) ->
         labels !! place_choice i = Some l ->
         l ∉ take (place_choice i) labels ->
         (assoc (py "latitude") fields = None ->
          (exists before after, l = before ++ py "[lat=None, lon=" ++ after)
          /\ geocode_stage i w
             = (Raise (KeyError (py "latitude")), with_page w1 [place_selectbox labels l]))
         /\ (assoc (py "latitude") fields = Some JNull ->
             geocode_stage i w = (Raise TypeError, with_page w1 [place_selectbox labels l]))).
Proof.
  intros E. split.
  - intros (q & Hq & Hno).
    assert (truthy (JArr items) = true) as Ht.
    { destruct items; [by apply elem_of_nil in Hq | done]. }
    unfold geocode_stage.
    rewrite (bind_ret_l _ _ _ _ _ (try_except_ret _ _ _ _ _ E)).
    rewrite Ht, bind_ret.
    change (py_iter (JArr items)) with (@inr exn _ items). rewrite bind_lift_inr.
    apply bind_raise. apply mapM_lift_raise.
    + destruct (place_label q) as [e|l] eqn:Hl; [by exists q, e|].
      destruct q; try discriminate Hl. by destruct (Hno fields).
    + intros x e' _ Hx. by destruct (place_label_error x e' Hx).
  - intros labels fields l HF Hp Hl Hfirst.
    assert (geocode_stage i w
            = (selected_place ← lift (py_getitem (JArr items) (place_choice i));
               '(lat, lon, elev) ← lift (place_coordinates selected_place);
               st (StExpander (py "Detalhes do local (opcional)"));;
               details ← lift (place_details selected_place lat lon elev);
               st (StJson details);;
               ret (lat, lon, elev)) (with_page w1 [place_selectbox labels l])) as Hs.
    { unfold geocode_stage.
      rewrite (bind_ret_l _ _ _ _ _ (try_except_ret _ _ _ _ _ E)).
      assert (truthy (JArr items) = true) as ->.
      { destruct items as [|q items']; [|reflexivity]. by destruct (place_choice i). }
      rewrite bind_ret.
      change (py_iter (JArr items)) with (@inr exn _ items). rewrite bind_lift_inr.
      rewrite (bind_ret_l _ _ _ _ _ (mapM_lift _ _ labels _ HF)).
      rewrite (bind_ret_l _ _ _ _ _ (selectbox_spec _ _ _ _)).
      unfold chosen. rewrite Hl.
      change (Some l ≫= (fun l0 => list_index l0 labels)) with (list_index l labels).
      rewrite (list_index_first l labels _ Hl Hfirst). by rewrite bind_lift_inr. }
    unfold py_getitem in Hs. rewrite Hp, bind_lift_inr in Hs.
    destruct (Forall2_lookup_l _ _ _ _ _ HF Hp) as (l' & Hl' & Hpl).
    rewrite Hl in Hl'. injection Hl' as <-.
    split.
    + intros Hlat. split; [by apply (place_label_shows_none fields)|].
      rewrite Hs. unfold place_coordinates, dict_item. rewrite Hlat. reflexivity.
    + intros Hlat. rewrite Hs. unfold place_coordinates, dict_item. rewrite Hlat.
      reflexivity.
Qed.

End Candidates.

(** ** Answers the geocoder stage cannot read (lines 33-34, 95-100) *)

Section UnreadableAnswer.
Context `{External}.

Lemma geocode_body_not_json (a : pystr * pystr * Z * pystr) (w : world) (r : Response) :
  geocode_answer a w = inr r ->
  ~ (400 <= status_code r < 600) ->
  body r = None ->
  geocode_city_country_body a w = (Raise JSONDecodeError, with_log w [geocode_request a]).
Proof.
  destruct a as [[[c k] n] l]. unfold geocode_answer, geocode_url. intros E Hs Hb.
  unfold geocode_city_country_body, requests_get, invoke, mbind, M_bind, bind.
  rewrite E. unfold raise_for_status.
  assert ((400 <=? status_code r) && (status_code r <? 600) = false) as ->.
  { destruct (Z.leb_spec 400 (status_code r)); [|done].
    destruct (Z.ltb_spec (status_code r) 600); [lia|done]. }
  unfold ret, response_json. by rewrite Hb.
Qed.

Lemma geocode_body_not_object (a : pystr * pystr * Z * pystr) (w : world) (r : Response)
    (v : json) :
  geocode_answer a w = inr r ->
  ~ (400 <= status_code r < 600) ->
  body r = Some v ->
  (forall fields, v <> JObj fields) ->
  geocode_city_country_body a w = (Raise AttributeError, with_log w [geocode_request a]).
Proof.
  destruct a as [[[c k] n] l]. unfold geocode_answer, geocode_url. intros E Hs Hb Hv.
  unfold geocode_city_country_body, requests_get, invoke, mbind, M_bind, bind.
  rewrite E. unfold raise_for_status.
  assert ((400 <=? status_code r) && (status_code r <? 600) = false) as ->.
  { destruct (Z.leb_spec 400 (status_code r)); [|done].
    destruct (Z.ltb_spec (status_code r) 600); [lia|done]. }
  unfold ret, response_json. rewrite Hb.
  destruct v; try reflexivity. by destruct (Hv fields).
Qed.

(** X11.  An answer of the geocoder that cannot be read.  With the dates in
    order and no live entry for the arguments, a response without an error
    status whose body is not JSON, or is JSON but not an object, ends the
    run like a failed request: the error widget carries JSONDecodeError or
    AttributeError, the request was sent once, and nothing is stored, so
    the next run asks again. *)
Theorem unreadable_answer_halts (i : inputs) (w : world) (start_d end_d : dval)
    (r : Response) :
  normalize_period (period i) = (start_d, end_d) ->
  dval_gt start_d end_d = Some false ->
  let a := (city i, country i, 10, py "pt") in
  live geocode_slot (60 * 60) a w = false ->
  geocode_answer a w = inr r ->
  ~ (400 <= status_code r < 600) ->
  let halted (e : exn) :=
    (@Stopped unit,
     World (now w) (geocode_cache w) (stations_cache w) (daily_cache w) (hourly_cache w)
           (ext_log w ++ [geocode_request a])
           (page w ++ header_widgets i ++ [geocode_error i e])) in
  (body r = None -> script i w = halted JSONDecodeError)
  /\ (forall v, body r = Some v -> (forall fields, v <> JObj fields) ->
        script i w = halted AttributeError).
Proof.
  intros Hn Hv a Hlive Ha Hst halted.
  pose proof (script_to_geocode i w start_d end_d Hn Hv) as Hs.
  set (w0 := with_page w (header_widgets i)) in *.
  assert (forall e,
             geocode_city_country_body a w0 = (Raise e, with_log w0 [geocode_request a]) ->
             script i w = halted e) as Hraise.
  { intros e Eb. rewrite Hs.
    assert (geocode_city_country (city i) (country i) 10 (py "pt") w0
            = (Raise e, with_log w0 [geocode_request a])) as E.
    { unfold geocode_city_country. rewrite (geocode_call_miss a w0 Hlive). by rewrite Eb. }
    rewrite (bind_stopped _ _ _ _ (geocode_stage_failed i w0 _ _ E)).
    unfold halted, w0, with_page, with_log. simpl. by rewrite <- app_assoc. }
  split.
  - intros Hb. apply Hraise. by apply (geocode_body_not_json a w0 r Ha Hst).
  - intros v Hb Hno. apply Hraise. by apply (geocode_body_not_object a w0 r v Ha Hst).
Qed.

End UnreadableAnswer.

(** ** Columns offered and charts drawn (lines 194-211) *)

Section Charts.
Context `{External}.

Lemma is_numeric_column_inv (cols : list (pystr * dtype)) (c : pystr) :
  is_numeric_column cols c = true ->
  exists d, (c, d) ∈ cols /\ is_numeric_dtype d = true.
Proof.
  unfold is_numeric_column.
  destruct (filter (fun nd : pystr * dtype => nd.1 = c) cols) as [|[c' d] [|]] eqn:E;
    try done.
  intros Hd. exists d. split; [|done].
  assert ((c', d) ∈ filter (fun nd : pystr * dtype => nd.1 = c) cols) as Hin
    by (rewrite E; by left).
  apply list_elem_of_filter in Hin as [Hc Hin]. cbn in Hc. by subst c'.
Qed.

Lemma numeric_cols_inv (df_plot : Frame) (c : pystr) :
  c ∈ numeric_cols df_plot ->
  c <> time_col
  /\ exists d, (c, d) ∈ fr_columns df_plot /\ is_numeric_dtype d = true.
Proof.
  unfold numeric_cols. intros [[Hne Hnum] _]%list_elem_of_filter.
  split; [exact Hne|].
  destruct (is_numeric_column_inv _ _ Hnum) as (d & Hin & Hd).
  exists d. split; [|exact Hd].
  unfold frame_columns in Hin. apply elem_of_cons in Hin as [Heq|Hin]; [|exact Hin].
  injection Heq as _ ->. discriminate Hd.
Qed.

Lemma multiselect_default_offered (df_plot : Frame) (c : pystr) :
  c ∈ multiselect_default df_plot -> c ∈ numeric_cols df_plot.
Proof.
  unfold multiselect_default.
  destruct (default_cols df_plot) as [|c0 cs] eqn:E.
  - intros Hin. by apply (subseteq_take 2).
  - rewrite <- E. unfold default_cols. by intros [Hin _]%list_elem_of_filter.
Qed.

Lemma multiselect_default_nil (df_plot : Frame) :
  multiselect_default df_plot = [] <-> numeric_cols df_plot = [].
Proof.
  unfold multiselect_default. split.
  - destruct (default_cols df_plot) as [|c0 cs]; [|done].
    by destruct (numeric_cols df_plot) as [|a [|b l]].
  - intros Hn. unfold default_cols. rewrite Hn.
    destruct (filter _ preferred_cols) as [|x l] eqn:E; [done|].
    assert (x ∈ filter (fun c : pystr => c ∈ @nil pystr) preferred_cols) as Hin
      by (rewrite E; by left).
    apply list_elem_of_filter in Hin as [Hx _]. by apply elem_of_nil in Hx.
Qed.

Definition no_selection_info : widget :=
  StInfo (py "Selecione ao menos uma variável para plotar.").

(** X12.  The columns offered.  The multiselect offers only columns other
    than [time] whose dtype is numeric; its default is always among the
    options it offers, and is empty only when the table has no numeric
    column.  In that case, for a table [st.dataframe] accepts, an untouched
    multiselect draws no chart: the page shows the hint to select a
    variable, and the download button still follows. *)
Theorem default_columns_are_offered (df_plot : Frame) :
  (forall c, c ∈ numeric_cols df_plot ->
      c <> time_col
      /\ exists d, (c, d) ∈ fr_columns df_plot /\ is_numeric_dtype d = true)
  /\ (forall c, c ∈ multiselect_default df_plot -> c ∈ numeric_cols df_plot)
  /\ (multiselect_default df_plot = [] <-> numeric_cols df_plot = [])
  /\ (forall i station_id start_d end_d df data w,
         reset_index df = inr df_plot ->
         st_dataframe_check (df_head 50 df) = inr tt ->
         df_to_csv_bytes df = inr data ->
         columns_choice i = None ->
         numeric_cols df_plot = [] ->
         render_stage i station_id start_d end_d df w
         = (Ret tt,
            with_page w
              [ StSubheader (py "Pré-visualização dos dados");
                StDataframe (df_head 50 df);
                StSubheader (py "Gráficos");
                StMultiselect (py "Selecione variáveis") [] [] [];
                no_selection_info;
                StSubheader (py "Download");
                StDownloadButton (py "Baixar CSV") data
                  (file_name (country i) (city i) station_id start_d end_d)
                  (py "text/csv") ])).
Proof.
  split; [apply numeric_cols_inv|]. split; [apply multiselect_default_offered|].
  split; [apply multiselect_default_nil|].
  intros i station_id start_d end_d df data w Hr Hs Hd Hc Hn.
  unfold render_stage.
  rewrite bind_st, (bind_ret_l _ _ _ _ _ (st_dataframe_ok_spec _ _ Hs)).
  rewrite Hr, bind_lift_inr, bind_st.
  rewrite (bind_ret_l _ _ _ _ _ (multiselect_spec _ _ _ _ _)).
  rewrite Hc, (proj2 (multiselect_default_nil df_plot) Hn), Hn. cbv zeta.
  unfold draw_charts. rewrite !bind_st, Hd, bind_lift_inr, st_spec, !with_page_app.
  reflexivity.
Qed.

Definition preview_widgets (df : DataFrame) : list widget :=
  [StSubheader (py "Pré-visualização dos dados"); StDataframe (df_head 50 df)].

(** What is on the page when the line chart is asked for. *)
Definition up_to_multiselect (i : inputs) (df : DataFrame) (df_plot : Frame)
    : list widget :=
  preview_widgets df
  ++ [StSubheader (py "Gráficos");
      StMultiselect (py "Selecione variáveis") (numeric_cols df_plot)
        (multiselect_default df_plot) (selection i df_plot)].

Lemma preview_refused (i : inputs) (station_id : pystr) (start_d end_d : dval)
    (df : DataFrame) (w : world) (e : exn) :
  st_dataframe_check (df_head 50 df) = inl e ->
  render_stage i station_id start_d end_d df w
  = (Raise e, with_page w [StSubheader (py "Pré-visualização dos dados")]).
Proof.
  intros Hs. unfold render_stage. rewrite bind_st.
  apply bind_raise. by apply st_dataframe_refused.
Qed.

Lemma line_chart_refused (i : inputs) (station_id : pystr) (start_d end_d : dval)
    (df : DataFrame) (df_plot : Frame) (w : world) (e : exn) :
  st_dataframe_check (df_head 50 df) = inr tt ->
  reset_index df = inr df_plot ->
  selection i df_plot <> [] ->
  px_figure df_plot (LineChart time_col (selection i df_plot)
                       (py "Série temporal (interativa)")) = inl e ->
  render_stage i station_id start_d end_d df w
  = (Raise e, with_page w (up_to_multiselect i df df_plot)).
Proof.
  intros Hd Hr Hs Hp. unfold render_stage.
  rewrite bind_st, (bind_ret_l _ _ _ _ _ (st_dataframe_ok_spec _ _ Hd)).
  rewrite Hr, bind_lift_inr, bind_st.
  rewrite (bind_ret_l _ _ _ _ _ (multiselect_spec _ _ _ _ _)).
  cbv zeta. fold (selection i df_plot).
  rewrite !with_page_app.
  apply bind_raise. unfold draw_charts, up_to_multiselect, preview_widgets.
  revert Hs Hp. destruct (selection i df_plot) as [|c cs]; [intros Hs; by destruct Hs|].
  intros _ Hp. rewrite Hp, bind_lift_inl. reflexivity.
Qed.

(** X13.  What makes the last stage raise (none of it is inside a try):
    - a table [st.dataframe] refuses, as it does a column name borne
      twice (ValueError), raises right after the preview's subheader;
    and for a table it accepts:
    - a table with a column named like its index cannot have the index
      made a column: ValueError right after the preview, and the export
      alone fails the same way;
    - as soon as one column is selected, the line chart raises after the
      multiselect, and no download is offered, when the index did not
      become a column named [time] (ValueError), when the selected columns
      are of different kinds, booleans beside numbers (ValueError), or
      when Plotly refuses the figure otherwise;
    - text holding a lone surrogate draws the charts Plotly accepts and
      then raises UnicodeEncodeError in the export. *)
Theorem render_stage_failures (i : inputs) (station_id : pystr) (start_d end_d : dval)
    (df : DataFrame) (w : world) :
  let title := py "Série temporal (interativa)" in
  let raises e shown :=
    render_stage i station_id start_d end_d df w = (Raise e, with_page w shown) in
  (~ NoDup (column_names (df_columns df)) ->
   raises ValueError [StSubheader (py "Pré-visualização dos dados")])
  /\ (forall e, st_dataframe_check (df_head 50 df) = inl e ->
        raises e [StSubheader (py "Pré-visualização dos dados")])
  /\ (st_dataframe_check (df_head 50 df) = inr tt ->
      (forall n, df_index_name df = Some n -> n ∈ column_names (df_columns df) ->
          df_to_csv_bytes df = inl ValueError
          /\ raises ValueError (preview_widgets df))
      /\ (forall df_plot, reset_index df = inr df_plot ->
            selection i df_plot <> [] ->
            (time_col ∉ column_names (frame_columns df_plot) ->
             raises ValueError (up_to_multiselect i df df_plot))
            /\ (time_col ∈ column_names (frame_columns df_plot) ->
                same_kind (frame_columns df_plot) (selection i df_plot) = false ->
                raises ValueError (up_to_multiselect i df df_plot))
            /\ (forall e, time_col ∈ column_names (frame_columns df_plot) ->
                  px_check df_plot (LineChart time_col (selection i df_plot) title) = inl e ->
                  raises e (up_to_multiselect i df df_plot)))
      /\ (forall df_plot, reset_index df = inr df_plot ->
            time_col ∈ column_names (frame_columns df_plot) ->
            Forall (fun fig => px_check df_plot fig = inr tt)
                   (figures (selection i df_plot)) ->
            Utf8.encode (to_csv df_plot) = None ->
            raises UnicodeEncodeError (preview_and_charts i df df_plot))).
Proof.
  intros title raises. unfold raises. split; [|split].
  - intros Hdup. apply preview_refused. unfold st_dataframe_check.
    by rewrite bool_decide_eq_false_2.
  - intros e. apply preview_refused.
  - intros Hd. split; [|split].
    + intros n Hi Hn.
      assert (reset_index df = inl ValueError) as Hr.
      { unfold reset_index. rewrite Hi. by rewrite bool_decide_eq_true_2. }
      split; [unfold df_to_csv_bytes; by rewrite Hr|].
      unfold render_stage.
      rewrite bind_st, (bind_ret_l _ _ _ _ _ (st_dataframe_ok_spec _ _ Hd)).
      rewrite Hr, bind_lift_inl, with_page_app. reflexivity.
    + intros df_plot Hr Hs. split; [|split].
      * intros Ht. apply (line_chart_refused _ _ _ _ _ _ _ _ Hd Hr Hs).
        unfold px_figure. cbv beta iota zeta. by rewrite (bool_decide_eq_false_2 _ Ht).
      * intros Ht Hk. apply (line_chart_refused _ _ _ _ _ _ _ _ Hd Hr Hs).
        apply (px_figure_refused df_plot (LineChart time_col _ _) _ Ht eq_refl).
        unfold px_check. by rewrite Hk.
      * intros e Ht Hp. apply (line_chart_refused _ _ _ _ _ _ _ _ Hd Hr Hs).
        by apply (px_figure_refused df_plot (LineChart time_col _ _) _ Ht eq_refl).
    + intros df_plot Hr Ht Hf He.
      rewrite (render_stage_spec _ _ _ _ _ _ _ Hr Ht Hd Hf).
      unfold df_to_csv_bytes, encode_utf8. by rewrite Hr, He.
Qed.

End Charts.

(** ** The external invocations of one run *)

(** The services in the order the script turns to them. *)
Definition call_rank (c : ext_call) : nat :=
  match c with
  | HttpGet _ _ _ _ _ _ => 0
  | MsNearby _ _ _ _ => 1
  | MsInventory _ => 2
  | MsDaily _ _ _ | MsHourly _ _ _ => 3
  end.

(** [m] invokes only services ranked from [lo] up to (not including) [hi],
    each at most once and in the order of the ranks. *)
Definition asks {A : Type} (lo hi : nat) (m : M A) : Prop :=
  forall w, exists calls,
    ext_log (m w).2 = ext_log w ++ calls
    /\ StronglySorted lt (map call_rank calls)
    /\ Forall (fun c => (lo <= call_rank c < hi)%nat) calls.

Lemma asks_quiet {A : Type} (lo hi : nat) (m : M A) :
  (forall w, ext_log (m w).2 = ext_log w) -> asks lo hi m.
Proof.
  intros Hq w. exists []. rewrite Hq, app_nil_r.
  split; [done|]. split; constructor.
Qed.

Lemma asks_weaken {A : Type} (lo hi lo' hi' : nat) (m : M A) :
  (lo' <= lo)%nat -> (hi <= hi')%nat -> asks lo hi m -> asks lo' hi' m.
Proof.
  intros Hlo Hhi Hm w. destruct (Hm w) as (calls & E & Hs & Hr).
  exists calls. split; [done|]. split; [done|].
  eapply Forall_impl; [exact Hr|]. cbn. lia.
Qed.

Lemma sorted_app_ranks (mid : nat) (xs ys : list nat) :
  StronglySorted lt xs -> StronglySorted lt ys ->
  Forall (fun x => (x < mid)%nat) xs -> Forall (fun y => (mid <= y)%nat) ys ->
  StronglySorted lt (xs ++ ys).
Proof.
  intros Hx Hy Hlt Hge. induction Hx as [|x xs Hx IH Hall]; [done|].
  apply Forall_cons in Hlt as [Hxm Hlt].
  cbn. constructor; [by apply IH|].
  apply Forall_app. split; [done|].
  eapply Forall_impl; [exact Hge|]. cbn. lia.
Qed.

Lemma asks_bind {A B : Type} (lo mid hi : nat) (m : M A) (k : A -> M B) :
  (lo <= mid <= hi)%nat ->
  asks lo mid m -> (forall a, asks mid hi (k a)) -> asks lo hi (m ≫= k).
Proof.
  intros Hb Hm Hk w. destruct (Hm w) as (calls & E & Hs & Hr).
  unfold mbind, M_bind, bind.
  destruct (m w) as [[a|e|] w1]; cbn [snd] in E |- *.
  - destruct (Hk a w1) as (calls2 & E2 & Hs2 & Hr2).
    exists (calls ++ calls2). rewrite E2, E, app_assoc. split; [done|]. split.
    + rewrite map_app. apply (sorted_app_ranks mid); [done|done| |].
      * apply Forall_fmap. eapply Forall_impl; [exact Hr|]. cbn. lia.
      * apply Forall_fmap. eapply Forall_impl; [exact Hr2|]. cbn. lia.
    + apply Forall_app. split.
      * eapply Forall_impl; [exact Hr|]. cbn. lia.
      * eapply Forall_impl; [exact Hr2|]. cbn. lia.
  - exists calls. split; [done|]. split; [done|].
    eapply Forall_impl; [exact Hr|]. cbn. lia.
  - exists calls. split; [done|]. split; [done|].
    eapply Forall_impl; [exact Hr|]. cbn. lia.
Qed.

Lemma asks_try_except {A : Type} (lo mid hi : nat) (m : M A) (h : exn -> M A) :
  (lo <= mid <= hi)%nat ->
  asks lo mid m -> (forall e, asks mid hi (h e)) -> asks lo hi (try_except m h).
Proof.
  intros Hb Hm Hh w. destruct (Hm w) as (calls & E & Hs & Hr).
  unfold try_except.
  destruct (m w) as [[a|e|] w1]; cbn [snd] in E |- *.
  - exists calls. split; [done|]. split; [done|].
    eapply Forall_impl; [exact Hr|]. cbn. lia.
  - destruct (Hh e w1) as (calls2 & E2 & Hs2 & Hr2).
    exists (calls ++ calls2). rewrite E2, E, app_assoc. split; [done|]. split.
    + rewrite map_app. apply (sorted_app_ranks mid); [done|done| |].
      * apply Forall_fmap. eapply Forall_impl; [exact Hr|]. cbn. lia.
      * apply Forall_fmap. eapply Forall_impl; [exact Hr2|]. cbn. lia.
    + apply Forall_app. split.
      * eapply Forall_impl; [exact Hr|]. cbn. lia.
      * eapply Forall_impl; [exact Hr2|]. cbn. lia.
  - exists calls. split; [done|]. split; [done|].
    eapply Forall_impl; [exact Hr|]. cbn. lia.
Qed.

Lemma asks_bind_quiet {A B : Type} (n : nat) (m : M A) (k : A -> M B) :
  asks n n m -> (forall a, asks n n (k a)) -> asks n n (m ≫= k).
Proof. intros Hm Hk. apply (asks_bind n n n); [lia|done|done]. Qed.

Lemma asks_ret {A : Type} (n : nat) (a : A) : asks n n (ret a).
Proof. by apply asks_quiet. Qed.

Lemma asks_lift {A : Type} (n : nat) (r : exn + A) : asks n n (lift r).
Proof. apply asks_quiet. by destruct r. Qed.

Lemma asks_st (n : nat) (x : widget) : asks n n (st x).
Proof. by apply asks_quiet. Qed.

Lemma asks_stop {A : Type} (n : nat) : asks n n (@st_stop A).
Proof. by apply asks_quiet. Qed.

Lemma asks_halt {A : Type} (n : nat) (x : widget) : asks n n (st x ≫= fun _ => @st_stop A).
Proof. by apply asks_quiet. Qed.

Lemma asks_mapM_lift {A B : Type} (n : nat) (f : A -> exn + B) (xs : list A) :
  asks n n (mapM (fun x => lift (f x)) xs).
Proof.
  apply asks_quiet. intros w.
  destruct (mapM_lift_world f xs w) as [r E]. by rewrite E.
Qed.

Lemma asks_invoke {A : Type} (c : ext_call) (answer : Z -> exn + A) :
  asks (call_rank c) (S (call_rank c)) (invoke c answer).
Proof.
  intros w. exists [c]. rewrite invoke_log. split; [done|]. split.
  - repeat constructor.
  - repeat constructor; lia.
Qed.

Lemma asks_cache_data {K V : Type} `{Countable K} (sl : slot K V) (ttl : Z)
    (f : K -> M V) (args : K) (lo hi : nat) :
  (forall s w, ext_log (slot_set sl s w) = ext_log w) ->
  asks lo hi (f args) -> asks lo hi (cache_data sl ttl f args).
Proof.
  intros Hset Hf w. unfold cache_data.
  assert (exists calls,
             ext_log (match f args w with
                      | (Ret v, w') =>
                          (Ret v, slot_set sl (<[args := (now w', v)]> (slot_get sl w')) w')
                      | r => r
                      end).2 = ext_log w ++ calls
             /\ StronglySorted lt (map call_rank calls)
             /\ Forall (fun c => (lo <= call_rank c < hi)%nat) calls) as Hmiss.
  { destruct (Hf w) as (calls & E & Hs & Hr). exists calls.
    split; [|done]. destruct (f args w) as [[v|e|] w1]; cbn [snd] in E |- *; [|done|done].
    by rewrite Hset. }
  destruct (slot_get sl w !! args) as [[stored v]|]; [|exact Hmiss].
  destruct (now w <? stored + ttl); [|exact Hmiss].
  exists []. rewrite app_nil_r. split; [done|]. split; constructor.
Qed.

Lemma sorted_ranks_length (l : list nat) (lo hi : nat) :
  StronglySorted lt l -> Forall (fun x => (lo <= x < hi)%nat) l ->
  (length l + lo <= Nat.max lo hi)%nat.
Proof.
  intros Hs. revert lo. induction Hs as [|x l Hs IH Hall]; intros lo Hr; [cbn; lia|].
  apply Forall_cons in Hr as [Hx Hr].
  assert (Forall (fun y => (S x <= y < hi)%nat) l) as Hr'.
  { apply Forall_forall. intros y Hy.
    rewrite Forall_forall in Hall, Hr. specialize (Hall y Hy). specialize (Hr y Hy). lia. }
  specialize (IH (S x) Hr'). cbn [length]. lia.
Qed.

Section CallOrder.
Context `{External}.

Lemma asks_geocode_stage (i : inputs) : asks 0 1 (geocode_stage i).
Proof.
  unfold geocode_stage.
  apply (asks_bind 0 1 1); [lia| |].
  - apply (asks_try_except 0 1 1); [lia| |intros e; apply asks_halt].
    apply asks_cache_data; [done|].
    unfold geocode_city_country_body.
    apply (asks_bind 0 1 1); [lia|apply (asks_invoke (HttpGet _ _ _ _ _ _))|].
    intros r. apply asks_bind_quiet.
    { unfold raise_for_status. destruct (_ && _); by apply asks_quiet. }
    intros _. apply asks_bind_quiet.
    { unfold response_json. destruct (body r); by apply asks_quiet. }
    intros data. apply asks_bind_quiet; [apply asks_lift|]. intros results. apply asks_ret.
  - intros places. apply asks_bind_quiet.
    { destruct (truthy places); [apply asks_ret | apply asks_halt]. }
    intros _. apply asks_bind_quiet; [apply asks_lift|]. intros items.
    apply asks_bind_quiet; [apply asks_mapM_lift|]. intros labels.
    apply asks_bind_quiet; [by apply asks_quiet|]. intros l.
    apply asks_bind_quiet; [apply asks_lift|]. intros idx.
    apply asks_bind_quiet; [apply asks_lift|]. intros p.
    apply asks_bind_quiet; [apply asks_lift|]. intros [[lat lon] elev].
    apply asks_bind_quiet; [apply asks_st|]. intros _.
    apply asks_bind_quiet; [apply asks_lift|]. intros details.
    apply asks_bind_quiet; [apply asks_st|]. intros _. apply asks_ret.
Qed.

Lemma asks_select_station (i : inputs) (lat lon elev : float) :
  asks 1 2 (select_station i lat lon elev).
Proof.
  unfold select_station.
  apply (asks_bind 1 2 2); [lia| |].
  - apply (asks_try_except 1 2 2); [lia| |intros e; apply asks_halt].
    apply asks_cache_data; [done|]. unfold nearby_stations_body.
    apply (asks_bind 1 1 2); [lia|apply asks_lift|]. intros _.
    apply (asks_invoke (MsNearby _ _ _ _)).
  - intros st_df. apply asks_bind_quiet.
    { destruct (sf_is_empty st_df); [apply asks_halt | apply asks_ret]. }
    intros _. apply asks_bind_quiet; [apply asks_lift|]. intros first.
    apply asks_bind_quiet; [apply asks_st|]. intros _.
    apply asks_bind_quiet; [apply asks_mapM_lift|]. intros labels.
    apply asks_bind_quiet; [by apply asks_quiet|]. intros l.
    apply asks_bind_quiet; [apply asks_lift|]. intros sid. apply asks_ret.
Qed.

Lemma asks_show_station (station_id default_station_name : pystr) :
  asks 2 3 (show_station station_id default_station_name).
Proof.
  intros w. exists [MsInventory station_id]. rewrite show_station_spec. split.
  - by destruct (ms_inventory station_id (now w)).
  - split; repeat constructor.
Qed.

Lemma asks_station_stage (i : inputs) (lat lon elev : float) :
  asks 1 3 (station_stage i lat lon elev).
Proof.
  unfold station_stage.
  apply (asks_bind 1 2 3); [lia|apply asks_select_station|].
  intros [sid name]. apply (asks_bind 2 3 3); [lia|apply asks_show_station|].
  intros _. apply asks_ret.
Qed.

Lemma asks_fetch_stage (g station_id : pystr) (start_d end_d : dval) :
  asks 3 4 (fetch_stage g station_id start_d end_d).
Proof.
  unfold fetch_stage.
  apply (asks_bind 3 4 4); [lia| |].
  - apply (asks_try_except 3 4 4); [lia| |intros e; apply asks_halt].
    destruct (startswith g (py "Diário")).
    + apply asks_cache_data; [done|]. apply (asks_invoke (MsDaily _ _ _)).
    + apply asks_cache_data; [done|]. unfold fetch_hourly_body.
      apply (asks_bind 3 3 4); [lia|apply asks_lift|]. intros start_dt.
      apply (asks_bind 3 3 4); [lia|apply asks_lift|]. intros end_dt.
      apply (asks_invoke (MsHourly _ _ _)).
  - intros df. apply asks_bind_quiet; [|intros _; apply asks_ret].
    destruct (df_is_empty df); [apply asks_halt | apply asks_ret].
Qed.

Lemma asks_render_stage (i : inputs) (station_id : pystr) (start_d end_d : dval)
    (df : DataFrame) :
  asks 4 4 (render_stage i station_id start_d end_d df).
Proof.
  unfold render_stage.
  apply asks_bind_quiet; [apply asks_st|]. intros _.
  apply asks_bind_quiet.
  { unfold st_dataframe. apply asks_bind_quiet; [apply asks_lift|]. intros _.
    apply asks_st. }
  intros _.
  apply asks_bind_quiet; [apply asks_lift|]. intros df_plot.
  apply asks_bind_quiet; [apply asks_st|]. intros _.
  apply asks_bind_quiet; [by apply asks_quiet|]. intros selected_cols.
  apply asks_bind_quiet.
  { unfold draw_charts. destruct selected_cols as [|c cs]; [apply asks_st|].
    apply asks_bind_quiet; [apply asks_lift|]. intros fig.
    apply asks_bind_quiet; [apply asks_st|]. intros _.
    destruct (bool_decide _); [|apply asks_ret].
    apply asks_bind_quiet; [apply asks_lift|]. intros fig2. apply asks_st. }
  intros _. apply asks_bind_quiet; [apply asks_st|]. intros _.
  apply asks_bind_quiet; [apply asks_lift|]. intros data. apply asks_st.
Qed.

Lemma asks_script (i : inputs) : asks 0 4 (script i).
Proof.
  unfold script.
  apply (asks_bind 0 0 4); [lia| |].
  { apply asks_quiet. intros w. by rewrite header_and_sidebar_spec. }
  intros g. destruct (normalize_period (period i)) as [start_d end_d].
  apply (asks_bind 0 0 4); [lia| |].
  { unfold validate_period. apply asks_bind_quiet; [apply asks_lift|].
    intros [|]; [apply asks_halt | apply asks_ret]. }
  intros _. apply (asks_bind 0 1 4); [lia|apply asks_geocode_stage|].
  intros [[lat lon] elev].
  apply (asks_bind 1 3 4); [lia|apply asks_station_stage|]. intros station_id.
  apply (asks_bind 3 4 4); [lia|apply asks_fetch_stage|]. intros df.
  apply (asks_weaken 4 4); [lia|lia|]. apply asks_render_stage.
Qed.

(** X14.  Whatever the inputs, the services' answers and the memo tables,
    one run invokes the outside world at most four times: the geocoder, the
    station lookup, the inventory and one series service, in that order,
    none of them twice. *)
Theorem services_are_asked_once_and_in_order (i : inputs) (w : world) :
  exists calls,
    ext_log (script i w).2 = ext_log w ++ calls
    /\ StronglySorted lt (map call_rank calls)
    /\ (length calls <= 4)%nat.
Proof.
  destruct (asks_script i w) as (calls & E & Hs & Hr).
  exists calls. split; [done|]. split; [done|].
  assert (Forall (fun x => (0 <= x < 4)%nat) (map call_rank calls)) as Hr'
    by (by apply Forall_fmap).
  pose proof (sorted_ranks_length _ 0 4 Hs Hr') as Hl.
  rewrite length_map in Hl. lia.
Qed.

End CallOrder.

(** ** Running the script again *)

(** A computation that only writes to the page: the same result and the
    same widgets from every world. *)
Definition page_only {A : Type} (m : M A) : Prop :=
  exists r xs, forall w, m w = (r, with_page w xs).

Lemma with_page_nil (w : world) : with_page w [] = w.
Proof. destruct w. unfold with_page. cbn. by rewrite app_nil_r. Qed.

Lemma page_only_ret {A : Type} (a : A) : page_only (ret a).
Proof. exists (Ret a), []. intros w. by rewrite with_page_nil. Qed.

Lemma page_only_lift {A : Type} (r : exn + A) : page_only (lift r).
Proof.
  destruct r as [e|a]; [exists (Raise e), [] | exists (Ret a), []];
    intros w; by rewrite with_page_nil.
Qed.

Lemma page_only_st (x : widget) : page_only (st x).
Proof. by exists (Ret tt), [x]. Qed.

Lemma page_only_halt {A : Type} (x : widget) : page_only (st x ≫= fun _ => @st_stop A).
Proof. by exists Stopped, [x]. Qed.

Lemma page_only_bind {A B : Type} (m : M A) (k : A -> M B) :
  page_only m -> (forall a, page_only (k a)) -> page_only (m ≫= k).
Proof.
  intros (r & xs & Hm) Hk. destruct r as [a|e|].
  - destruct (Hk a) as (r' & ys & Hka). exists r', (xs ++ ys). intros w.
    rewrite (bind_ret_l _ _ _ _ _ (Hm w)), Hka. by rewrite with_page_app.
  - exists (Raise e), xs. intros w. by apply bind_raise.
  - exists Stopped, xs. intros w. by apply bind_stopped.
Qed.

Lemma page_only_mapM_lift {A B : Type} (f : A -> exn + B) (xs : list A) :
  page_only (mapM (fun x => lift (f x)) xs).
Proof.
  induction xs as [|x xs IH]; [apply page_only_ret|].
  change (mapM (fun x => lift (f x)) (x :: xs))
    with (y ← lift (f x); k ← mapM (fun x => lift (f x)) xs; mret (y :: k)).
  apply page_only_bind; [apply page_only_lift|]. intros y.
  apply page_only_bind; [exact IH|]. intros k. apply page_only_ret.
Qed.

Lemma page_only_selectbox (label : pystr) (options : list pystr) (i : nat) :
  page_only (selectbox label options i).
Proof. by eexists _, [_]. Qed.

Lemma page_only_multiselect (label : pystr) (options dflt : list pystr)
    (choice : option (list nat)) :
  page_only (multiselect label options dflt choice).
Proof. by eexists _, [_]. Qed.

Lemma bind_ret_inv {A B : Type} (m : M A) (k : A -> M B) (w w' : world) (b : B) :
  (m ≫= k) w = (Ret b, w') -> exists a wm, m w = (Ret a, wm) /\ k a wm = (Ret b, w').
Proof.
  unfold mbind, M_bind, bind. destruct (m w) as [[a|e|] wm]; [|done|done].
  intros E. by exists a, wm.
Qed.

Lemma cache_data_keeps {K V X : Type} `{Countable K} (sl : slot K V) (ttl : Z)
    (f : K -> M V) (k : K) (proj : world -> X) :
  (forall s w, proj (slot_set sl s w) = proj w) ->
  (forall w, proj (f k w).2 = proj w) ->
  forall w, proj (cache_data sl ttl f k w).2 = proj w.
Proof.
  intros Hset Hf w. unfold cache_data.
  assert (proj (match f k w with
                | (Ret v, w') =>
                    (Ret v, slot_set sl (<[k := (now w', v)]> (slot_get sl w')) w')
                | r => r
                end).2 = proj w) as Hmiss.
  { specialize (Hf w). destruct (f k w) as [[v|e|] w1]; cbn [snd] in Hf |- *; [|done|done].
    by rewrite Hset. }
  destruct (slot_get sl w !! k) as [[stored v]|]; [|exact Hmiss].
  by destruct (now w <? stored + ttl).
Qed.

Section Replay.
Context {K V A : Type} `{Countable K}.
Variables (sl : slot K V) (ttl : Z) (body : K -> M V) (k : K)
          (handler : exn -> M V) (rest : V -> M A).

Hypothesis get_set : forall s w, slot_get sl (slot_set sl s w) = s.
Hypothesis body_now : forall w, now (body k w).2 = now w.
Hypothesis handler_halts : forall e w, (handler e w).1 = Stopped.
Hypothesis rest_page_only : forall v, page_only (rest v).

(** A stage made of a memoized call and a remainder that only writes to
    the page: when it returned after a miss, it returns the same from any
    world in which the entry it stored is live. *)
Lemma replay (w w1 : world) (a : A) :
  live sl ttl k w = false ->
  (try_except (cache_data sl ttl body k) handler ≫= rest) w = (Ret a, w1) ->
  exists v xs,
    (cache_data sl ttl body k w).1 = Ret v
    /\ w1 = with_page (cache_data sl ttl body k w).2 xs
    /\ slot_get sl (cache_data sl ttl body k w).2 !! k = Some (now w, v)
    /\ forall w', slot_get sl w' !! k = Some (now w, v) -> now w' < now w + ttl ->
         (try_except (cache_data sl ttl body k) handler ≫= rest) w'
         = (Ret a, with_page w' xs).
Proof.
  intros Hl E.
  rewrite (cache_miss sl ttl body k w (live_false_old sl ttl k w Hl)).
  apply bind_ret_inv in E as (v & wc & Ec & Er).
  unfold try_except in Ec.
  rewrite (cache_miss sl ttl body k w (live_false_old sl ttl k w Hl)) in Ec.
  specialize (body_now w).
  destruct (body k w) as [[v0|e|] wb]; cbn [snd] in body_now.
  - injection Ec as <- <-.
    destruct (rest_page_only v0) as (r & xs & Hrest).
    rewrite Hrest in Er. injection Er as -> <-.
    exists v0, xs. cbn [fst snd]. split; [done|]. split; [done|]. split.
    + rewrite get_set, body_now. apply lookup_insert_eq.
    + intros w' Hw' Ht.
      rewrite (bind_ret_l _ _ v0 _ w'); [apply Hrest|].
      apply try_except_ret. by apply (cache_hit sl ttl body k w' (now w)).
  - pose proof (handler_halts e wb) as Hh. rewrite Ec in Hh. discriminate Hh.
  - discriminate Ec.
Qed.

End Replay.

Lemma page_only_stop {A : Type} : page_only (@st_stop A).
Proof. exists Stopped, []. intros w. by rewrite with_page_nil. Qed.

Ltac page_only_steps :=
  repeat first
    [ apply page_only_ret | apply page_only_lift | apply page_only_st
    | apply page_only_stop | apply page_only_selectbox | apply page_only_multiselect
    | apply page_only_mapM_lift
    | apply page_only_bind; [|intros ?]
    | match goal with
      | |- page_only (if ?b then _ else _) => destruct b
      | |- page_only (let '(_, _) := ?p in _) => destruct p
      | |- page_only (match ?l with [] => _ | _ :: _ => _ end) => destruct l
      end ].

Section Rerun.
Context `{External}.

(** No memo table holds an entry that is still live. *)
Definition stale (w : world) : Prop :=
  (forall k, live geocode_slot (60 * 60) k w = false)
  /\ (forall k, live stations_slot (60 * 60) k w = false)
  /\ (forall k, live daily_slot (60 * 30) k w = false)
  /\ (forall k, live hourly_slot (60 * 30) k w = false).

Lemma hourly_body_keeps {X : Type} (proj : world -> X) (a : pystr * dval * dval) :
  (forall w cs, proj (with_log w cs) = proj w) ->
  forall w, proj (fetch_hourly_body a w).2 = proj w.
Proof.
  intros Hp w. destruct a as [[sid s] e].
  destruct s as [d1|l1]; [|done]. destruct e as [d2|l2]; [|done].
  rewrite fetch_hourly_body_dates, invoke_log. apply Hp.
Qed.

Lemma geocode_stage_replay (i : inputs) (w w1 : world) (c : float * float * float) :
  live geocode_slot (60 * 60) (city i, country i, 10, py "pt") w = false ->
  geocode_stage i w = (Ret c, w1) ->
  exists places xs,
    now w1 = now w
    /\ geocode_cache w1 !! (city i, country i, 10, py "pt") = Some (now w, places)
    /\ stations_cache w1 = stations_cache w
    /\ daily_cache w1 = daily_cache w
    /\ hourly_cache w1 = hourly_cache w
    /\ forall w',
         geocode_cache w' !! (city i, country i, 10, py "pt") = Some (now w, places) ->
         now w' < now w + 60 * 60 ->
         geocode_stage i w' = (Ret c, with_page w' xs).
Proof.
  intros Hl E. unfold geocode_stage, geocode_city_country in E |- *.
  assert (forall {X : Type} (proj : world -> X),
             (forall w0 cs, proj (with_log w0 cs) = proj w0) ->
             forall w0, proj (geocode_city_country_body
                                (city i, country i, 10, py "pt") w0).2 = proj w0) as Hbody.
  { intros X proj Hp w0.
    destruct (geocode_body_invokes (city i, country i, 10, py "pt") w0) as [r Er].
    rewrite Er. apply Hp. }
  eapply (replay geocode_slot) in E as (places & xs & _ & -> & Hentry & Hreplay);
    [| done | by apply (Hbody _ now) | done | | exact Hl].
  2:{ intros places. page_only_steps. }
  exists places, xs.
  split; [apply (cache_data_keeps geocode_slot _ _ _ now); [done | by apply Hbody]|].
  split; [exact Hentry|].
  split; [apply (cache_data_keeps geocode_slot _ _ _ stations_cache);
          [done | by apply Hbody]|].
  split; [apply (cache_data_keeps geocode_slot _ _ _ daily_cache);
          [done | by apply Hbody]|].
  split; [apply (cache_data_keeps geocode_slot _ _ _ hourly_cache);
          [done | by apply Hbody]|].
  exact Hreplay.
Qed.

Lemma select_station_replay (i : inputs) (lat lon elev : float) (w w1 : world)
    (p : pystr * pystr) :
  live stations_slot (60 * 60) (lat, lon, elev) w = false ->
  select_station i lat lon elev w = (Ret p, w1) ->
  exists st_df xs,
    now w1 = now w
    /\ stations_cache w1 !! (lat, lon, elev) = Some (now w, st_df)
    /\ geocode_cache w1 = geocode_cache w
    /\ daily_cache w1 = daily_cache w
    /\ hourly_cache w1 = hourly_cache w
    /\ forall w',
         stations_cache w' !! (lat, lon, elev) = Some (now w, st_df) ->
         now w' < now w + 60 * 60 ->
         select_station i lat lon elev w' = (Ret p, with_page w' xs).
Proof.
  intros Hl E. unfold select_station, nearby_stations in E |- *.
  assert (forall {X : Type} (proj : world -> X),
             (forall w0 cs, proj (with_log w0 cs) = proj w0) ->
             forall w0, proj (nearby_stations_body (lat, lon, elev) w0).2 = proj w0) as Hbody.
  { intros X proj Hp w0.
    destruct (nearby_body_logs (lat, lon, elev) w0) as (r & cs & Er).
    rewrite Er. apply Hp. }
  eapply (replay stations_slot) in E as (st_df & xs & _ & -> & Hentry & Hreplay);
    [| done | by apply (Hbody _ now) | done | | exact Hl].
  2:{ intros st_df. page_only_steps. }
  exists st_df, xs.
  split; [apply (cache_data_keeps stations_slot _ _ _ now); [done | by apply Hbody]|].
  split; [exact Hentry|].
  split; [apply (cache_data_keeps stations_slot _ _ _ geocode_cache);
          [done | by apply Hbody]|].
  split; [apply (cache_data_keeps stations_slot _ _ _ daily_cache);
          [done | by apply Hbody]|].
  split; [apply (cache_data_keeps stations_slot _ _ _ hourly_cache);
          [done | by apply Hbody]|].
  exact Hreplay.
Qed.

Lemma fetch_stage_replay (g station_id : pystr) (start_d end_d : dval) (w w1 : world)
    (df : DataFrame) :
  live daily_slot (60 * 30) (station_id, start_d, end_d) w = false ->
  live hourly_slot (60 * 30) (station_id, start_d, end_d) w = false ->
  fetch_stage g station_id start_d end_d w = (Ret df, w1) ->
  exists xs,
    now w1 = now w
    /\ geocode_cache w1 = geocode_cache w
    /\ stations_cache w1 = stations_cache w
    /\ forall w',
         daily_cache w' = daily_cache w1 -> hourly_cache w' = hourly_cache w1 ->
         now w' < now w + 60 * 30 ->
         fetch_stage g station_id start_d end_d w' = (Ret df, with_page w' xs).
Proof.
  intros Hd Hh E. unfold fetch_stage in E |- *.
  assert (forall {X : Type} (proj : world -> X),
             (forall w0 cs, proj (with_log w0 cs) = proj w0) ->
             forall w0, proj (fetch_daily_body (station_id, start_d, end_d) w0).2
                        = proj w0) as Hbody.
  { intros X proj Hp w0.
    destruct (daily_body_invokes (station_id, start_d, end_d) w0) as [r Er].
    rewrite Er. apply Hp. }
  destruct (startswith g (py "Diário")).
  - unfold fetch_daily in E |- *.
    eapply (replay daily_slot) in E as (v & xs & _ & -> & Hentry & Hreplay);
      [| done | by apply (Hbody _ now) | done | | exact Hd].
    2:{ intros v. page_only_steps. }
    exists xs.
    split; [apply (cache_data_keeps daily_slot _ _ _ now); [done | by apply Hbody]|].
    split; [apply (cache_data_keeps daily_slot _ _ _ geocode_cache);
            [done | by apply Hbody]|].
    split; [apply (cache_data_keeps daily_slot _ _ _ stations_cache);
            [done | by apply Hbody]|].
    intros w' Hwd _ Ht. apply Hreplay; [|exact Ht].
    change (daily_cache w' !! (station_id, start_d, end_d) = Some (now w, v)).
    rewrite Hwd. exact Hentry.
  - unfold fetch_hourly in E |- *.
    eapply (replay hourly_slot) in E as (v & xs & _ & -> & Hentry & Hreplay);
      [| done | by apply (hourly_body_keeps now) | done | | exact Hh].
    2:{ intros v. page_only_steps. }
    exists xs.
    split; [apply (cache_data_keeps hourly_slot _ _ _ now);
            [done | by apply hourly_body_keeps]|].
    split; [apply (cache_data_keeps hourly_slot _ _ _ geocode_cache);
            [done | by apply hourly_body_keeps]|].
    split; [apply (cache_data_keeps hourly_slot _ _ _ stations_cache);
            [done | by apply hourly_body_keeps]|].
    intros w' _ Hwh Ht. apply Hreplay; [|exact Ht].
    change (hourly_cache w' !! (station_id, start_d, end_d) = Some (now w, v)).
    rewrite Hwh. exact Hentry.
Qed.

Lemma render_stage_replay (i : inputs) (station_id : pystr) (start_d end_d : dval)
    (df : DataFrame) (w w1 : world) :
  render_stage i station_id start_d end_d df w = (Ret tt, w1) ->
  exists xs, w1 = with_page w xs
             /\ forall w', render_stage i station_id start_d end_d df w'
                           = (Ret tt, with_page w' xs).
Proof.
  assert (page_only (render_stage i station_id start_d end_d df)) as (r & xs & Hr).
  { unfold render_stage, draw_charts. page_only_steps. }
  rewrite Hr. intros [= -> <-]. by exists xs.
Qed.

End Rerun.

(** The parts of a world that writing to the page, logging an invocation
    or moving the clock leave alone. *)
Lemma geocode_cache_with_page (w : world) (xs : list widget) :
  geocode_cache (with_page w xs) = geocode_cache w.
Proof. reflexivity. Qed.

Lemma geocode_cache_with_log (w : world) (cs : list ext_call) :
  geocode_cache (with_log w cs) = geocode_cache w.
Proof. reflexivity. Qed.

Lemma geocode_cache_at_time (t : Z) (w : world) : geocode_cache (at_time t w) = geocode_cache w.
Proof. reflexivity. Qed.

Lemma stations_cache_with_page (w : world) (xs : list widget) :
  stations_cache (with_page w xs) = stations_cache w.
Proof. reflexivity. Qed.

Lemma stations_cache_with_log (w : world) (cs : list ext_call) :
  stations_cache (with_log w cs) = stations_cache w.
Proof. reflexivity. Qed.

Lemma stations_cache_at_time (t : Z) (w : world) : stations_cache (at_time t w) = stations_cache w.
Proof. reflexivity. Qed.

Lemma daily_cache_with_page (w : world) (xs : list widget) :
  daily_cache (with_page w xs) = daily_cache w.
Proof. reflexivity. Qed.

Lemma daily_cache_with_log (w : world) (cs : list ext_call) :
  daily_cache (with_log w cs) = daily_cache w.
Proof. reflexivity. Qed.

Lemma daily_cache_at_time (t : Z) (w : world) : daily_cache (at_time t w) = daily_cache w.
Proof. reflexivity. Qed.

Lemma hourly_cache_with_page (w : world) (xs : list widget) :
  hourly_cache (with_page w xs) = hourly_cache w.
Proof. reflexivity. Qed.

Lemma hourly_cache_with_log (w : world) (cs : list ext_call) :
  hourly_cache (with_log w cs) = hourly_cache w.
Proof. reflexivity. Qed.

Lemma hourly_cache_at_time (t : Z) (w : world) : hourly_cache (at_time t w) = hourly_cache w.
Proof. reflexivity. Qed.

Lemma ext_log_with_page (w : world) (xs : list widget) :
  ext_log (with_page w xs) = ext_log w.
Proof. reflexivity. Qed.

Lemma ext_log_with_log (w : world) (cs : list ext_call) :
  ext_log (with_log w cs) = ext_log w ++ cs.
Proof. reflexivity. Qed.

Lemma ext_log_at_time (t : Z) (w : world) : ext_log (at_time t w) = ext_log w.
Proof. reflexivity. Qed.

Create Rewrite HintDb world.

#[local] Hint Rewrite
  geocode_cache_with_page geocode_cache_with_log geocode_cache_at_time
  stations_cache_with_page stations_cache_with_log stations_cache_at_time
  daily_cache_with_page daily_cache_with_log daily_cache_at_time
  hourly_cache_with_page hourly_cache_with_log hourly_cache_at_time
  ext_log_with_page ext_log_with_log ext_log_at_time : world.

Ltac project_world := autorewrite with world.

Section RunAgain.
Context `{External}.

Lemma live_same {K V : Type} `{Countable K} (sl : slot K V) (ttl : Z) (k : K)
    (w w' : world) :
  slot_get sl w' = slot_get sl w -> now w' = now w ->
  live sl ttl k w' = live sl ttl k w.
Proof. intros Hs Hn. unfold live. by rewrite Hs, Hn. Qed.

(** The stages of a run that completed. *)
Lemma script_ret_inv (i : inputs) (w w1 : world) :
  script i w = (Ret tt, w1) ->
  exists start_d end_d lat lon elev station_id name df wg wss ws wf,
    normalize_period (period i) = (start_d, end_d)
    /\ dval_gt start_d end_d = Some false
    /\ geocode_stage i (with_page w (header_widgets i)) = (Ret (lat, lon, elev), wg)
    /\ select_station i lat lon elev wg = (Ret (station_id, name), wss)
    /\ show_station station_id name wss = (Ret tt, ws)
    /\ fetch_stage (default [] (chosen granularity_options (granularity i)))
                   station_id start_d end_d ws = (Ret df, wf)
    /\ render_stage i station_id start_d end_d df wf = (Ret tt, w1).
Proof.
  intros E.
  destruct (normalize_period (period i)) as [start_d end_d] eqn:Hn.
  destruct (dval_gt start_d end_d) as [[|]|] eqn:Hv.
  - assert ((script i w).1 = Stopped) as Hs.
    { unfold script.
      rewrite (bind_ret_l _ _ _ _ _ (header_and_sidebar_spec i w)), Hn.
      by rewrite (bind_stopped _ _ _ _ (validate_period_rejects _ _ _ Hv)). }
    rewrite E in Hs. discriminate Hs.
  - rewrite (script_to_geocode i w start_d end_d Hn Hv) in E.
    apply bind_ret_inv in E as ([[lat lon] elev] & wg & Eg & E).
    apply bind_ret_inv in E as (station_id & ws & Est & E).
    apply bind_ret_inv in E as (df & wf & Ef & Er).
    unfold station_stage in Est.
    apply bind_ret_inv in Est as ([sid name] & wss & Ess & Est).
    apply bind_ret_inv in Est as ([] & wsi & Esh & Eret).
    injection Eret as -> ->.
    by exists start_d, end_d, lat, lon, elev, station_id, name, df, wg, wss, ws, wf.
  - assert ((script i w).1 = Raise TypeError) as Hs.
    { unfold script.
      rewrite (bind_ret_l _ _ _ _ _ (header_and_sidebar_spec i w)), Hn.
      unfold validate_period. rewrite Hv.
      by rewrite (bind_raise _ _ _ _ _ (bind_lift_inl TypeError _ _)). }
    rewrite E in Hs. discriminate Hs.
Qed.

(** X15.  Running the script again.  Take a session in which no memo table
    holds a live entry, and a run that completes.  A second run with the
    same inputs less than 1800 seconds after the first asks the outside
    world for one thing only, the inventory of the station the first run
    used: the places, the station table and the series come from the memo
    tables, which the second run leaves as they are.  The second run
    completes when the inventory answers, and raises what the inventory
    raises otherwise. *)
Theorem second_run_asks_only_the_inventory (i : inputs) (w w1 : world) (t : Z) :
  stale w ->
  script i w = (Ret tt, w1) ->
  t < now w + 60 * 30 ->
  exists station_id,
    MsInventory station_id ∈ ext_log w1
    /\ ext_log (script i (at_time t w1)).2 = ext_log w1 ++ [MsInventory station_id]
    /\ geocode_cache (script i (at_time t w1)).2 = geocode_cache w1
    /\ stations_cache (script i (at_time t w1)).2 = stations_cache w1
    /\ daily_cache (script i (at_time t w1)).2 = daily_cache w1
    /\ hourly_cache (script i (at_time t w1)).2 = hourly_cache w1
    /\ (script i (at_time t w1)).1
       = match ms_inventory station_id t with
         | inl e => Raise e
         | inr _ => Ret tt
         end.
Proof.
  intros (Hg & Hs & Hd & Hh) E Ht.
  destruct (script_ret_inv i w w1 E)
    as (start_d & end_d & lat & lon & elev & station_id & name & df & wg & wss & ws & wf
        & Hn & Hv & Eg & Ess & Esh & Ef & Er).
  set (w0 := with_page w (header_widgets i)) in *.
  destruct (geocode_stage_replay i w0 wg _ (Hg _) Eg)
    as (places & xs_g & Hnow_g & Hent_g & Hst_g & Hda_g & Hho_g & Rg).
  assert (live stations_slot (60 * 60) (lat, lon, elev) wg = false) as Hls.
  { rewrite (live_same stations_slot _ _ w0 wg Hst_g Hnow_g). apply Hs. }
  destruct (select_station_replay i lat lon elev wg wss _ Hls Ess)
    as (st_df & xs_s & Hnow_s & Hent_s & Hge_s & Hda_s & Hho_s & Rs).
  rewrite show_station_spec in Esh.
  destruct (ms_inventory station_id (now wss)) as [e|inv]; [discriminate Esh|].
  apply (f_equal snd) in Esh. cbn [snd] in Esh. subst ws.
  set (wi := with_log _ _) in *.
  assert (now wi = now w) as Hnow_i.
  { transitivity (now wss); [reflexivity|]. by rewrite Hnow_s, Hnow_g. }
  assert (live daily_slot (60 * 30) (station_id, start_d, end_d) wi = false) as Hld.
  { rewrite (live_same daily_slot _ _ w wi); [apply Hd| |exact Hnow_i].
    transitivity (daily_cache wg); [by rewrite <- Hda_s|exact Hda_g]. }
  assert (live hourly_slot (60 * 30) (station_id, start_d, end_d) wi = false) as Hlh.
  { rewrite (live_same hourly_slot _ _ w wi); [apply Hh| |exact Hnow_i].
    transitivity (hourly_cache wg); [by rewrite <- Hho_s|exact Hho_g]. }
  destruct (fetch_stage_replay _ station_id start_d end_d wi wf df Hld Hlh Ef)
    as (xs_f & Hnow_f & Hge_f & Hst_f & Rf).
  destruct (render_stage_replay i station_id start_d end_d df wf w1 Er)
    as (xs_r & -> & Rr).
  exists station_id. split.
  { destruct (asks_fetch_stage (default [] (chosen granularity_options (granularity i)))
                station_id start_d end_d wi) as (calls & Hlog & _).
    rewrite Ef in Hlog. cbn [snd] in Hlog.
    change (MsInventory station_id ∈ ext_log wf). rewrite Hlog.
    apply elem_of_app. left. apply elem_of_app. right. by left. }
  set (w2 := at_time t (with_page wf xs_r)).
  set (w2g := with_page (with_page w2 (header_widgets i)) xs_g).
  set (w2s := with_page w2g xs_s).
  assert (geocode_stage i (with_page w2 (header_widgets i)) = (Ret (lat, lon, elev), w2g))
    as Eg2.
  { apply Rg.
    - change (geocode_cache wf !! (city i, country i, 10, py "pt") = Some (now w0, places)).
      rewrite Hge_f. change (geocode_cache wi) with (geocode_cache wss).
      by rewrite Hge_s.
    - change (t < now w + 60 * 60). lia. }
  assert (select_station i lat lon elev w2g = (Ret (station_id, name), w2s)) as Es2.
  { apply Rs.
    - change (stations_cache wf !! (lat, lon, elev) = Some (now wg, st_df)).
      rewrite Hst_f. exact Hent_s.
    - change (now w2g) with t. rewrite Hnow_g. change (now w0) with (now w). lia. }
  assert (station_stage i lat lon elev w2g
          = match ms_inventory station_id t with
            | inl e =>
                (Raise e,
                 with_log (with_page w2s (station_heading station_id name))
                          [MsInventory station_id])
            | inr inv2 =>
                (Ret station_id,
                 with_log (with_page w2s (station_heading station_id name
                                          ++ inventory_widgets inv2))
                          [MsInventory station_id])
            end) as Est2.
  { unfold station_stage. rewrite (bind_ret_l _ _ _ _ _ Es2). cbv beta iota.
    unfold mbind, M_bind, bind. rewrite show_station_spec.
    change (now w2s) with t. by destruct (ms_inventory station_id t). }
  rewrite (script_to_geocode i w2 start_d end_d Hn Hv).
  rewrite (bind_ret_l _ _ _ _ _ Eg2). cbv beta iota.
  destruct (ms_inventory station_id t) as [e|inv2].
  - rewrite (bind_raise _ _ _ _ _ Est2). cbn [fst snd].
    subst w2s w2g w2. project_world. repeat split.
  - rewrite (bind_ret_l _ _ _ _ _ Est2).
    set (w2i := with_log _ _).
    rewrite (bind_ret_l _ _ df _ (with_page w2i xs_f)).
    + rewrite Rr. cbn [fst snd].
      subst w2i w2s w2g w2. project_world. repeat split.
    + apply Rf.
      * subst w2i w2s w2g w2. by project_world.
      * subst w2i w2s w2g w2. by project_world.
      * change (now w2i) with t. lia.
Qed.

End RunAgain.

(** ** A run on a session without live entries *)

Section Cold.
Context {K V A : Type} `{Countable K}.
Variables (sl : slot K V) (ttl : Z) (body : K -> M V) (k : K) (request : ext_call)
          (handler : exn -> M V) (rest : V -> M A).

Hypothesis get_log : forall w cs, slot_get sl (with_log w cs) = slot_get sl w.
Hypothesis body_invokes :
  forall w v wb, body k w = (Ret v, wb) -> wb = with_log w [request].
Hypothesis handler_halts : forall e w, (handler e w).1 = Stopped.
Hypothesis rest_page_only : forall v, page_only (rest v).

(** A stage made of a memoized call and a remainder that only writes to
    the page: when it returns after a miss, the body returned, the service
    was invoked once, the result is stored with the current time, and the
    rest is on the page. *)
Lemma cold_stage (w w1 : world) (a : A) :
  live sl ttl k w = false ->
  (try_except (cache_data sl ttl body k) handler ≫= rest) w = (Ret a, w1) ->
  exists v xs,
    (body k w).1 = Ret v
    /\ w1 = with_page (slot_set sl (<[k := (now w, v)]> (slot_get sl w))
                                (with_log w [request])) xs
    /\ forall w', rest v w' = (Ret a, with_page w' xs).
Proof.
  intros Hl E.
  apply bind_ret_inv in E as (v & wc & Ec & Er).
  unfold try_except in Ec.
  rewrite (cache_miss sl ttl body k w (live_false_old sl ttl k w Hl)) in Ec.
  destruct (body k w) as [[v0|e|] wb] eqn:Eb.
  - pose proof (body_invokes _ _ _ Eb) as ->.
    injection Ec as <- <-.
    destruct (rest_page_only v0) as (r & xs & Hrest).
    rewrite Hrest in Er. injection Er as -> <-.
    exists v0, xs. split; [done|]. split; [by rewrite get_log|]. exact Hrest.
  - pose proof (handler_halts e wb) as Hh.
    rewrite Ec in Hh. discriminate Hh.
  - discriminate Ec.
Qed.

End Cold.

Lemma lift_ret_inv {A : Type} (r : exn + A) (w w' : world) (a : A) :
  lift r w = (Ret a, w') -> r = inr a.
Proof. destruct r as [e|x]; [discriminate|]. by intros [= ->]. Qed.

Lemma mapM_lift_ret_inv {A B : Type} (f : A -> exn + B) (xs : list A) (ys : list B)
    (w w' : world) :
  mapM (fun x => lift (f x)) xs w = (Ret ys, w') ->
  Forall2 (fun x y => f x = inr y) xs ys.
Proof.
  revert ys w w'. induction xs as [|x xs IH]; intros ys w w' E.
  - injection E as <- _. constructor.
  - change (mapM (fun x => lift (f x)) (x :: xs))
      with (y ← lift (f x); k ← mapM (fun x => lift (f x)) xs; mret (y :: k)) in E.
    apply bind_ret_inv in E as (y & wy & Ey & E).
    apply bind_ret_inv in E as (k & wk & Ek & E).
    injection E as <- _.
    constructor; [by apply lift_ret_inv in Ey | by apply (IH k wy wk)].
Qed.

Lemma invoke_ret_inv {A : Type} (c : ext_call) (answer : Z -> exn + A) (w : world)
    (v : A) :
  (invoke c answer w).1 = Ret v -> answer (now w) = inr v.
Proof. unfold invoke. destruct (answer (now w)); [discriminate|]. by intros [= ->]. Qed.

Lemma returned_world {A : Type} (m : M A) (w w' wb : world) (r : result A) (v : A) :
  m w = (r, w') -> m w = (Ret v, wb) -> wb = w'.
Proof. intros E1 E2. rewrite E1 in E2. by injection E2. Qed.

Section ColdRun.
Context `{External}.

(** The request of the series stage. *)
Definition series_request (i : inputs) (station_id : pystr) (start_d end_d : dval)
    : option ext_call :=
  if Nat.eqb (granularity i) 1 then
    match start_d, end_d with
    | DDate d1, DDate d2 =>
        Some (MsHourly station_id (DateTime d1 (Time 0 0 0 0))
                       (DateTime d2 (Time 23 59 0 0)))
    | _, _ => None
    end
  else Some (MsDaily station_id start_d end_d).

(** What the service answered to a request of the series stage. *)
Definition series_answer (request : ext_call) (t : Z) : option (exn + DataFrame) :=
  match request with
  | MsDaily station_id start_d end_d => Some (ms_daily station_id start_d end_d t)
  | MsHourly station_id start_dt end_dt => Some (ms_hourly station_id start_dt end_dt t)
  | _ => None
  end.

Lemma geocode_stage_cold (i : inputs) (w w1 : world) (c : float * float * float) :
  live geocode_slot (60 * 60) (city i, country i, 10, py "pt") w = false ->
  geocode_stage i w = (Ret c, w1) ->
  exists places items labels l idx p xs,
    (geocode_city_country_body (city i, country i, 10, py "pt") w).1 = Ret places
    /\ py_iter places = inr items
    /\ Forall2 (fun q lq => place_label q = inr lq) items labels
    /\ chosen labels (place_choice i) = Some l
    /\ list_index l labels = Some idx
    /\ py_getitem places idx = inr p
    /\ place_coordinates p = inr c
    /\ w1 = with_page
              (slot_set geocode_slot
                 (<[(city i, country i, 10, py "pt") := (now w, places)]> (geocode_cache w))
                 (with_log w [geocode_request (city i, country i, 10, py "pt")])) xs.
Proof.
  intros Hl E. unfold geocode_stage, geocode_city_country in E.
  eapply (cold_stage geocode_slot) in E as (places & xs & Hb & -> & Hrest);
    [ | done
      | intros w0 v wb Eb;
        destruct (geocode_body_invokes (city i, country i, 10, py "pt") w0) as [r Er];
        exact (returned_world _ _ _ _ _ _ Er Eb)
      | done | | exact Hl].
  2:{ intros places. page_only_steps. }
  specialize (Hrest w).
  apply bind_ret_inv in Hrest as ([] & w2 & _ & Hr).
  apply bind_ret_inv in Hr as (items & w3 & E2 & Hr). apply lift_ret_inv in E2.
  apply bind_ret_inv in Hr as (labels & w4 & E3 & Hr). apply mapM_lift_ret_inv in E3.
  rewrite (bind_ret_l _ _ _ _ _ (selectbox_spec _ _ _ _)) in Hr.
  apply bind_ret_inv in Hr as (idx & w5 & E4 & Hr). apply lift_ret_inv in E4.
  destruct (chosen labels (place_choice i)) as [l|] eqn:Hch; [|discriminate E4].
  change (Some l ≫= (fun l0 => list_index l0 labels)) with (list_index l labels) in E4.
  destruct (list_index l labels) as [n|] eqn:Hli; [|discriminate E4].
  injection E4 as ->.
  apply bind_ret_inv in Hr as (p & w6 & E5 & Hr). apply lift_ret_inv in E5.
  apply bind_ret_inv in Hr as ([[lat lon] elev] & w7 & E6 & Hr). apply lift_ret_inv in E6.
  apply bind_ret_inv in Hr as ([] & w8 & _ & Hr).
  apply bind_ret_inv in Hr as (details & w9 & _ & Hr).
  apply bind_ret_inv in Hr as ([] & w10 & _ & Hr).
  apply (f_equal fst) in Hr. unfold ret in Hr. cbn [fst] in Hr. injection Hr as <-.
  by exists places, items, labels, l, idx, p, xs.
Qed.

Lemma select_station_cold (i : inputs) (lat lon elev : float) (w w1 : world)
    (p : pystr * pystr) :
  live stations_slot (60 * 60) (lat, lon, elev) w = false ->
  select_station i lat lon elev w = (Ret p, w1) ->
  exists st_df labels sl xs,
    ms_point lat lon elev = inr tt
    /\ ms_nearby lat lon elev 10 (now w) = inr st_df
    /\ Forall2 (fun r lr => station_label st_df r = inr lr) (sf_rows st_df) labels
    /\ chosen labels (station_choice i) = Some sl
    /\ p.1 = station_id_of_label sl
    /\ w1 = with_page
              (slot_set stations_slot
                 (<[(lat, lon, elev) := (now w, st_df)]> (stations_cache w))
                 (with_log w [MsNearby lat lon elev 10])) xs.
Proof.
  intros Hl E. unfold select_station, nearby_stations in E.
  eapply (cold_stage stations_slot) in E as (st_df & xs & Hb & -> & Hrest);
    [ | done
      | intros w0 v wb Eb;
        destruct (ms_point lat lon elev) as [e|[]] eqn:Hp;
        [ rewrite (nearby_body_refused (lat, lon, elev) w0 e Hp) in Eb; discriminate Eb
        | destruct (nearby_body_invokes (lat, lon, elev) w0 Hp) as [r Er];
          exact (returned_world _ _ _ _ _ _ Er Eb) ]
      | done | | exact Hl].
  2:{ intros st_df. page_only_steps. }
  assert (ms_point lat lon elev = inr tt
          /\ ms_nearby lat lon elev 10 (now w) = inr st_df) as [Hp Ha].
  { unfold nearby_stations_body in Hb.
    destruct (ms_point lat lon elev) as [e|[]].
    - rewrite bind_lift_inl in Hb. discriminate Hb.
    - rewrite bind_lift_inr in Hb. split; [done|]. by apply invoke_ret_inv in Hb. }
  specialize (Hrest w).
  apply bind_ret_inv in Hrest as ([] & w2 & _ & Hr).
  apply bind_ret_inv in Hr as (first & w3 & _ & Hr).
  rewrite bind_st in Hr.
  apply bind_ret_inv in Hr as (labels & w4 & E3 & Hr). apply mapM_lift_ret_inv in E3.
  rewrite (bind_ret_l _ _ _ _ _ (selectbox_spec _ _ _ _)) in Hr.
  apply bind_ret_inv in Hr as (sid & w5 & E4 & Hr). apply lift_ret_inv in E4.
  destruct (chosen labels (station_choice i)) as [sl|] eqn:Hch; [|discriminate E4].
  injection E4 as <-.
  apply (f_equal fst) in Hr. unfold ret in Hr. cbn [fst] in Hr. injection Hr as <-.
  by exists st_df, labels, sl, xs.
Qed.

Lemma fetch_stage_cold (i : inputs) (station_id : pystr) (start_d end_d : dval)
    (w w1 : world) (df : DataFrame) :
  live daily_slot (60 * 30) (station_id, start_d, end_d) w = false ->
  live hourly_slot (60 * 30) (station_id, start_d, end_d) w = false ->
  fetch_stage (default [] (chosen granularity_options (granularity i)))
              station_id start_d end_d w = (Ret df, w1) ->
  exists request xs,
    series_request i station_id start_d end_d = Some request
    /\ series_answer request (now w) = Some (inr df)
    /\ df_is_empty df = false
    /\ w1 = with_page
              (if Nat.eqb (granularity i) 1
               then slot_set hourly_slot
                      (<[(station_id, start_d, end_d) := (now w, df)]> (hourly_cache w))
                      (with_log w [request])
               else slot_set daily_slot
                      (<[(station_id, start_d, end_d) := (now w, df)]> (daily_cache w))
                      (with_log w [request])) xs.
Proof.
  intros Hd Hh E. unfold fetch_stage, series_request in E |- *.
  rewrite granularity_picks_daily in E.
  assert (forall (v : DataFrame) (w' wr : world),
             ((if df_is_empty v
               then st (StWarning (py "A consulta retornou vazio para o período selecionado. Tente outro intervalo de datas."));;
                    st_stop
               else ret tt);; ret v) w' = (Ret df, wr) ->
             v = df /\ df_is_empty df = false) as Hrest.
  { intros v w' wr Er. apply (f_equal fst) in Er. revert Er.
    destruct (df_is_empty v) eqn:Ee; [discriminate|]. by intros [= ->]. }
  destruct (Nat.eqb (granularity i) 1); cbn [negb] in E.
  - unfold fetch_hourly in E.
    destruct start_d as [d1|l1], end_d as [d2|l2].
    + eapply (cold_stage hourly_slot) in E as (v & xs & Hb & -> & Hv);
        [ | done
          | intros w0 v wb Eb;
            destruct (hourly_body_invokes (station_id, d1, d2) w0) as [r Er];
            exact (returned_world _ _ _ _ _ _ Er Eb)
          | done | | exact Hh].
      2:{ intros v. page_only_steps. }
      destruct (Hrest v w _ (Hv w)) as [-> He].
      rewrite fetch_hourly_body_dates in Hb. apply invoke_ret_inv in Hb.
      eexists _, xs. split; [reflexivity|]. split; [by rewrite <- Hb|]. done.
    + apply bind_ret_inv in E as (v & wc & Ec & _). unfold try_except in Ec.
      rewrite (cache_miss _ _ _ _ _ (live_false_old _ _ _ _ Hh)) in Ec. discriminate Ec.
    + apply bind_ret_inv in E as (v & wc & Ec & _). unfold try_except in Ec.
      rewrite (cache_miss _ _ _ _ _ (live_false_old _ _ _ _ Hh)) in Ec. discriminate Ec.
    + apply bind_ret_inv in E as (v & wc & Ec & _). unfold try_except in Ec.
      rewrite (cache_miss _ _ _ _ _ (live_false_old _ _ _ _ Hh)) in Ec. discriminate Ec.
  - unfold fetch_daily in E.
    eapply (cold_stage daily_slot) in E as (v & xs & Hb & -> & Hv);
      [ | done
        | intros w0 v wb Eb;
          destruct (daily_body_invokes (station_id, start_d, end_d) w0) as [r Er];
          exact (returned_world _ _ _ _ _ _ Er Eb)
        | done | | exact Hd].
    2:{ intros v. page_only_steps. }
    destruct (Hrest v w _ (Hv w)) as [-> He].
    apply invoke_ret_inv in Hb.
    eexists _, xs. split; [reflexivity|]. split; [by rewrite <- Hb|]. done.
Qed.

(** X16.  A run on a session without live entries.  When no memo table
    holds a live entry and the run completes, it has asked the outside
    world four things, in this order:
    - the geocoder for (city, country, 10, pt): its processed answer is the
      list of candidates;
    - the station lookup, with limit 10, for the coordinates of the
      candidate the selectbox designates (the first one to bear the chosen
      label), a point [ms.Point] accepts;
    - the inventory of the station whose label is chosen among the labels
      of the table the lookup answered;
    - the series of that station for the period (the daily one, or the
      hourly one from the first day at 00:00 to the last day at 23:59),
      whose answer is a table that is not empty.
    The clock of the session aside, it has changed the memo tables in
    three entries: the geocoder's answer, the station table and the series
    in the table of the function that fetched it, each stamped with the
    time of the run. *)
Theorem cold_run_asks_all_four (i : inputs) (w w1 : world) :
  stale w ->
  script i w = (Ret tt, w1) ->
  let start_d := (normalize_period (period i)).1 in
  let end_d := (normalize_period (period i)).2 in
  let query := (city i, country i, 10, py "pt") in
  exists places items labels l idx p lat lon elev st_df station_labels sl inv series df,
    (geocode_city_country_body query (with_page w (header_widgets i))).1 = Ret places
    /\ py_iter places = inr items
    /\ Forall2 (fun q lq => place_label q = inr lq) items labels
    /\ chosen labels (place_choice i) = Some l
    /\ list_index l labels = Some idx
    /\ py_getitem places idx = inr p
    /\ place_coordinates p = inr (lat, lon, elev)
    /\ ms_point lat lon elev = inr tt
    /\ ms_nearby lat lon elev 10 (now w) = inr st_df
    /\ Forall2 (fun r lr => station_label st_df r = inr lr) (sf_rows st_df) station_labels
    /\ chosen station_labels (station_choice i) = Some sl
    /\ ms_inventory (station_id_of_label sl) (now w) = inr inv
    /\ series_request i (station_id_of_label sl) start_d end_d = Some series
    /\ series_answer series (now w) = Some (inr df)
    /\ df_is_empty df = false
    /\ ext_log w1
       = ext_log w ++ [geocode_request query; MsNearby lat lon elev 10;
                       MsInventory (station_id_of_label sl); series]
    /\ now w1 = now w
    /\ geocode_cache w1 = <[query := (now w, places)]> (geocode_cache w)
    /\ stations_cache w1 = <[(lat, lon, elev) := (now w, st_df)]> (stations_cache w)
    /\ (if Nat.eqb (granularity i) 1
        then hourly_cache w1
             = <[(station_id_of_label sl, start_d, end_d) := (now w, df)]> (hourly_cache w)
             /\ daily_cache w1 = daily_cache w
        else daily_cache w1
             = <[(station_id_of_label sl, start_d, end_d) := (now w, df)]> (daily_cache w)
             /\ hourly_cache w1 = hourly_cache w).
Proof.
  intros (Hg & Hs & Hd & Hh) E.
  destruct (script_ret_inv i w w1 E)
    as (start_d & end_d & lat & lon & elev & station_id & name & df & wg & wss & ws & wf
        & Hn & Hv & Eg & Ess & Esh & Ef & Er).
  rewrite Hn. cbn [fst snd]. clear E.
  destruct w as [n g s d h l p].
  destruct ((fun Hl => geocode_stage_cold i _ wg _ Hl Eg) (Hg _))
    as (places & items & labels & lb & idx & pl & xs_g
        & Hbody & Hit & HF & Hch & Hli & Hgi & Hpc & ->).
  cbn [with_page with_log slot_set slot_get geocode_slot now geocode_cache stations_cache
       daily_cache hourly_cache ext_log page] in Ess.
  destruct ((fun Hl => select_station_cold i lat lon elev _ wss _ Hl Ess) (Hs _))
    as (st_df & slabels & sl & xs_s & Hpt & Hnear & HFs & Hchs & Hsid & ->).
  cbn [fst now] in Hsid, Hnear. subst station_id.
  rewrite show_station_spec in Esh.
  cbn [with_page with_log slot_set slot_get stations_slot now geocode_cache stations_cache
       daily_cache hourly_cache ext_log page] in Esh.
  destruct (ms_inventory (station_id_of_label sl) n) as [e|inv] eqn:Einv;
    [discriminate Esh|].
  apply (f_equal snd) in Esh. cbn [snd] in Esh. subst ws.
  cbn [with_page with_log now geocode_cache stations_cache
       daily_cache hourly_cache ext_log page] in Ef.
  destruct ((fun Hl Hl' => fetch_stage_cold i (station_id_of_label sl) start_d end_d
                             _ wf df Hl Hl' Ef)
              (Hd _) (Hh _)) as (series & xs_f & Hseries & Hans & Hne & ->).
  cbn [now] in Hans.
  destruct (render_stage_replay i (station_id_of_label sl) start_d end_d df _ w1 Er)
    as (xs_r & -> & _).
  exists places, items, labels, lb, idx, pl, lat, lon, elev, st_df, slabels, sl, inv,
    series, df.
  do 15 (split; [assumption|]).
  destruct (Nat.eqb (granularity i) 1);
    cbn [with_page with_log slot_set slot_get hourly_slot daily_slot now geocode_cache
         stations_cache daily_cache hourly_cache ext_log page];
    (split; [by rewrite <- !app_assoc|]); done.
Qed.

End ColdRun.

(** * A sample world

    A concrete oracle for the services and the runtime, used to run the
    script on concrete inputs. *)

Module Sample.

(** A stand-in for [repr] of a float: the value rounded to six decimals,
    without trailing zeros.  It agrees with Python on the values used
    below. *)
Definition repr_float (f : float) : pystr :=
  match Prim2SF f with
  | S754_zero s => if s then py "-0.0" else py "0.0"
  | S754_infinity s => if s then py "-inf" else py "inf"
  | S754_nan => py "nan"
  | S754_finite s m e =>
      let q := if 0 <=? e then Z.pos m * 2 ^ e * 1000000
               else (Z.pos m * 1000000 * 2 + 2 ^ (- e)) / (2 * 2 ^ (- e)) in
      let frac := rstrip_by (fun c => c =? 48) (digits 6 (q mod 1000000)) in
      (if s then py "-" else []) ++ str_int (q / 1000000) ++ py "."
        ++ (match frac with [] => py "0" | _ => frac end)
  end.

Definition place (name admin1 ctry : string) (lat lon : float) (elevation : option float)
    : json :=
  JObj ([(py "name", JStr (py name)); (py "latitude", JFloat lat);
         (py "longitude", JFloat lon)]
        ++ match elevation with
           | Some e => [(py "elevation", JFloat e)]
           | None => []
           end
        ++ [(py "country", JStr (py ctry)); (py "admin1", JStr (py admin1))]).

Definition brisbane : json :=
  place "Brisbane" "Queensland" "Australia" (-27.5)%float 153%float (Some 27%float).

(** Two candidates that read alike on the page; only the first carries an
    elevation. *)
Definition springfield_a : json :=
  place "Springfield" "Illinois" "United States" 39.5%float (-89.5)%float (Some 180%float).
Definition springfield_b : json :=
  place "Springfield" "Illinois" "United States" 39.5%float (-89.5)%float None.

(** Two candidates with labels of their own; the second has no elevation. *)
Definition paris_fr : json :=
  place "Paris" "Ile-de-France" "France" 48.75%float 2.25%float (Some 42%float).
Definition paris_tx : json :=
  place "Paris" "Texas" "United States" 33.5%float (-95.5)%float None.

Definition ok (results : list (pystr * json)) : exn + Response :=
  inr {| status_code := 200; body := Some (JObj results) |}.

Definition http_get (url name : pystr) (count : Z) (format language : pystr)
    (timeout t : Z) : exn + Response :=
  if bool_decide (name = py "Brisbane, Australia") then
    ok [(py "results", JArr [brisbane])]
  else if bool_decide (name = py "Springfield, United States") then
    ok [(py "results", JArr [springfield_a; springfield_b])]
  else if bool_decide (name = py "Paris, France") then
    ok [(py "results", JArr [paris_fr; paris_tx])]
  else if bool_decide (name = py "Offline, Nowhere") then
    inl (RequestException (py "connection refused"))
  else if bool_decide (name = py "Broken, Nowhere") then
    inr {| status_code := 500; body := None |}
  else ok [(py "generationtime_ms", JFloat 0.5%float)].

Definition stations : StationFrame :=
  {| sf_has_name := true; sf_has_distance := true;
     sf_rows := [ {| st_id := py "94578"; st_name := JStr (py "Brisbane");
                     st_distance := 1200.5%float |};
                  {| st_id := py "94576"; st_name := JStr (py "Brisbane Aero");
                     st_distance := 13764.25%float |} ] |}.

Definition ms_nearby (lat lon elev : float) (limit t : Z) : exn + StationFrame :=
  if PrimFloat.eqb lat 0%float && PrimFloat.eqb lon 0%float
  then inr {| sf_has_name := true; sf_has_distance := true; sf_rows := [] |}
  else inr stations.

Definition jan (d : Z) : timestamp := Timestamp (Date 2024 1 d) 0 0 0.

Definition daily_table : DataFrame :=
  {| df_index_name := Some (py "time");
     df_columns := [(py "temp", DFloat64); (py "tmin", DFloat64); (py "tmax", DFloat64);
                    (py "prcp", DFloat64); (py "wspd", DFloat64); (py "coco", DObject)];
     df_rows := [ (jan 1, [CFloat 25.5%float; CFloat 21%float; CFloat 30%float;
                           CFloat 0%float; CFloat 12.5%float; CNone]);
                  (jan 2, [CFloat 26%float; CFloat 22.5%float; CFloat 31%float;
                           CFloat 4.5%float; CFloat 9%float; CStr (py "rain, light")]);
                  (jan 3, [CFloat 24.5%float; CFloat 20%float; CFloat 29.5%float;
                           CFloat nan; CFloat 15%float; CNone]) ] |}.

Definition hourly_table : DataFrame :=
  {| df_index_name := Some (py "time");
     df_columns := [(py "temp", DFloat64); (py "rhum", DInt64)];
     df_rows := [ (Timestamp (Date 2024 1 1) 0 0 0, [CFloat 23.5%float; CInt 88]);
                  (Timestamp (Date 2024 1 1) 1 0 0, [CFloat 23%float; CInt 90]) ] |}.

Definition ms_daily (station_id : pystr) (start_d end_d : dval) (t : Z)
    : exn + DataFrame := inr daily_table.

Definition ms_hourly (station_id : pystr) (start_dt end_dt : datetime) (t : Z)
    : exn + DataFrame := inr hourly_table.

Definition ms_inventory (station_id : pystr) (t : Z) : exn + Inventory :=
  inr {| inv_start := py "2000-01-01"; inv_end := py "2024-12-31"; inv_df := None |}.

(** Arrow holds text as UTF-8: a table with a lone surrogate in a cell is
    refused.  Points and figures that pass the checks of the program are
    accepted. *)
Definition st_dataframe_ok (df : DataFrame) : exn + unit :=
  if forallb (fun r : timestamp * list cell =>
                forallb (fun c => match c with
                                  | CStr s => bool_decide (encodable s)
                                  | _ => true
                                  end) r.2) (df_rows df)
  then inr tt else inl UnicodeEncodeError.

Definition ms_point_ok (lat lon elev : float) : exn + unit := inr tt.

Definition px_ok (df_plot : Frame) (fig : chart) : exn + unit := inr tt.

(** The two runtime functions the samples do not exercise are stand-ins. *)
Definition external : External :=
  Build_External http_get ms_point_ok ms_nearby ms_daily ms_hourly ms_inventory
                 st_dataframe_ok px_ok repr_float (fun _ => py "...") (fun _ => None).

Definition start : world := World 1000 ∅ ∅ ∅ ∅ [] [].

Definition query (ctry cty : string) (p : dval) (g place_k station_k : nat) : inputs :=
  {| country := py ctry; city := py cty; period := p; granularity := g;
     place_choice := place_k; station_choice := station_k; columns_choice := None |}.

Definition january : dval := DTuple [Date 2024 1 1; Date 2024 1 31].

End Sample.

(** * The script on the sample world *)

Definition brisbane_query : inputs := Sample.query "Australia" "Brisbane" Sample.january 0 0 0.

Definition reversed_query : inputs :=
  Sample.query "Australia" "Brisbane" (DTuple [Date 2024 2 1; Date 2024 1 1]) 0 0 0.

(** One date was picked in the date widget, which is in range mode (its
    default value is a pair): it hands back a tuple holding that date. *)
Definition one_pick_query : inputs :=
  Sample.query "Australia" "Brisbane" (DTuple [Date 2024 1 1]) 1 0 0.

Definition one_pick_daily_query : inputs :=
  Sample.query "Australia" "Brisbane" (DTuple [Date 2024 1 1]) 0 0 0.

Definition nowhere_query : inputs := Sample.query "Atlantis" "Nowhere" Sample.january 0 0 0.

(** The second of two candidates that read alike is chosen. *)
Definition springfield_query : inputs :=
  Sample.query "United States" "Springfield" Sample.january 0 1 0.

Definition daily_bytes : pybytes :=
  Eval vm_compute in
    match @df_to_csv_bytes Sample.external Sample.daily_table with
    | inr data => data
    | inl _ => []
    end.

Definition daily_frame_reset : Frame :=
  {| fr_time := py "time";
     fr_columns := df_columns Sample.daily_table;
     fr_rows := df_rows Sample.daily_table |}.

(** C5.  What the code does when two candidates carry the same label and
    the second is chosen: the geocoder's list holds two candidates with the
    same label, the second without an elevation field; with the second
    chosen in the selectbox, the station lookup is asked for the point with
    the first candidate's elevation, 180.0, not 0.0. *)
Lemma duplicate_label_resolves_to_first_candidate :
  let i := springfield_query in
  let w := (@script Sample.external i Sample.start).2 in
  geocode_cache w !! (city i, country i, 10, py "pt")
  = Some (1000, JArr [Sample.springfield_a; Sample.springfield_b])
  /\ @place_label Sample.external Sample.springfield_a
     = @place_label Sample.external Sample.springfield_b
  /\ place_choice i = 1%nat
  /\ @dict_get Sample.springfield_b (py "elevation") JNull = inr JNull
  /\ @place_coordinates Sample.external Sample.springfield_b
     = inr (39.5%float, (-89.5)%float, 0%float)
  /\ ext_log w !! 1%nat = Some (MsNearby 39.5%float (-89.5)%float 180%float 10).
Proof. vm_compute. repeat split. Qed.

Lemma start_after_end_halts_witness :
  (@script Sample.external reversed_query Sample.start).1 = Stopped
  /\ ext_log (@script Sample.external reversed_query Sample.start).2 = [].
Proof.
  destruct (@start_after_end_halts Sample.external reversed_query Sample.start
              (DDate (Date 2024 2 1)) (DDate (Date 2024 1 1)) eq_refl eq_refl)
    as (E & Hlog & _).
  split; [by rewrite E | exact Hlog].
Defined.

(** C10.  What the code does when one date is picked instead of a pair:
    the widget hands back the tuple holding that date; it is not a pair, so
    the start and the end are both that tuple, not the date.  The
    validation lets it through.  With the hourly series chosen, the fetch
    raises TypeError before the series service is asked, and the run ends
    with the error of the series stage; with the daily series, the service
    is asked for a range from the tuple to the tuple. *)
Lemma one_picked_date_is_kept_as_a_tuple :
  let d := Date 2024 1 1 in
  let out := @script Sample.external one_pick_query Sample.start in
  period one_pick_query = DTuple [d]
  /\ normalize_period (period one_pick_query) = (DTuple [d], DTuple [d])
  /\ dval_gt (DTuple [d]) (DTuple [d]) = Some false
  /\ out.1 = Stopped
  /\ last (page out.2)
     = Some (StError (py "Falha ao buscar série temporal. Detalhe: ") (Some TypeError))
  /\ ext_log out.2
     = [geocode_request (py "Brisbane", py "Australia", 10, py "pt");
        MsNearby (-27.5)%float 153%float 27%float 10; MsInventory (py "94578")]
  /\ ext_log (@script Sample.external one_pick_daily_query Sample.start).2 !! 3%nat
     = Some (MsDaily (py "94578") (DTuple [d]) (DTuple [d])).
Proof. vm_compute. repeat split. Qed.

Lemma no_location_or_failure_halts_witness :
  let a := (city nowhere_query, country nowhere_query, 10, py "pt") in
  @script Sample.external nowhere_query Sample.start
  = (Stopped,
     World 1000 (<[a := (1000, JArr [])]> ∅) ∅ ∅ ∅ [geocode_request a]
           (header_widgets nowhere_query ++ [no_location_warning])).
Proof.
  intros a.
  destruct (@no_location_or_failure_halts Sample.external nowhere_query Sample.start
              (DDate (Date 2024 1 1)) (DDate (Date 2024 1 31)) eq_refl eq_refl)
    as (_ & Hmiss).
  destruct (Hmiss eq_refl) as (Hempty & _ & _).
  apply (Hempty {| status_code := 200;
                   body := Some (JObj [(py "generationtime_ms", JFloat 0.5%float)]) |}
                [(py "generationtime_ms", JFloat 0.5%float)]).
  - vm_compute. reflexivity.
  - cbn [status_code]. lia.
  - reflexivity.
  - left. vm_compute. reflexivity.
Defined.

Lemma daily_text_encodable :
  Forall (Forall encodable) (@export_records Sample.external daily_frame_reset).
Proof. apply (bool_decide_unpack _). vm_compute. exact I. Qed.

Lemma daily_index_valid :
  Forall (fun r : timestamp * list cell => valid_timestamp r.1) (df_rows Sample.daily_table).
Proof. repeat constructor; cbn; lia. Qed.

Lemma export_round_trip_witness :
  exists data header rows,
    @df_to_csv_bytes Sample.external Sample.daily_table = inr data
    /\ read_csv data = Some (header, rows)
    /\ length rows = 3%nat
    /\ read_time_index data = Some [Sample.jan 1; Sample.jan 2; Sample.jan 3].
Proof.
  exact (@export_round_trip Sample.external Sample.daily_table daily_frame_reset
           eq_refl daily_text_encodable daily_index_valid).
Defined.

Definition daily_text : pystr :=
  py "time,temp,tmin,tmax,prcp,wspd,coco
2024-01-01,25.5,21.0,30.0,0.0,12.5,
2024-01-02,26.0,22.5,31.0,4.5,9.0," ++ [cp_quote] ++ py "rain, light" ++ [cp_quote] ++ py "
2024-01-03,24.5,20.0,29.5,,15.0,
".

Lemma export_is_utf8_delimited_text_witness :
  (exists data,
      @df_to_csv_bytes Sample.external Sample.daily_table = inr data
      /\ Utf8.decode data = Some daily_text
      /\ @render_stage Sample.external brisbane_query (py "94578")
           (DDate (Date 2024 1 1)) (DDate (Date 2024 1 31)) Sample.daily_table Sample.start
         = (Ret tt,
            with_page Sample.start
              (preview_and_charts brisbane_query Sample.daily_table daily_frame_reset
               ++ [StDownloadButton (py "Baixar CSV") data
                     (file_name (py "Australia") (py "Brisbane") (py "94578")
                        (DDate (Date 2024 1 1)) (DDate (Date 2024 1 31)))
                     (py "text/csv")])))
  /\ file_name (py "Australia") (py "Brisbane") (py "94578")
       (DDate (Date 2024 1 1)) (DDate (Date 2024 1 31))
     = py "meteostat_Australia_Brisbane_94578_2024-01-01_2024-01-31.csv"
  /\ (cp_space ∉ file_name (country brisbane_query) (city brisbane_query) (py "94578")
                     (DDate (Date 2024 1 1)) (DDate (Date 2024 1 31))).
Proof.
  destruct (@export_is_utf8_delimited_text Sample.external brisbane_query (py "94578")
              (DDate (Date 2024 1 1)) (DDate (Date 2024 1 31)) Sample.daily_table
              daily_frame_reset eq_refl daily_text_encodable)
    as ((data & Hd & _ & Hdec & _ & Hrender) & Hname & _).
  split; [|split; [vm_compute; reflexivity | exact Hname]].
  exists data. split; [exact Hd|]. split.
  - rewrite Hdec. vm_compute. reflexivity.
  - exact (Hrender Sample.start ltac:(apply elem_of_cons; by left)
             ltac:(vm_compute; reflexivity) ltac:(vm_compute; repeat constructor)).
Defined.

Lemma pair_of_fst {A B : Type} (x : A * B) (a : A) : x.1 = a -> x = (a, x.2).
Proof. intros <-. by destruct x. Qed.

Lemma first_station_is_default_witness :
  let r := @nearby_stations Sample.external (-27.5)%float 153%float 27%float Sample.start in
  @select_station Sample.external brisbane_query (-27.5)%float 153%float 27%float Sample.start
  = (Ret (py "94578", py "Brisbane"),
     with_page r.2
       [StExpander (py "Trocar estação (opcional)");
        StSelectbox (py "Estação")
          [py "94578 — Brisbane (distância: 1200 m)";
           py "94576 — Brisbane Aero (distância: 13764 m)"]
          (py "94578 — Brisbane (distância: 1200 m)")]).
Proof.
  intros r.
  destruct (@first_station_is_default Sample.external brisbane_query
              (-27.5)%float 153%float 27%float Sample.start r.2 Sample.stations
              (pair_of_fst r (Ret Sample.stations) ltac:(vm_compute; reflexivity)))
    as (_ & Hsome).
  destruct (Hsome _ _ [py "94578 — Brisbane (distância: 1200 m)";
                       py "94576 — Brisbane Aero (distância: 13764 m)"]
              eq_refl ltac:(repeat constructor))
    as (selected & Hsel & Hstage & _).
  injection Hsel as <-. exact Hstage.
Defined.

(** A table none of whose columns is among the seven preferred ones. *)
Definition other_table : DataFrame :=
  {| df_index_name := Some (py "time");
     df_columns := [(py "coco", DObject); (py "dwpt", DFloat64); (py "snow", DInt64);
                    (py "wdir", DFloat64)];
     df_rows := [ (Sample.jan 1, [CStr (py "clear"); CFloat 18.5%float; CInt 0;
                                  CFloat 90%float]) ] |}.

Definition other_frame : Frame :=
  {| fr_time := py "time";
     fr_columns := df_columns other_table;
     fr_rows := df_rows other_table |}.

Lemma preview_default_columns_witness :
  (@numeric_cols daily_frame_reset = [py "temp"; py "tmin"; py "tmax"; py "prcp"; py "wspd"]
   /\ @multiselect_default daily_frame_reset
      = [py "temp"; py "tmin"; py "tmax"; py "prcp"; py "wspd"]
   /\ (prcp_bar_chart
       ∈ page (@render_stage Sample.external brisbane_query (py "94578")
                 (DDate (Date 2024 1 1)) (DDate (Date 2024 1 31))
                 Sample.daily_table Sample.start).2))
  /\ (@numeric_cols other_frame = [py "dwpt"; py "snow"; py "wdir"]
      /\ @multiselect_default other_frame = [py "dwpt"; py "snow"]
      /\ (prcp_bar_chart
          ∉ page (@render_stage Sample.external brisbane_query (py "94578")
                    (DDate (Date 2024 1 1)) (DDate (Date 2024 1 31))
                    other_table Sample.start).2)).
Proof.
  split.
  - destruct (@preview_default_columns_and_bar_chart Sample.external brisbane_query
                (py "94578") (DDate (Date 2024 1 1)) (DDate (Date 2024 1 31))
                Sample.daily_table daily_frame_reset Sample.start eq_refl
                ltac:(apply elem_of_cons; by left)
                ltac:(vm_compute; reflexivity) ltac:(vm_compute; repeat constructor))
      as (_ & _ & _ & _ & Hnum & Hdef & Hmd & _ & _ & Hbar).
    split; [rewrite Hnum; vm_compute; reflexivity|].
    split; [rewrite Hmd, Hdef, Hnum; vm_compute; reflexivity|].
    apply Hbar. right.
    change (py "prcp" ∈ [py "temp"; py "tmin"; py "tmax"; py "prcp"; py "wspd"]).
    do 3 (apply elem_of_cons; right). apply elem_of_cons. by left.
  - destruct (@preview_default_columns_and_bar_chart Sample.external brisbane_query
                (py "94578") (DDate (Date 2024 1 1)) (DDate (Date 2024 1 31))
                other_table other_frame Sample.start eq_refl
                ltac:(apply elem_of_cons; by left)
                ltac:(vm_compute; reflexivity) ltac:(vm_compute; repeat constructor))
      as (_ & _ & _ & _ & Hnum & Hdef & Hmd & _ & _ & Hbar).
    split; [rewrite Hnum; vm_compute; reflexivity|].
    split; [rewrite Hmd, Hdef, Hnum; vm_compute; reflexivity|].
    intros Hin. apply Hbar in Hin as [Hin|Hin].
    + by apply elem_of_nil in Hin.
    + change (py "prcp" ∈ [py "dwpt"; py "snow"]) in Hin.
      revert Hin. apply (bool_decide_unpack _). vm_compute. exact I.
Defined.



(** The memo table at work on the sample world: a first geocoding call at
    time 1000 asks the endpoint, an identical call 3599 seconds later does
    not, and one 3600 seconds later does again. *)
Example geocode_cache_run :
  let call t w := @geocode_city_country Sample.external (py "Brisbane") (py "Australia")
                    10 (py "pt") (at_time t w) in
  let w1 := (call 1000 Sample.start).2 in
  let w2 := (call 4599 w1).2 in
  let w3 := (call 4600 w2).2 in
  (call 1000 Sample.start).1 = Ret (JArr [Sample.brisbane])
  /\ (call 4599 w1).1 = Ret (JArr [Sample.brisbane])
  /\ length (ext_log w1) = 1%nat /\ length (ext_log w2) = 1%nat
  /\ length (ext_log w3) = 2%nat.
Proof. vm_compute. repeat split. Qed.

Example daily_export_bytes :
  @df_to_csv_bytes Sample.external Sample.daily_table = inr daily_bytes.
Proof. vm_compute. reflexivity. Qed.

(** * A world with an outage

    The station lookup is down; the geocoder lists a candidate without
    coordinates for one name, and sends answers that cannot be read for
    the others. *)

Module Outage.

Definition lost : json :=
  JObj [(py "name", JStr (py "Lost")); (py "country", JStr (py "Nowhere"))].

Definition http_get (url name : pystr) (count : Z) (format language : pystr)
    (timeout t : Z) : exn + Response :=
  if bool_decide (name = py "Lost, Nowhere") then
    Sample.ok [(py "results", JArr [lost])]
  else if bool_decide (name = py "Garbled, Nowhere") then
    inr {| status_code := 200; body := None |}
  else inr {| status_code := 200; body := Some (JArr []) |}.

Definition ms_nearby (lat lon elev : float) (limit t : Z) : exn + StationFrame :=
  inl (LibraryError (py "stations unavailable")).

Definition external : External :=
  Build_External http_get Sample.ms_point_ok ms_nearby Sample.ms_daily Sample.ms_hourly
                 Sample.ms_inventory Sample.st_dataframe_ok Sample.px_ok
                 Sample.repr_float (fun _ => py "...") (fun _ => None).

End Outage.

(** The date widget was cleared: it hands back the empty tuple. *)
Definition cleared_query : inputs := Sample.query "Australia" "Brisbane" (DTuple []) 0 0 0.

(** The second station of the table is chosen. *)
Definition aero_query : inputs := Sample.query "Australia" "Brisbane" Sample.january 0 0 1.

Definition lost_query : inputs := Sample.query "Nowhere" "Lost" Sample.january 0 0 0.

Definition garbled_query : inputs := Sample.query "Nowhere" "Garbled" Sample.january 0 0 0.

Lemma only_a_reversed_pair_is_rejected_witness :
  dval_gt (normalize_period (period cleared_query)).1
          (normalize_period (period cleared_query)).2 = Some false.
Proof.
  exact (proj1 (@only_a_reversed_pair_is_rejected Sample.external cleared_query Sample.start
                  ltac:(intros a b Hp; discriminate Hp))).
Defined.

Lemma geocode_query_text_witness :
  (@geocode_city_country_body Sample.external (py "Brisbane", py "Australia", 10, py "pt")
     Sample.start).2
  = with_log Sample.start
      [HttpGet geocode_url (py "Brisbane, Australia") 10 (py "json") (py "pt") 30].
Proof.
  exact (proj1 (@geocode_query_text Sample.external (py "Brisbane") (py "Australia") 10
                  (py "pt") Sample.start eq_refl eq_refl)
               ltac:(vm_compute; discriminate) ltac:(vm_compute; discriminate)).
Defined.

Lemma station_lookup_failure_halts_witness :
  @station_stage Outage.external brisbane_query (-27.5)%float 153%float 27%float Sample.start
  = (Stopped,
     World 1000 ∅ ∅ ∅ ∅ [MsNearby (-27.5)%float 153%float 27%float 10]
           [station_error (LibraryError (py "stations unavailable"))])
  /\ @station_stage Sample.external brisbane_query 91%float 0%float 0%float Sample.start
     = (Stopped, World 1000 ∅ ∅ ∅ ∅ [] [station_error ValueError]).
Proof.
  split.
  - exact (proj1 (@station_lookup_failure_halts Outage.external brisbane_query
                    (-27.5)%float 153%float 27%float Sample.start
                    (LibraryError (py "stations unavailable"))
                    [MsNearby (-27.5)%float 153%float 27%float 10] eq_refl
                    (or_intror (conj eq_refl (conj eq_refl eq_refl))))).
  - exact (proj1 (@station_lookup_failure_halts Sample.external brisbane_query
                    91%float 0%float 0%float Sample.start ValueError [] eq_refl
                    (or_introl (conj eq_refl eq_refl)))).
Defined.

Lemma heading_names_the_first_station_witness :
  let r := @nearby_stations Sample.external (-27.5)%float 153%float 27%float Sample.start in
  let out := @station_stage Sample.external aero_query (-27.5)%float 153%float 27%float
               Sample.start in
  ext_log out.2 = ext_log r.2 ++ [MsInventory (py "94576")]
  /\ StWrite (py "**94576** — Brisbane") ∈ page out.2.
Proof.
  intros r out.
  destruct (@heading_names_the_first_station Sample.external aero_query
              (-27.5)%float 153%float 27%float Sample.start r.2 Sample.stations
              {| st_id := py "94578"; st_name := JStr (py "Brisbane");
                 st_distance := 1200.5%float |}
              [ {| st_id := py "94576"; st_name := JStr (py "Brisbane Aero");
                   st_distance := 13764.25%float |} ]
              [py "94578 — Brisbane (distância: 1200 m)";
               py "94576 — Brisbane Aero (distância: 13764 m)"]
              {| st_id := py "94576"; st_name := JStr (py "Brisbane Aero");
                 st_distance := 13764.25%float |}
              (pair_of_fst r (Ret Sample.stations) ltac:(vm_compute; reflexivity))
              eq_refl ltac:(repeat constructor) eq_refl
              ltac:(split; [by apply (bool_decide_unpack _) | reflexivity]))
    as (Hlog & (selected & shown & Hpage) & _).
  split; [exact Hlog|].
  fold out in Hpage. rewrite Hpage.
  apply elem_of_app. right. apply elem_of_app. left.
  do 3 (apply elem_of_cons; right). apply elem_of_cons. left. reflexivity.
Defined.

Lemma unusable_candidate_raises_witness :
  (@geocode_stage Outage.external lost_query Sample.start).1
  = Raise (KeyError (py "latitude")).
Proof.
  pose (r := @geocode_city_country Outage.external (city lost_query) (country lost_query)
               10 (py "pt") Sample.start).
  destruct (@unusable_candidate_raises Outage.external lost_query Sample.start r.2
              [Outage.lost]
              (pair_of_fst r (Ret (JArr [Outage.lost])) ltac:(vm_compute; reflexivity)))
    as [_ Hsel].
  destruct (Hsel [py "Lost —   (Nowhere) [lat=None, lon=None]"]
              [(py "name", JStr (py "Lost")); (py "country", JStr (py "Nowhere"))]
              (py "Lost —   (Nowhere) [lat=None, lon=None]")
              ltac:(repeat constructor) eq_refl eq_refl ltac:(apply not_elem_of_nil))
    as [Hmissing _].
  destruct (Hmissing eq_refl) as [_ Hraise]. by rewrite Hraise.
Defined.

Lemma unreadable_answer_halts_witness :
  let a := (city garbled_query, country garbled_query, 10, py "pt") in
  @script Outage.external garbled_query Sample.start
  = (Stopped,
     World 1000 ∅ ∅ ∅ ∅ [geocode_request a]
           (header_widgets garbled_query ++ [geocode_error garbled_query JSONDecodeError])).
Proof.
  intros a.
  destruct (@unreadable_answer_halts Outage.external garbled_query Sample.start
              (DDate (Date 2024 1 1)) (DDate (Date 2024 1 31))
              {| status_code := 200; body := None |}
              eq_refl eq_refl eq_refl ltac:(vm_compute; reflexivity)
              ltac:(cbn [status_code]; lia))
    as [Hnone _].
  exact (Hnone eq_refl).
Defined.

Lemma fresh_session_is_stale : stale Sample.start.
Proof. by repeat split. Qed.

Lemma second_run_asks_only_the_inventory_witness :
  let first := @script Sample.external brisbane_query Sample.start in
  exists station_id,
    ext_log (@script Sample.external brisbane_query (at_time 1500 first.2)).2
    = ext_log first.2 ++ [MsInventory station_id].
Proof.
  intros first.
  destruct (@second_run_asks_only_the_inventory Sample.external brisbane_query
              Sample.start first.2 1500 fresh_session_is_stale
              (pair_of_fst first (Ret tt) ltac:(vm_compute; reflexivity))
              ltac:(vm_compute; reflexivity))
    as (station_id & _ & Hlog & _).
  by exists station_id.
Defined.

Lemma cold_run_asks_all_four_witness :
  let first := @script Sample.external brisbane_query Sample.start in
  ext_log first.2
  = [geocode_request (py "Brisbane", py "Australia", 10, py "pt");
     MsNearby (-27.5)%float 153%float 27%float 10; MsInventory (py "94578");
     MsDaily (py "94578") (DDate (Date 2024 1 1)) (DDate (Date 2024 1 31))]
  /\ stations_cache first.2 !! ((-27.5)%float, 153%float, 27%float)
     = Some (1000, Sample.stations).
Proof.
  intros first.
  destruct (@cold_run_asks_all_four Sample.external brisbane_query Sample.start first.2
              fresh_session_is_stale
              (pair_of_fst first (Ret tt) ltac:(vm_compute; reflexivity)))
    as (places & items & labels & l & idx & p & lat & lon & elev & st_df & slabels & sl
        & inv & series & df
        & Hbody & Hit & HF & Hch & Hli & Hgi & Hpc & _ & Hnear & HFs & Hchs & _ & Hseries
        & _ & _ & Hlog & _ & _ & Hst & _).
  vm_compute in Hbody. injection Hbody as <-.
  vm_compute in Hit. injection Hit as <-.
  apply Forall2_cons_inv_l in HF as (l0 & labels' & Hl0 & HF & ->).
  apply Forall2_nil_inv_l in HF as ->.
  vm_compute in Hl0. injection Hl0 as <-.
  vm_compute in Hch. injection Hch as <-.
  vm_compute in Hli. injection Hli as <-.
  vm_compute in Hgi. injection Hgi as <-.
  vm_compute in Hpc. injection Hpc as <- <- <-.
  vm_compute in Hnear. injection Hnear as <-.
  apply Forall2_cons_inv_l in HFs as (s0 & slabels' & Hs0 & HFs & ->).
  apply Forall2_cons_inv_l in HFs as (s1 & slabels'' & Hs1 & HFs & ->).
  apply Forall2_nil_inv_l in HFs as ->.
  vm_compute in Hs0. injection Hs0 as <-.
  vm_compute in Hs1. injection Hs1 as <-.
  vm_compute in Hchs. injection Hchs as <-.
  vm_compute in Hseries. injection Hseries as <-.
  split.
  - rewrite Hlog. vm_compute. reflexivity.
  - rewrite Hst. apply lookup_insert_eq.
Defined.

(** Tables the last stage treats differently: one without a numeric
    column, and one with a column named like its index. *)
Definition notes_table : DataFrame :=
  {| df_index_name := Some (py "time");
     df_columns := [(py "coco", DObject)];
     df_rows := [ (Sample.jan 1, [CStr (py "clear")]); (Sample.jan 2, [CNone]) ] |}.

Definition notes_frame : Frame :=
  {| fr_time := py "time";
     fr_columns := df_columns notes_table;
     fr_rows := df_rows notes_table |}.

Definition notes_bytes : pybytes :=
  Eval vm_compute in
    match @df_to_csv_bytes Sample.external notes_table with
    | inr data => data
    | inl _ => []
    end.

Definition clash_table : DataFrame :=
  {| df_index_name := Some (py "time");
     df_columns := [(py "temp", DFloat64); (py "time", DObject)];
     df_rows := [ (Sample.jan 1, [CFloat 25.5%float; CStr (py "noon")]) ] |}.

(** The hourly series is chosen in the radio. *)
Definition hourly_query : inputs := Sample.query "Australia" "Brisbane" Sample.january 1 0 0.

Lemma series_stage_outcomes_witness :
  ext_log (@fetch_stage Sample.external (py "Horário") (py "94578")
             (DDate (Date 2024 1 1)) (DDate (Date 2024 1 31)) Sample.start).2
  = [MsHourly (py "94578") (DateTime (Date 2024 1 1) (Time 0 0 0 0))
              (DateTime (Date 2024 1 31) (Time 23 59 0 0))].
Proof.
  exact (proj2 (proj2 (@series_stage_outcomes Sample.external hourly_query (py "94578")
                         (DDate (Date 2024 1 1)) (DDate (Date 2024 1 31)) Sample.start))
               (Date 2024 1 1) (Date 2024 1 31) eq_refl eq_refl).
Defined.

Lemma default_columns_are_offered_witness :
  @render_stage Sample.external brisbane_query (py "94578")
    (DDate (Date 2024 1 1)) (DDate (Date 2024 1 31)) notes_table Sample.start
  = (Ret tt,
     with_page Sample.start
       [ StSubheader (py "Pré-visualização dos dados");
         StDataframe (df_head 50 notes_table);
         StSubheader (py "Gráficos");
         StMultiselect (py "Selecione variáveis") [] [] [];
         no_selection_info;
         StSubheader (py "Download");
         StDownloadButton (py "Baixar CSV") notes_bytes
           (py "meteostat_Australia_Brisbane_94578_2024-01-01_2024-01-31.csv")
           (py "text/csv") ]).
Proof.
  exact (proj2 (proj2 (proj2 (@default_columns_are_offered Sample.external notes_frame)))
               brisbane_query (py "94578")
               (DDate (Date 2024 1 1)) (DDate (Date 2024 1 31)) notes_table notes_bytes
               Sample.start eq_refl ltac:(vm_compute; reflexivity)
               ltac:(vm_compute; reflexivity) eq_refl ltac:(vm_compute; reflexivity)).
Defined.

(** More tables the last stage raises on: a column name borne twice; a
    boolean column beside a float column, none of them among the preferred
    ones, so both are selected; and 51 rows with a lone surrogate in the
    last one, which the preview does not show. *)
Definition twice_table : DataFrame :=
  {| df_index_name := Some (py "time");
     df_columns := [(py "temp", DFloat64); (py "temp", DFloat64)];
     df_rows := [ (Sample.jan 1, [CFloat 25.5%float; CFloat 25.5%float]) ] |}.

Definition mixed_table : DataFrame :=
  {| df_index_name := Some (py "time");
     df_columns := [(py "frost", DBool); (py "dwpt", DFloat64)];
     df_rows := [ (Sample.jan 1, [CBool false; CFloat 18.5%float]) ] |}.

Definition mixed_frame : Frame :=
  {| fr_time := py "time";
     fr_columns := df_columns mixed_table;
     fr_rows := df_rows mixed_table |}.

Definition long_table : DataFrame :=
  {| df_index_name := Some (py "time");
     df_columns := [(py "temp", DFloat64); (py "coco", DObject)];
     df_rows := map (fun k : Z =>
                       (Timestamp (Date 2024 1 (1 + k / 24)) (k mod 24) 0 0,
                        [CFloat 25.5%float;
                         CStr (if k =? 50 then [55296] else py "clear")]))
                    (map Z.of_nat (seq 0 51)) |}.

Definition long_frame : Frame :=
  {| fr_time := py "time";
     fr_columns := df_columns long_table;
     fr_rows := df_rows long_table |}.

Lemma render_stage_failures_witness :
  let render df :=
    @render_stage Sample.external brisbane_query (py "94578")
      (DDate (Date 2024 1 1)) (DDate (Date 2024 1 31)) df Sample.start in
  render twice_table
  = (Raise ValueError,
     with_page Sample.start [StSubheader (py "Pré-visualização dos dados")])
  /\ render clash_table
     = (Raise ValueError, with_page Sample.start (preview_widgets clash_table))
  /\ (selection brisbane_query mixed_frame = [py "frost"; py "dwpt"]
      /\ render mixed_table
         = (Raise ValueError,
            with_page Sample.start
              (up_to_multiselect brisbane_query mixed_table mixed_frame)))
  /\ (length (df_rows long_table) = 51%nat
      /\ render long_table
         = (Raise UnicodeEncodeError,
            with_page Sample.start
              (preview_and_charts brisbane_query long_table long_frame))).
Proof.
  intros render.
  split; [|split; [|split]].
  - exact (proj1 (@render_stage_failures Sample.external brisbane_query (py "94578")
                    (DDate (Date 2024 1 1)) (DDate (Date 2024 1 31)) twice_table
                    Sample.start)
                 ltac:(apply (bool_decide_unpack _); vm_compute; exact I)).
  - exact (proj2 (proj1 (proj2 (proj2
                    (@render_stage_failures Sample.external brisbane_query (py "94578")
                       (DDate (Date 2024 1 1)) (DDate (Date 2024 1 31)) clash_table
                       Sample.start))
                    ltac:(vm_compute; reflexivity))
                  (py "time") eq_refl
                  ltac:(apply elem_of_cons; right; apply elem_of_cons; by left))).
  - split; [vm_compute; reflexivity|].
    exact (proj1 (proj2 (proj1 (proj2 (proj2 (proj2
                    (@render_stage_failures Sample.external brisbane_query (py "94578")
                       (DDate (Date 2024 1 1)) (DDate (Date 2024 1 31)) mixed_table
                       Sample.start))
                    ltac:(vm_compute; reflexivity)))
                  mixed_frame eq_refl ltac:(vm_compute; discriminate)))
                 ltac:(apply elem_of_cons; by left) ltac:(vm_compute; reflexivity)).
  - split; [vm_compute; reflexivity|].
    exact (proj2 (proj2 (proj2 (proj2
                    (@render_stage_failures Sample.external brisbane_query (py "94578")
                       (DDate (Date 2024 1 1)) (DDate (Date 2024 1 31)) long_table
                       Sample.start))
                    ltac:(vm_compute; reflexivity)))
                 long_frame ltac:(vm_compute; reflexivity)
                 ltac:(apply elem_of_cons; by left)
                 ltac:(vm_compute; repeat constructor)
                 ltac:(vm_compute; reflexivity)).
Defined.
